(** * Entra ID single sign-on and role based access control of Uptime Kuma

    A shallow embedding of
      - server/permissions.js                 (the role/permission table),
      - the OIDC socket handler               (login-code exchange, OIDC
        settings, user management),
      - the OIDC router                       (config, login and callback legs),
      - the RBAC migration                    (the [oidc_login_code] table and
        the new [user] columns),
    followed by the properties of the specification that were checked
    against it.

    Conventions.  A JavaScript value that may be absent is an [option] or a
    [jsval]; the database tables are finite maps over their primary or unique
    key; a handler is a function from the state it can see (its socket, the
    [World]) to its answer and the new state.  Strings are compared exactly,
    as SQLite's default BINARY collation and JavaScript's [===] do. *)

From Stdlib Require Import ZArith Ascii String List Bool Lia.
From stdpp Require Import base option list gmap strings fin_maps.

Open Scope Z_scope.
Open Scope string_scope.

(** ** JavaScript values *)

(** The values that travel in the settings store, in the settings payload of
    the socket and in the [code] argument of the exchange. *)
Inductive jsval : Type :=
  | JUndef                       (* undefined / null / absent property *)
  | JBool (b : bool)
  | JStr (s : string)
  | JArr (l : list string).

#[global] Instance jsval_eq_dec : EqDecision jsval.
Proof. solve_decision. Defined.

Definition str_truthy (s : string) : bool :=
  match s with EmptyString => false | _ => true end.

(** [!!v]: undefined, false and the empty string are falsy, every array is
    truthy. *)
Definition truthy (v : jsval) : bool :=
  match v with
  | JUndef => false
  | JBool b => b
  | JStr s => str_truthy s
  | JArr _ => true
  end.

(** [v || d] *)
Definition js_or (v d : jsval) : jsval := if truthy v then v else d.

(** [v === true] and [v !== false] *)
Definition is_true (v : jsval) : bool :=
  match v with JBool true => true | _ => false end.
Definition is_not_false (v : jsval) : bool :=
  match v with JBool false => false | _ => true end.

(** An optional string property: [None] is undefined or null. *)
Definition opt_truthy (o : option string) : bool :=
  match o with Some s => str_truthy s | None => false end.

(** [o || d] where [d] is a string *)
Definition opt_or (o : option string) (d : string) : string :=
  match o with
  | Some s => if str_truthy s then s else d
  | None => d
  end.

(** [o1 || o2] where both may be undefined *)
Definition opt_or_opt (o1 o2 : option string) : option string :=
  if opt_truthy o1 then o1 else o2.

(** What a JavaScript function call does: it returns or it throws. *)
Inductive outcome (A : Type) : Type :=
  | Return (a : A)
  | Throw (msg : string).
Arguments Return {A} a.
Arguments Throw {A} msg.

(** [arr.includes(x)] on an array of strings *)
Definition includes (arr : list string) (x : string) : bool :=
  existsb (String.eqb x) arr.

(** [s.split(sep)] for a one-character separator *)
Fixpoint split (sep : ascii) (s : string) : list string :=
  match s with
  | EmptyString => [EmptyString]
  | String c rest =>
      if Ascii.eqb c sep then EmptyString :: split sep rest
      else match split sep rest with
           | h :: t => String c h :: t
           | [] => [String c EmptyString]
           end
  end.

(** White space as [trim] sees it, among the characters a [string] holds
    here (code units below 256): tab, line feed, vertical tab, form feed,
    carriage return, space and no-break space. *)
Definition is_space (c : ascii) : bool :=
  let n := nat_of_ascii c in
  ((9 <=? n)%nat && (n <=? 13)%nat) || (n =? 32)%nat || (n =? 160)%nat.

Fixpoint trim_start (s : string) : string :=
  match s with
  | String c rest => if is_space c then trim_start rest else s
  | EmptyString => EmptyString
  end.

Fixpoint trim_end (s : string) : string :=
  match s with
  | EmptyString => EmptyString
  | String c rest =>
      match trim_end rest with
      | EmptyString => if is_space c then EmptyString else String c EmptyString
      | r => String c r
      end
  end.

Definition trim (s : string) : string := trim_end (trim_start s).

(** ** Rows of the [user] table and sockets *)

(** A row without its primary key [id]: the table is a map from [id] to the
    row, and a bean is the pair of both. *)
Record User : Type := mkUser {
  username : string;
  password : option string;
  active : bool;
  role : option string;            (* string(20), default 'admin' *)
  entra_oid : option string;       (* nullable, unique *)
  email : option string;
  display_name : option string;
  last_login : option Z
}.

(** The two properties of a Socket.io socket that the handlers use. *)
Record Socket : Type := mkSocket {
  userID : option Z;
  userRole : option string
}.

(** [!socket.userID]: no identity, or the number 0. *)
Definition no_userID (socket : Socket) : bool :=
  match userID socket with
  | None => true
  | Some n => Z.eqb n 0
  end.

(** ** server/permissions.js *)

Module Permissions.

(** The own properties of the object literal [PERMISSIONS]. *)
Definition PERMISSIONS : list (string * list string) :=
  [ ("admin", ["*"]);
    ("viewer",
     [ "monitor:read"; "heartbeat:read"; "notification:read";
       "status-page:read"; "maintenance:read"; "proxy:read";
       "docker-host:read"; "remote-browser:read"; "api-key:read";
       "tag:read"; "cert-info:read" ]) ].

Definition ALL_PERMISSIONS : list string :=
  [ "monitor:read"; "monitor:write"; "monitor:delete";
    "heartbeat:read";
    "notification:read"; "notification:write"; "notification:delete";
    "status-page:read"; "status-page:write"; "status-page:delete";
    "maintenance:read"; "maintenance:write"; "maintenance:delete";
    "proxy:read"; "proxy:write"; "proxy:delete";
    "docker-host:read"; "docker-host:write"; "docker-host:delete";
    "remote-browser:read"; "remote-browser:write"; "remote-browser:delete";
    "api-key:read"; "api-key:write"; "api-key:delete";
    "tag:read"; "tag:write"; "tag:delete";
    "cert-info:read";
    "settings:read"; "settings:write";
    "user:read"; "user:write"; "user:delete" ].

(** [PERMISSIONS] is a plain object, so [PERMISSIONS[role]] also finds what
    it inherits from [Object.prototype]: functions and, for [__proto__], the
    prototype object.  All of them are truthy and none has an [includes]
    method. *)
Definition Object_prototype_keys : list string :=
  [ "constructor"; "__defineGetter__"; "__defineSetter__"; "hasOwnProperty";
    "__lookupGetter__"; "__lookupSetter__"; "isPrototypeOf";
    "propertyIsEnumerable"; "toString"; "valueOf"; "__proto__";
    "toLocaleString" ].

Inductive property : Type :=
  | OwnArray (perms : list string)
  | Inherited.

Fixpoint own_property (tbl : list (string * list string)) (key : string)
  : option (list string) :=
  match tbl with
  | [] => None
  | (k, v) :: rest => if String.eqb k key then Some v else own_property rest key
  end.

(** [PERMISSIONS[role]]; [None] is undefined. *)
Definition PERMISSIONS_get (key : string) : option property :=
  match own_property PERMISSIONS key with
  | Some perms => Some (OwnArray perms)
  | None => if includes Object_prototype_keys key then Some Inherited else None
  end.

(** The part the two permission checks share, from [const perms =
    PERMISSIONS[role]] on. *)
Definition check_perms (role permission : string) : outcome bool :=
  match PERMISSIONS_get role with
  | None => Return false
  | Some Inherited => Throw "perms.includes is not a function"
  | Some (OwnArray perms) =>
      if includes perms "*" then Return true
      else Return (includes perms permission)
  end.

Definition hasPermission (user : option User) (permission : string)
  : outcome bool :=
  match user with
  | None => Return false
  | Some u => check_perms (opt_or (role u) "viewer") permission
  end.

Definition socketHasPermission (socket : Socket) (permission : string)
  : outcome bool :=
  if no_userID socket then Return false
  else check_perms (opt_or (userRole socket) "viewer") permission.

Definition isAdmin (role : option string) : bool :=
  bool_decide (role = Some "admin").

Definition socketIsAdmin (socket : Socket) : bool :=
  bool_decide (userRole socket = Some "admin").

Definition checkPermission (socket : Socket) (permission : string)
  : outcome unit :=
  if no_userID socket then Throw "You are not logged in."
  else
    match socketHasPermission socket permission with
    | Throw m => Throw m
    | Return false =>
        Throw "Permission denied. You don't have access to this feature."
    | Return true => Return tt
    end.

Definition checkAdmin (socket : Socket) : outcome unit :=
  if no_userID socket then Throw "You are not logged in."
  else if negb (socketIsAdmin socket)
       then Throw "Permission denied. Admin access required."
       else Return tt.

(** The role may be missing: [PERMISSIONS[undefined]] reads the key
    ["undefined"], which [PERMISSIONS] neither has nor inherits. *)
Definition getPermissionsForRole (role : option string)
  : outcome (list string) :=
  match PERMISSIONS_get (default "undefined" role) with
  | None => Return []
  | Some Inherited => Throw "perms.includes is not a function"
  | Some (OwnArray perms) =>
      if includes perms "*" then Return ALL_PERMISSIONS else Return perms
  end.

Definition ROLES : list (string * string) :=
  [ ("ADMIN", "admin"); ("VIEWER", "viewer") ].

Definition viewer_permissions : list string :=
  default [] (own_property PERMISSIONS "viewer").

End Permissions.

(** ** The state the handlers share *)

(** A row of [oidc_login_code] without its [code] column: [code] is NOT NULL
    and UNIQUE in the migration, so the table is a map from [code] to the
    rest of the row. *)
Record LoginCode : Type := mkLoginCode {
  user_id : Z;
  expires_at : Z;                (* milliseconds since the epoch *)
  used : bool
}.

(** An entry of the router's [authSessions] map. *)
Record AuthSession : Type := mkAuthSession {
  codeVerifier : string;
  nonce : string;
  redirectUri : string;
  expiresAt : Z
}.

Record World : Type := mkWorld {
  users : gmap Z User;                       (* table user, by id *)
  oidc_login_code : gmap string LoginCode;   (* table oidc_login_code, by code *)
  settings : gmap string jsval;              (* the settings store *)
  authSessions : gmap string AuthSession     (* the router's Map, by state *)
}.

Definition set_users (f : gmap Z User -> gmap Z User) (w : World) : World :=
  mkWorld (f (users w)) (oidc_login_code w) (settings w) (authSessions w).
Definition set_codes (f : gmap string LoginCode -> gmap string LoginCode)
  (w : World) : World :=
  mkWorld (users w) (f (oidc_login_code w)) (settings w) (authSessions w).
Definition set_settings (f : gmap string jsval -> gmap string jsval)
  (w : World) : World :=
  mkWorld (users w) (oidc_login_code w) (f (settings w)) (authSessions w).
Definition set_sessions (f : gmap string AuthSession -> gmap string AuthSession)
  (w : World) : World :=
  mkWorld (users w) (oidc_login_code w) (settings w) (f (authSessions w)).

(** ** Handler bodies: state and exceptions

    The body of an [async] handler reads and writes the world and may throw;
    what it wrote before it threw stays written. *)

Definition M (A : Type) : Type := World -> outcome A * World.

#[global] Instance M_ret : MRet M := fun A a w => (Return a, w).
#[global] Instance M_bind : MBind M := fun A B f m w =>
  match m w with
  | (Return a, w') => f a w'
  | (Throw msg, w') => (Throw msg, w')
  end.

(** [throw new Error(msg)] *)
Definition throw {A} (msg : string) : M A := fun w => (Throw msg, w).

(** a call of a function that does not touch the world *)
Definition call {A} (o : outcome A) : M A := fun w => (o, w).

(** [if (c) { throw new Error(msg); }] *)
Definition throw_if (c : bool) (msg : string) : M unit :=
  if c then throw msg else mret tt.

(** A body that leaves the router's session map alone. *)
Definition keeps_sessions {A} (m : M A) : Prop :=
  forall w, authSessions (snd (m w)) = authSessions w.

(** ** The collaborators: redbean-node and the settings store *)

Definition is_active_admin (u : User) : bool :=
  bool_decide (role u = Some "admin") && active u.

Module R.

(** [R.findOne("oidc_login_code", " code = ? AND used = 0 ", [code])] *)
Definition findOne_unused_code (code : string) : M (option LoginCode) :=
  fun w =>
    (Return (match oidc_login_code w !! code with
             | Some lc => if used lc then None else Some lc
             | None => None
             end), w).

(** [R.trash(loginCode)] *)
Definition trash_code (code : string) : M unit :=
  fun w => (Return tt, set_codes (delete code) w).

(** [R.store(loginCode)] of a bean that was found or changed *)
Definition store_code (code : string) (lc : LoginCode) : M unit :=
  fun w => (Return tt, set_codes (insert code lc) w).

(** [R.store(loginCodeBean)] of a dispensed bean: an INSERT, which the
    UNIQUE constraint on [code] refuses when the code is there already. *)
Definition insert_code (code : string) (lc : LoginCode) : M unit :=
  fun w =>
    match oidc_login_code w !! code with
    | Some _ => (Throw "UNIQUE constraint failed: oidc_login_code.code", w)
    | None => (Return tt, set_codes (insert code lc) w)
    end.

(** [R.exec("DELETE FROM oidc_login_code WHERE user_id = ?", [userId])] *)
Definition delete_codes_of (uid : Z) : M unit :=
  fun w =>
    (Return tt,
     set_codes (filter (fun kv => user_id (snd kv) <> uid)) w).

(** [R.findOne("user", " id = ? AND active = 1 ", [userId])] *)
Definition findOne_active_user (uid : Z) : M (option User) :=
  fun w =>
    (Return (match users w !! uid with
             | Some u => if active u then Some u else None
             | None => None
             end), w).

(** [R.count("user", " role = 'admin' AND active = 1 AND id != ? ", [userId])] *)
Definition count_other_admins (uid : Z) : M nat :=
  fun w =>
    (Return (size (filter (fun kv => is_active_admin (snd kv) = true
                                     /\ fst kv <> uid) (users w))), w).

(** [R.store(user)] of a bean that was found *)
Definition store_user (uid : Z) (u : User) : M unit :=
  fun w => (Return tt, set_users (insert uid u) w).

End R.

(** Modelled from the spec: the settings store of [../settings], which is
    not among the sources; it "exposes [get(key) -> value | undefined] and
    [set(key, value) -> void]". *)
Module Settings.

(** Modelled from the spec: [Settings.get(key)], "[get(key) -> value |
    undefined]". *)
Definition get (key : string) : M jsval :=
  fun w => (Return (default JUndef (settings w !! key)), w).

(** Modelled from the spec: [Settings.set(key, value)], "[set(key, value)
    -> void]". *)
Definition set (key : string) (v : jsval) : M unit :=
  fun w => (Return tt, set_settings (insert key v) w).

End Settings.

(** Modelled from the spec: [checkLogin] of [../util-server], which is not
    among the sources; "[requireLoggedIn(session)] fails with
    [Unauthenticated] if no identity bound". *)
Definition checkLogin (socket : Socket) : outcome unit :=
  if no_userID socket then Throw "You are not logged in." else Return tt.

(** Modelled from the spec: [User.createJWT(user, server.jwtSecret)] of
    [../model/user], which is not among the sources; "a bearer token minted
    for the resolved user/role pair".  The token is kept symbolic. *)
Record Token : Type := createJWT {
  token_user_id : Z;
  token_user : User;
  token_secret : string
}.

(** ** The OIDC socket handler *)

(** The settings object that ["getOidcSettings"] answers with and that
    ["saveOidcSettings"] is given. *)
Record OidcSettings : Type := mkOidcSettings {
  oidcEntraEnabled : jsval;
  oidcEntraTenantId : jsval;
  oidcEntraClientId : jsval;
  oidcEntraClientSecret : jsval;
  oidcEntraAllowedGroups : jsval;
  oidcEntraDefaultRole : jsval;
  oidcEntraAutoCreateUsers : jsval
}.

(** What a handler passes to the [callback] of its event. *)
Inductive Response : Type :=
  | Fail (msg : string)                            (* { ok: false, msg } *)
  | OkMsg (msg : string)                           (* { ok: true, msg, msgi18n: true } *)
  | OkLogin (token : Token) (role : option string) (* { ok: true, token, role } *)
  | OkSettings (s : OidcSettings).                 (* { ok: true, settings } *)

Definition is_ok (r : Response) : bool :=
  match r with Fail _ => false | _ => true end.

(** [try { body } catch (e) { callback({ ok: false, msg: e.message }) }] *)
Definition try_catch (body : M Response) (w : World) : Response * World :=
  match body w with
  | (Return r, w') => (r, w')
  | (Throw msg, w') => (Fail msg, w')
  end.

(** [!userId] for an id that is a number or absent *)
Definition falsy_id (o : option Z) : bool :=
  match o with
  | None => true
  | Some n => Z.eqb n 0
  end.

Record RoleChange : Type := mkRoleChange {
  userId : option Z;
  new_role : option string
}.

Definition mark_used (lc : LoginCode) : LoginCode :=
  mkLoginCode (user_id lc) (expires_at lc) true.

Definition with_role (r : string) (u : User) : User :=
  mkUser (username u) (password u) (active u) (Some r) (entra_oid u)
         (email u) (display_name u) (last_login u).

Definition deactivate (u : User) : User :=
  mkUser (username u) (password u) false (role u) (entra_oid u)
         (email u) (display_name u) (last_login u).

Definition SECRET_PLACEHOLDER : string := "********".

Module oidcSocketHandler.

(** The [try] block of ["loginByOidcCode"], after the test of [callback].
    It answers and gives the socket as it leaves it.  [now] is what
    [new Date()] reads; [socket.join] and the log are left out. *)
Definition loginByOidcCode_body (socket : Socket) (jwtSecret : string)
  (now : Z) (code : jsval) : M (Response * Socket) :=
  match code with
  | JStr c =>
      if negb (str_truthy c) then mret (Fail "Invalid login code", socket)
      else
        loginCode ← R.findOne_unused_code c;
        match loginCode with
        | None => mret (Fail "Invalid or expired login code", socket)
        | Some lc =>
            if (expires_at lc <? now)%Z then
              _ ← R.trash_code c;
              mret (Fail "Login code expired", socket)
            else
              _ ← R.store_code c (mark_used lc);
              user ← R.findOne_active_user (user_id lc);
              match user with
              | None => mret (Fail "User not found or inactive", socket)
              | Some u =>
                  mret (OkLogin (createJWT (user_id lc) u jwtSecret) (role u),
                        mkSocket (Some (user_id lc))
                                 (Some (opt_or (role u) "viewer")))
              end
        end
  | _ => mret (Fail "Invalid login code", socket)
  end.

(** The event ["loginByOidcCode"]: [callback] tells whether the second
    argument is a function; [None] is no answer at all. *)
Definition loginByOidcCode (socket : Socket) (jwtSecret : string) (now : Z)
  (code : jsval) (callback : bool) (w : World)
  : option Response * Socket * World :=
  if negb callback then (None, socket, w)
  else
    match loginByOidcCode_body socket jwtSecret now code w with
    | (Return (r, socket'), w') => (Some r, socket', w')
    | (Throw _, w') => (Some (Fail "Authentication failed"), socket, w')
    end.

Definition getOidcSettings (socket : Socket) : World -> Response * World :=
  try_catch (
    _ ← call (checkLogin socket);
    _ ← call (Permissions.checkAdmin socket);
    enabled ← Settings.get "oidcEntraEnabled";
    tenantId ← Settings.get "oidcEntraTenantId";
    clientId ← Settings.get "oidcEntraClientId";
    clientSecret ← Settings.get "oidcEntraClientSecret";
    allowedGroups ← Settings.get "oidcEntraAllowedGroups";
    defaultRole ← Settings.get "oidcEntraDefaultRole";
    autoCreateUsers ← Settings.get "oidcEntraAutoCreateUsers";
    mret (OkSettings
      {| oidcEntraEnabled := JBool (is_true enabled);
         oidcEntraTenantId := js_or tenantId (JStr EmptyString);
         oidcEntraClientId := js_or clientId (JStr EmptyString);
         oidcEntraClientSecret :=
           if truthy clientSecret then JStr SECRET_PLACEHOLDER
           else JStr EmptyString;
         oidcEntraAllowedGroups := js_or allowedGroups (JArr []);
         oidcEntraDefaultRole := js_or defaultRole (JStr "viewer");
         oidcEntraAutoCreateUsers := JBool (is_not_false autoCreateUsers) |})).

(** [allowedGroups.split(",").map(g => g.trim()).filter(g => g)] *)
Definition parse_groups (s : string) : list string :=
  List.filter str_truthy (List.map trim (split "," s)).

(** [data.oidcEntraClientSecret && data.oidcEntraClientSecret !== "********"] *)
Definition new_secret (v : jsval) : bool :=
  truthy v && negb (bool_decide (v = JStr SECRET_PLACEHOLDER)).

(** [// Validate required fields if enabling] *)
Definition saveOidcSettings_validate (data : OidcSettings) : M unit :=
  if truthy (oidcEntraEnabled data) then
    _ ← throw_if (negb (truthy (oidcEntraTenantId data))
                  || negb (truthy (oidcEntraClientId data)))
          "Tenant ID and Client ID are required when enabling Entra ID SSO";
    existingSecret ← Settings.get "oidcEntraClientSecret";
    throw_if (negb (truthy existingSecret)
              && negb (truthy (oidcEntraClientSecret data)))
      "Client Secret is required when enabling Entra ID SSO"
  else mret tt.

(** [// Save settings], to the answer *)
Definition saveOidcSettings_store (data : OidcSettings) : M Response :=
  _ ← Settings.set "oidcEntraEnabled" (JBool (is_true (oidcEntraEnabled data)));
  _ ← Settings.set "oidcEntraTenantId"
        (js_or (oidcEntraTenantId data) (JStr EmptyString));
  _ ← Settings.set "oidcEntraClientId"
        (js_or (oidcEntraClientId data) (JStr EmptyString));
  _ ← (if new_secret (oidcEntraClientSecret data)
       then Settings.set "oidcEntraClientSecret" (oidcEntraClientSecret data)
       else mret tt);
  let allowedGroups :=
    match oidcEntraAllowedGroups data with
    | JStr s => JArr (parse_groups s)
    | v => v
    end in
  _ ← Settings.set "oidcEntraAllowedGroups" (js_or allowedGroups (JArr []));
  _ ← Settings.set "oidcEntraDefaultRole"
        (js_or (oidcEntraDefaultRole data) (JStr "viewer"));
  _ ← Settings.set "oidcEntraAutoCreateUsers"
        (JBool (is_not_false (oidcEntraAutoCreateUsers data)));
  mret (OkMsg "oidcSettingsSaved").

Definition saveOidcSettings (socket : Socket) (data : OidcSettings)
  : World -> Response * World :=
  try_catch (
    _ ← call (checkLogin socket);
    _ ← call (Permissions.checkAdmin socket);
    _ ← saveOidcSettings_validate data;
    saveOidcSettings_store data).

Definition setUserRole (socket : Socket) (data : RoleChange)
  : World -> Response * World :=
  try_catch (
    _ ← call (checkLogin socket);
    _ ← call (Permissions.checkAdmin socket);
    match userId data, new_role data with
    | Some uid, Some r =>
        _ ← throw_if (falsy_id (Some uid) || negb (str_truthy r))
              "User ID and role are required";
        _ ← throw_if (negb (includes ["admin"; "viewer"] r))
              "Invalid role. Must be 'admin' or 'viewer'";
        _ ← (if negb (String.eqb r "admin") then
               adminCount ← R.count_other_admins uid;
               throw_if (Nat.eqb adminCount 0)
                 "Cannot remove the last admin. At least one admin must remain."
             else mret tt);
        user ← R.findOne_active_user uid;
        match user with
        | None => throw "User not found"
        | Some u =>
            _ ← R.store_user uid (with_role r u);
            mret (OkMsg "userRoleUpdated")
        end
    | _, _ => throw "User ID and role are required"
    end).

(** The id is a number, as the page sends it ([this.userToDelete.id]), or
    is absent. *)
Definition deleteUser (socket : Socket) (userId : option Z)
  : World -> Response * World :=
  try_catch (
    _ ← call (checkLogin socket);
    _ ← call (Permissions.checkAdmin socket);
    match userId with
    | None => throw "User ID is required"
    | Some uid =>
        _ ← throw_if (falsy_id (Some uid)) "User ID is required";
        _ ← throw_if (bool_decide (Some uid = userID socket))
              "You cannot delete your own account";
        user ← R.findOne_active_user uid;
        match user with
        | None => throw "User not found"
        | Some u =>
            _ ← (if bool_decide (role u = Some "admin") then
                   adminCount ← R.count_other_admins uid;
                   throw_if (Nat.eqb adminCount 0)
                     "Cannot delete the last admin. At least one admin must remain."
                 else mret tt);
            _ ← R.store_user uid (deactivate u);
            _ ← R.delete_codes_of uid;
            mret (OkMsg "userDeleted")
        end
    end).

End oidcSocketHandler.

(** ** The OIDC router *)

(** The claims of an ID token that the callback reads.  [sub] is a required
    claim of every ID token; the others depend on the tenant. *)
Record Claims : Type := mkClaims {
  claim_oid : option string;
  claim_sub : string;
  claim_preferred_username : option string;
  claim_email : option string;
  claim_name : option string;
  claim_groups : option (list string)
}.

(** What [client.callback] is called with, the client's metadata included. *)
Record TokenRequest : Type := mkTokenRequest {
  tr_issuerUrl : string;
  tr_client_id : jsval;
  tr_client_secret : jsval;
  tr_redirect_uri : string;
  tr_code : option string;
  tr_state : string;
  tr_code_verifier : string;
  tr_nonce : string
}.

(** The identity provider behind openid-client: discovery answers or
    fails; the code exchange gives the validated claims or throws. *)
Record Provider : Type := mkProvider {
  discover : string -> bool;
  exchange : TokenRequest -> outcome Claims
}.

(** What one callback reads from outside: the clock at the session check,
    the clock after the provider has answered, and the random bytes, in
    hexadecimal. *)
Record Env : Type := mkEnv {
  now : Z;
  later : Z;
  randomBytes4 : string;
  randomBytes32 : string
}.

(** What [generators] of openid-client draws for one login. *)
Record Generated : Type := mkGenerated {
  gen_codeVerifier : string;
  gen_state : string;
  gen_nonce : string
}.

Record Request : Type := mkRequest {
  x_forwarded_proto : option string;
  protocol : string;
  x_forwarded_host : option string;
  host : option string
}.

Record Query : Type := mkQuery {
  q_code : option string;
  q_state : option string;
  q_error : option string;
  q_error_description : option string
}.

(** The parameters of [client.authorizationUrl]; the challenge is kept as
    the verifier it is the S256 digest of. *)
Record AuthorizationUrl : Type := mkAuthorizationUrl {
  au_issuerUrl : string;
  au_client_id : jsval;
  au_redirect_uri : string;
  au_scope : string;
  au_state : string;
  au_nonce : string;
  au_code_challenge_of : string;
  au_code_challenge_method : string;
  au_response_mode : string
}.

Inductive Target : Type :=
  | ToProvider (url : AuthorizationUrl)
  | DashboardError (msg : string)   (* "/dashboard?oidc_error=" + encodeURIComponent(msg) *)
  | DashboardCode (code : string).  (* "/dashboard?oidc_code=" + code *)

Inductive HttpResponse : Type :=
  | JsonEnabled (enabled : bool)               (* 200 { enabled } *)
  | JsonError (status : nat) (error : string)  (* status, { error } *)
  | Redirect (target : Target).

Record RouterSettings : Type := mkRouterSettings {
  enabled : bool;
  tenantId : jsval;
  clientId : jsval;
  clientSecret : jsval;
  allowedGroups : jsval;
  defaultRole : jsval;
  autoCreateUsers : bool
}.

(** a value inside a template literal *)
Definition to_string (v : jsval) : string :=
  match v with
  | JUndef => "undefined"
  | JBool true => "true"
  | JBool false => "false"
  | JStr s => s
  | JArr l => String.concat "," l
  end.

Definition MSG_INVALID_SESSION : string :=
  "Invalid or expired authentication session".
Definition MSG_SESSION_EXPIRED : string := "Authentication session expired".
Definition MSG_NOT_ENABLED : string := "Entra ID SSO is not enabled".
Definition MSG_NOT_AUTHORIZED : string :=
  "You are not authorized to access this application. Please contact your administrator.".
Definition MSG_NOT_PROVISIONED : string :=
  "Your account has not been provisioned. Please contact your administrator.".
Definition MSG_AUTH_FAILED : string := "Authentication failed. Please try again.".

(** The next [id] of an auto-increment table. *)
Definition next_id (m : gmap Z User) : Z :=
  1 + map_fold (fun k _ acc => Z.max k acc) 0 m.

(** [user.email = userInfo.email; user.display_name = userInfo.name;
    user.last_login = new Date(); await R.store(user)] for a bean that was
    read.  The UPDATE leaves out the fields that are undefined, so a claim
    that is absent keeps the column as it was. *)
Definition touch (e : option string) (n : option string) (t : Z) (u : User)
  : User :=
  mkUser (username u) (password u) (active u) (role u) (entra_oid u)
         (match e with Some _ => e | None => email u end)
         (match n with Some _ => n | None => display_name u end)
         (Some t).

Module Router.

Definition authSessions_has (st : string) : M bool :=
  fun w => (Return (bool_decide (is_Some (authSessions w !! st))), w).
Definition authSessions_get (st : string) : M (option AuthSession) :=
  fun w => (Return (authSessions w !! st), w).
Definition authSessions_delete (st : string) : M unit :=
  fun w => (Return tt, set_sessions (delete st) w).
Definition authSessions_set (st : string) (s : AuthSession) : M unit :=
  fun w => (Return tt, set_sessions (insert st s) w).

(** The [setInterval] callback, run at time [t]. *)
Definition sweep (t : Z) (w : World) : World :=
  set_sessions (filter (fun kv => ~ (expiresAt (snd kv) < t)%Z)) w.

Definition getOidcSettings : M RouterSettings :=
  enabled ← Settings.get "oidcEntraEnabled";
  tenantId ← Settings.get "oidcEntraTenantId";
  clientId ← Settings.get "oidcEntraClientId";
  clientSecret ← Settings.get "oidcEntraClientSecret";
  allowedGroups ← Settings.get "oidcEntraAllowedGroups";
  defaultRole ← Settings.get "oidcEntraDefaultRole";
  autoCreateUsers ← Settings.get "oidcEntraAutoCreateUsers";
  mret {| enabled := is_true enabled;
          tenantId := tenantId;
          clientId := clientId;
          clientSecret := clientSecret;
          allowedGroups := js_or allowedGroups (JArr []);
          defaultRole := js_or defaultRole (JStr "viewer");
          autoCreateUsers := is_not_false autoCreateUsers |}.

Definition getRedirectUri (req : Request) : string :=
  let protocol := opt_or (x_forwarded_proto req) (protocol req) in
  let host :=
    to_string (match opt_or_opt (x_forwarded_host req) (host req) with
               | Some h => JStr h
               | None => JUndef
               end) in
  protocol ++ "://" ++ host ++ "/auth/oidc/entra/callback".

Definition issuerUrl_of (s : RouterSettings) : string :=
  "https://login.microsoftonline.com/" ++ to_string (tenantId s) ++ "/v2.0".

(** [await Issuer.discover(issuerUrl)] *)
Definition Issuer_discover (idp : Provider) (url : string) : M unit :=
  if discover idp url then mret tt else throw "discovery failed".

(** GET /auth/oidc/entra/config *)
Definition config : World -> HttpResponse * World :=
  fun w =>
    match Settings.get "oidcEntraEnabled" w with
    | (Return v, w') => (JsonEnabled (is_true v), w')
    | (Throw _, w') => (JsonError 500 "Internal server error", w')
    end.

(** GET /auth/oidc/entra/login; [t] is what [Date.now()] reads. *)
Definition login (idp : Provider) (gen : Generated) (t : Z) (req : Request)
  : World -> HttpResponse * World :=
  fun w =>
    match
      (settings ← getOidcSettings;
       if negb (enabled settings)
       then mret (JsonError 400 "Entra ID SSO is not enabled")
       else if negb (truthy (tenantId settings))
               || negb (truthy (clientId settings))
               || negb (truthy (clientSecret settings))
       then mret (JsonError 500 "Entra ID SSO is not properly configured")
       else
         _ ← Issuer_discover idp (issuerUrl_of settings);
         let redirectUri := getRedirectUri req in
         _ ← authSessions_set (gen_state gen)
               {| codeVerifier := gen_codeVerifier gen;
                  nonce := gen_nonce gen;
                  redirectUri := redirectUri;
                  expiresAt := t + 10 * 60 * 1000 |};
         mret (Redirect (ToProvider
           {| au_issuerUrl := issuerUrl_of settings;
              au_client_id := clientId settings;
              au_redirect_uri := redirectUri;
              au_scope := "openid profile email";
              au_state := gen_state gen;
              au_nonce := gen_nonce gen;
              au_code_challenge_of := gen_codeVerifier gen;
              au_code_challenge_method := "S256";
              au_response_mode := "query" |}))) w
    with
    | (Return r, w') => (r, w')
    | (Throw _, w') => (Redirect (DashboardError "Failed to initiate SSO login"), w')
    end.

(** [R.findOne("user", " entra_oid = ? AND active = 1", [oid])] *)
Definition findOne_by_entra_oid (oid : string) : M (option (Z * User)) :=
  fun w =>
    (Return (head (List.filter
                     (fun kv => bool_decide (entra_oid (snd kv) = Some oid)
                                && active (snd kv))
                     (map_to_list (users w)))), w).

(** [R.findOne("user", " username = ?", [username])] *)
Definition findOne_by_username (name : string) : M (option (Z * User)) :=
  fun w =>
    (Return (head (List.filter
                     (fun kv => String.eqb (username (snd kv)) name)
                     (map_to_list (users w)))), w).

(** [R.store(user)] of a dispensed bean: an INSERT with the next id.  The
    UNIQUE constraint on [entra_oid] refuses it when a row, active or not,
    has that value already, and the one on [username], which the user table
    has had from the start, when a row has that username. *)
Definition insert_user (u : User) : M Z :=
  fun w =>
    if existsb (fun kv => bool_decide (entra_oid (snd kv) = entra_oid u)
                          && bool_decide (is_Some (entra_oid u)))
               (map_to_list (users w))
    then (Throw "UNIQUE constraint failed: user.entra_oid", w)
    else if existsb (fun kv => String.eqb (username (snd kv)) (username u))
                    (map_to_list (users w))
    then (Throw "UNIQUE constraint failed: user.username", w)
    else let i := next_id (users w) in
         (Return i, set_users (insert i u) w).

(** [settings.allowedGroups && settings.allowedGroups.length > 0] and, under
    it, [settings.allowedGroups.some(g => userGroups.includes(g))].  A
    string has a [length] and no [some]; a boolean has neither. *)
Definition hasAllowedGroup (allowed : jsval) (userGroups : list string)
  : outcome bool :=
  match allowed with
  | JArr l =>
      if (0 <? length l)%nat
      then Return (existsb (fun g => includes userGroups g) l)
      else Return true
  | JStr s =>
      if str_truthy s then Throw "settings.allowedGroups.some is not a function"
      else Return true
  | _ => Return true
  end.

(** The client built from the settings and the arguments of
    [client.callback(session.redirectUri, { code, state }, { code_verifier,
    nonce })]. *)
Definition token_request (settings : RouterSettings) (session : AuthSession)
  (q : Query) (st : string) : TokenRequest :=
  {| tr_issuerUrl := issuerUrl_of settings;
     tr_client_id := clientId settings;
     tr_client_secret := clientSecret settings;
     tr_redirect_uri := redirectUri session;
     tr_code := q_code q;
     tr_state := st;
     tr_code_verifier := codeVerifier session;
     tr_nonce := nonce session |}.

(** The callback from [const settings = await getOidcSettings()] to the
    end of the [try] block, for a session that is not expired. *)
Definition callback_authenticate (idp : Provider) (env : Env) (q : Query)
  (st : string) (session : AuthSession) : M HttpResponse :=
  settings ← getOidcSettings;
  if negb (enabled settings)
  then mret (Redirect (DashboardError MSG_NOT_ENABLED))
  else
    _ ← Issuer_discover idp (issuerUrl_of settings);
    claims ← call (exchange idp (token_request settings session q st));
    let oid := opt_or (claim_oid claims) (claim_sub claims) in
    let email := opt_or_opt (claim_preferred_username claims)
                            (claim_email claims) in
    let name := claim_name claims in
    let groups := default [] (claim_groups claims) in
    allowed ← call (hasAllowedGroup (allowedGroups settings) groups);
    if negb allowed
    then mret (Redirect (DashboardError MSG_NOT_AUTHORIZED))
    else
      found ← findOne_by_entra_oid oid;
      resolved ←
        match found with
        | None =>
            if negb (autoCreateUsers settings)
            then mret None
            else
              match email with
              | None => throw "Cannot read properties of undefined (reading 'split')"
              | Some e =>
                  let base := hd EmptyString (split "@" e) in
                  existingUser ← findOne_by_username base;
                  let uname :=
                    match existingUser with
                    | Some _ => base ++ "_" ++ randomBytes4 env
                    | None => base
                    end in
                  let user :=
                    {| username := uname;
                       password := None;
                       active := true;
                       role := Some (to_string (defaultRole settings));
                       entra_oid := Some oid;
                       email := Some e;
                       display_name := name;
                       last_login := Some (later env) |} in
                  i ← insert_user user;
                  mret (Some i)
              end
        | Some (i, user) =>
            _ ← R.store_user i (touch email name (later env) user);
            mret (Some i)
        end;
      match resolved with
      | None => mret (Redirect (DashboardError MSG_NOT_PROVISIONED))
      | Some i =>
          let loginCode := randomBytes32 env in
          _ ← R.insert_code loginCode
                {| user_id := i;
                   expires_at := later env + 5 * 60 * 1000;
                   used := false |};
          mret (Redirect (DashboardCode loginCode))
      end.

(** The callback from [// Check session expiry] on, for the session that
    was taken out of the map. *)
Definition callback_with_session (idp : Provider) (env : Env) (q : Query)
  (st : string) (session : AuthSession) : M HttpResponse :=
  if (expiresAt session <? now env)%Z
  then mret (Redirect (DashboardError MSG_SESSION_EXPIRED))
  else callback_authenticate idp env q st session.

(** [// Validate state] and the one-time use of the session. *)
Definition callback_validate (idp : Provider) (env : Env) (q : Query)
  : M HttpResponse :=
  match q_state q with
  | None => mret (Redirect (DashboardError MSG_INVALID_SESSION))
  | Some st =>
      if negb (str_truthy st)
      then mret (Redirect (DashboardError MSG_INVALID_SESSION))
      else
        has ← authSessions_has st;
        if negb has
        then mret (Redirect (DashboardError MSG_INVALID_SESSION))
        else
          session ← authSessions_get st;
          _ ← authSessions_delete st;
          match session with
          | None =>
              throw "Cannot read properties of undefined (reading 'expiresAt')"
          | Some s => callback_with_session idp env q st s
          end
  end.

(** The [try] block of GET /auth/oidc/entra/callback. *)
Definition callback_body (idp : Provider) (env : Env) (q : Query)
  : M HttpResponse :=
  match q_error q with
  | Some err =>
      if str_truthy err
      then mret (Redirect (DashboardError (opt_or (q_error_description q) err)))
      else callback_validate idp env q
  | None => callback_validate idp env q
  end.

(** GET /auth/oidc/entra/callback *)
Definition callback (idp : Provider) (env : Env) (q : Query)
  : World -> HttpResponse * World :=
  fun w =>
    match callback_body idp env q w with
    | (Return r, w') => (r, w')
    | (Throw _, w') => (Redirect (DashboardError MSG_AUTH_FAILED), w')
    end.

End Router.

(** ** Interleaved exchanges of login codes

    Every [await] of ["loginByOidcCode"] gives the event loop the chance to
    run the handler of another event.  A task is a handler between two
    awaits; a step lets the awaited database operation happen and runs the
    handler on to its next [await]. *)

Module Interleaving.

Inductive Task : Type :=
  | Received (code : jsval) (callback : bool)  (* the event was emitted *)
  | AwaitFindCode (c : string)                 (* R.findOne("oidc_login_code", ...) *)
  | AwaitTrash (c : string)                    (* R.trash(loginCode) *)
  | AwaitStore (c : string) (lc : LoginCode)   (* R.store(loginCode), used = true *)
  | AwaitFindUser (uid : Z)                    (* R.findOne("user", ...) *)
  | Done (answer : option Response).

Definition step (jwtSecret : string) (now : Z) (socket : Socket) (t : Task)
  (w : World) : Socket * Task * World :=
  match t with
  | Received code callback =>
      if negb callback then (socket, Done None, w)
      else
        match code with
        | JStr c =>
            if negb (str_truthy c)
            then (socket, Done (Some (Fail "Invalid login code")), w)
            else (socket, AwaitFindCode c, w)
        | _ => (socket, Done (Some (Fail "Invalid login code")), w)
        end
  | AwaitFindCode c =>
      match R.findOne_unused_code c w with
      | (Return None, w') =>
          (socket, Done (Some (Fail "Invalid or expired login code")), w')
      | (Return (Some lc), w') =>
          if (expires_at lc <? now)%Z then (socket, AwaitTrash c, w')
          else (socket, AwaitStore c (mark_used lc), w')
      | (Throw _, w') => (socket, Done (Some (Fail "Authentication failed")), w')
      end
  | AwaitTrash c =>
      match R.trash_code c w with
      | (Return _, w') => (socket, Done (Some (Fail "Login code expired")), w')
      | (Throw _, w') => (socket, Done (Some (Fail "Authentication failed")), w')
      end
  | AwaitStore c lc =>
      match R.store_code c lc w with
      | (Return _, w') => (socket, AwaitFindUser (user_id lc), w')
      | (Throw _, w') => (socket, Done (Some (Fail "Authentication failed")), w')
      end
  | AwaitFindUser uid =>
      match R.findOne_active_user uid w with
      | (Return None, w') =>
          (socket, Done (Some (Fail "User not found or inactive")), w')
      | (Return (Some u), w') =>
          (mkSocket (Some uid) (Some (opt_or (role u) "viewer")),
           Done (Some (OkLogin (createJWT uid u jwtSecret) (role u))), w')
      | (Throw _, w') => (socket, Done (Some (Fail "Authentication failed")), w')
      end
  | Done a => (socket, Done a, w)
  end.

(** One handler alone: its steps one after the other. *)
Fixpoint run_alone (n : nat) (jwtSecret : string) (now : Z) (socket : Socket)
  (t : Task) (w : World) : Socket * Task * World :=
  match n with
  | O => (socket, t, w)
  | S n' =>
      match step jwtSecret now socket t w with
      | (socket', t', w') => run_alone n' jwtSecret now socket' t' w'
      end
  end.

(** Several connections; the schedule names the connection whose handler
    the event loop resumes next. *)
Definition System : Type := list (Socket * Task) * World.

Definition resume (jwtSecret : string) (now : Z) (i : nat) (sys : System)
  : System :=
  match fst sys !! i with
  | None => sys
  | Some (socket, t) =>
      match step jwtSecret now socket t (snd sys) with
      | (socket', t', w') => (<[i := (socket', t')]> (fst sys), w')
      end
  end.

Definition run (jwtSecret : string) (now : Z) (schedule : list nat)
  (sys : System) : System :=
  fold_left (fun s i => resume jwtSecret now i s) schedule sys.

Definition answer_of (c : Socket * Task) : option Response :=
  match snd c with Done a => a | _ => None end.

Definition succeeded (c : Socket * Task) : bool :=
  match answer_of c with Some (OkLogin _ _) => true | _ => false end.

End Interleaving.

(** ** Sequences of user-management operations *)

Inductive Op : Type :=
  | SetUserRole (socket : Socket) (data : RoleChange)
  | DeleteUser (socket : Socket) (userId : option Z).

Definition perform (op : Op) : World -> Response * World :=
  match op with
  | SetUserRole socket data => oidcSocketHandler.setUserRole socket data
  | DeleteUser socket userId => oidcSocketHandler.deleteUser socket userId
  end.

(** The answers and the states after each operation of a sequence. *)
Fixpoint perform_all (ops : list Op) (w : World) : list (Response * World) :=
  match ops with
  | [] => []
  | op :: rest =>
      let rw := perform op w in rw :: perform_all rest (snd rw)
  end.

(** [count(active admins)] *)
Definition count_active_admins (w : World) : nat :=
  size (filter (fun kv => is_active_admin (snd kv) = true) (users w)).

(** No active admin but, at most, the user [uid]. *)
Definition no_other_admin (uid : Z) (w : World) : Prop :=
  forall k u, users w !! k = Some u -> is_active_admin u = true -> k = uid.

(** Some active admin other than the user [uid]. *)
Definition other_admin (uid : Z) (w : World) : Prop :=
  exists k a, k <> uid /\ users w !! k = Some a /\ is_active_admin a = true.

(** Some active admin. *)
Definition has_admin (w : World) : Prop :=
  exists k a, users w !! k = Some a /\ is_active_admin a = true.

(** Who would be the last admin: the target [uid] is an active admin and
    nobody else is. *)
Definition last_admin (uid : Z) (w : World) : Prop :=
  (exists u, users w !! uid = Some u /\ is_active_admin u = true) /\
  no_other_admin uid w.

(** An example: an admin, a viewer and a deleted admin. *)
Definition alice : User :=
  mkUser "alice" (Some "$2b$10$hash") true (Some "admin") None None None None.
Definition bob : User :=
  mkUser "bob" None true (Some "viewer") (Some "oid-bob")
         (Some "bob@example.org") (Some "Bob") None.
Definition carol : User :=
  mkUser "carol" None false (Some "admin") (Some "oid-carol")
         (Some "carol@example.org") (Some "Carol") None.

Definition example_world : World :=
  {| users := {[ 1 := alice; 2 := bob; 3 := carol ]};
     oidc_login_code := ∅;
     settings := ∅;
     authSessions := ∅ |}.

Definition alice_socket : Socket := mkSocket (Some 1) (Some "admin").

Definition example_ops : list Op :=
  [ SetUserRole alice_socket (mkRoleChange (Some 1) (Some "viewer"));
    SetUserRole alice_socket (mkRoleChange (Some 2) (Some "admin"));
    SetUserRole alice_socket (mkRoleChange (Some 1) (Some "viewer"));
    DeleteUser alice_socket (Some 2);
    DeleteUser alice_socket (Some 1) ].

(** ** Reading and writing the OIDC settings *)

(** What [Settings.get(key)] gives in the state [w]. *)
Definition stored (w : World) (key : string) : jsval :=
  default JUndef (settings w !! key).

(** The writes of a [saveOidcSettings] that passed its checks, in the order
    of the handler. *)
Definition saved_settings (data : OidcSettings) (m : gmap string jsval)
  : gmap string jsval :=
  let m1 := <["oidcEntraEnabled" := JBool (is_true (oidcEntraEnabled data))]> m in
  let m2 := <["oidcEntraTenantId" :=
                js_or (oidcEntraTenantId data) (JStr EmptyString)]> m1 in
  let m3 := <["oidcEntraClientId" :=
                js_or (oidcEntraClientId data) (JStr EmptyString)]> m2 in
  let m4 := if oidcSocketHandler.new_secret (oidcEntraClientSecret data)
            then <["oidcEntraClientSecret" := oidcEntraClientSecret data]> m3
            else m3 in
  let m5 := <["oidcEntraAllowedGroups" :=
                js_or (match oidcEntraAllowedGroups data with
                       | JStr s => JArr (oidcSocketHandler.parse_groups s)
                       | v => v
                       end) (JArr [])]> m4 in
  let m6 := <["oidcEntraDefaultRole" :=
                js_or (oidcEntraDefaultRole data) (JStr "viewer")]> m5 in
  <["oidcEntraAutoCreateUsers" :=
      JBool (is_not_false (oidcEntraAutoCreateUsers data))]> m6.

(** The payload as the settings page sends it: a boolean, three strings, an
    array of group ids, a role and a boolean. *)
Definition page_payload (data : OidcSettings) : Prop :=
  exists e t c s l r a,
    data = mkOidcSettings (JBool e) (JStr t) (JStr c) (JStr s) (JArr l)
                          (JStr r) (JBool a)
    /\ r <> EmptyString.

(** An example payload and the state it is saved to. *)
Definition example_payload : OidcSettings :=
  mkOidcSettings (JBool true) (JStr "t1") (JStr "c1") (JStr "s1")
                 (JArr ["G1"; "G2"]) (JStr "admin") (JBool false).

(** ** Sequences of exchanges *)

Record Exchange : Type := mkExchange {
  ex_socket : Socket;
  ex_jwtSecret : string;
  ex_now : Z;
  ex_code : jsval;
  ex_callback : bool
}.

Definition exchange_one (x : Exchange) (w : World)
  : option Response * Socket * World :=
  oidcSocketHandler.loginByOidcCode (ex_socket x) (ex_jwtSecret x) (ex_now x)
    (ex_code x) (ex_callback x) w.

(** The state after the exchanges of a list, one after the other. *)
Definition exchange_all (xs : list Exchange) (w : World) : World :=
  fold_left (fun w x => snd (exchange_one x w)) xs w.

(** An example: at time 5000, a fresh code of bob, an expired one, a used
    one and a fresh one of the deleted carol. *)
Definition code_world : World :=
  {| users := {[ 1 := alice; 2 := bob; 3 := carol ]};
     oidc_login_code :=
       {[ "c-fresh" := mkLoginCode 2 9000 false;
          "c-expired" := mkLoginCode 2 1000 false;
          "c-used" := mkLoginCode 2 9000 true;
          "c-carol" := mkLoginCode 3 9000 false ]};
     settings := ∅;
     authSessions := ∅ |}.

Definition anonymous : Socket := mkSocket None None.

(** Two connections that emit ["loginByOidcCode"] with the same fresh code,
    and two schedules of their handlers: one after the other, and await by
    await in turn. *)
Definition race_system : Interleaving.System :=
  ([ (anonymous, Interleaving.Received (JStr "c-fresh") true);
     (anonymous, Interleaving.Received (JStr "c-fresh") true) ],
   code_world).

Definition one_by_one : list nat := [0; 0; 0; 0; 1; 1; 1; 1]%nat.
Definition in_turn : list nat := [0; 1; 0; 1; 0; 1; 0; 1]%nat.

(** ** Sequences of callbacks and sweeps *)

(** What the router's settings read gives in the state [w]. *)
Definition read_settings (w : World) : RouterSettings :=
  {| enabled := is_true (stored w "oidcEntraEnabled");
     tenantId := stored w "oidcEntraTenantId";
     clientId := stored w "oidcEntraClientId";
     clientSecret := stored w "oidcEntraClientSecret";
     allowedGroups := js_or (stored w "oidcEntraAllowedGroups") (JArr []);
     defaultRole := js_or (stored w "oidcEntraDefaultRole") (JStr "viewer");
     autoCreateUsers := is_not_false (stored w "oidcEntraAutoCreateUsers") |}.

Inductive RouterEvent : Type :=
  | Callback (idp : Provider) (env : Env) (q : Query)
  | Sweep (t : Z).

Definition after_event (w : World) (e : RouterEvent) : World :=
  match e with
  | Callback idp env q => snd (Router.callback idp env q w)
  | Sweep t => Router.sweep t w
  end.

(** The state after the events of a list, one after the other. *)
Definition after_events (es : list RouterEvent) (w : World) : World :=
  fold_left after_event es w.

(** An example: SSO is enabled for the group G1, bob is provisioned, and
    one login is pending with the state [s1] until time 600000. *)
Definition pending_s1 : AuthSession :=
  {| codeVerifier := "verifier-1";
     nonce := "nonce-1";
     redirectUri := "https://kuma.example.org/auth/oidc/entra/callback";
     expiresAt := 600000 |}.

Definition sso_world : World :=
  {| users := {[ 1 := alice; 2 := bob ]};
     oidc_login_code := ∅;
     settings :=
       {[ "oidcEntraEnabled" := JBool true;
          "oidcEntraTenantId" := JStr "t1";
          "oidcEntraClientId" := JStr "c1";
          "oidcEntraClientSecret" := JStr "s1";
          "oidcEntraAllowedGroups" := JArr ["G1"] ]};
     authSessions := {[ "s1" := pending_s1 ]} |}.

Definition bob_claims : Claims :=
  {| claim_oid := Some "oid-bob";
     claim_sub := "sub-bob";
     claim_preferred_username := Some "bob@example.org";
     claim_email := None;
     claim_name := Some "Bob";
     claim_groups := Some ["G1"; "G7"] |}.

Definition eve_claims : Claims :=
  {| claim_oid := None;
     claim_sub := "sub-eve";
     claim_preferred_username := None;
     claim_email := Some "eve@example.org";
     claim_name := Some "Eve";
     claim_groups := Some ["G2"] |}.

(** A provider that knows two authorization codes. *)
Definition example_idp : Provider :=
  {| discover := fun _ => true;
     exchange := fun tr =>
       match tr_code tr with
       | Some code =>
           if String.eqb code "code-bob" then Return bob_claims
           else if String.eqb code "code-eve" then Return eve_claims
           else Throw "invalid_grant"
       | None => Throw "invalid_request"
       end |}.

(** The same state before any group was configured. *)
Definition open_world : World :=
  set_settings (delete "oidcEntraAllowedGroups") sso_world.

Definition at_1000 : Env := mkEnv 1000 1200 "a1b2c3d4" "f00d".
Definition at_expiry : Env := mkEnv 600000 600200 "a1b2c3d4" "f00d".
Definition after_expiry : Env := mkEnv 600001 600200 "a1b2c3d4" "f00d".

Definition bob_returns : Query := mkQuery (Some "code-bob") (Some "s1") None None.
Definition eve_returns : Query := mkQuery (Some "code-eve") (Some "s1") None None.
Definition consent_denied : Query :=
  mkQuery None (Some "s1") (Some "access_denied") None.

(** ** Reading a permission string *)

(** A permission is written [resource:action]; this is whether the action
    is [read]. *)
Definition is_read (permission : string) : bool :=
  match split ":" permission with
  | [_; action] => String.eqb action "read"
  | _ => false
  end.

(** ** The other events of the OIDC socket handler *)

(** An entry of the list that ["getUsers"] maps the rows to. *)
Record UserView : Type := mkUserView {
  view_id : Z;
  view_username : string;
  view_email : option string;
  view_displayName : option string;
  view_role : string;
  view_lastLogin : option Z;
  view_hasEntraId : bool;
  view_hasPassword : bool
}.

Inductive UsersResponse : Type :=
  | UsersFail (msg : string)            (* { ok: false, msg } *)
  | OkUsers (users : list UserView).    (* { ok: true, users } *)

Inductive LinkResponse : Type :=
  | LinkFail (msg : string)                              (* { ok: false, msg } *)
  | OkLink (hasEntraId : bool) (email : option string).  (* { ok: true, hasEntraId, email } *)

(** [R.findAll(type, clause, data)] of redbean-node is
    [R.find(type, " 1=1 " + clause, data)]: it is made for a clause that goes
    on from a condition, such as [" ORDER BY id ASC"].  This is the condition
    of the statement that it sends. *)
Definition findAll_condition (clause : string) : string := " 1=1 " ++ clause.

Module userEvents.

(** [R.findAll("user", " active = 1 ORDER BY id ASC")].  The condition that
    is sent reads [ 1=1  active = 1 ORDER BY id ASC]: two comparisons with
    nothing between them, which the database refuses as a syntax error.  The
    call reads no row and rejects; the message is the driver's and names the
    statement, the text below stands for it. *)
Definition findAll_active_users : M (list (Z * User)) :=
  throw ("syntax error in the condition"
         ++ findAll_condition " active = 1 ORDER BY id ASC").

(** The arrow function of [users.map(...)]. *)
Definition user_view (bean : Z * User) : UserView :=
  let user := snd bean in
  {| view_id := fst bean;
     view_username := username user;
     view_email := email user;
     view_displayName := display_name user;
     view_role := opt_or (role user) "admin";
     view_lastLogin := last_login user;
     view_hasEntraId := opt_truthy (entra_oid user);
     view_hasPassword := opt_truthy (password user) |}.

Definition getUsers (socket : Socket) : World -> UsersResponse * World :=
  fun w =>
    match (_ ← call (checkLogin socket);
           _ ← call (Permissions.checkAdmin socket);
           users ← findAll_active_users;
           mret (OkUsers (List.map user_view users))) w with
    | (Return r, w') => (r, w')
    | (Throw msg, w') => (UsersFail msg, w')
    end.

Definition linkEntraAccount (socket : Socket) : World -> LinkResponse * World :=
  fun w =>
    match (_ ← call (checkLogin socket);
           match userID socket with
           | None => throw "User not found"
           | Some uid =>
               user ← R.findOne_active_user uid;
               match user with
               | None => throw "User not found"
               | Some u =>
                   mret (OkLink (opt_truthy (entra_oid u)) (email u))
               end
           end) w with
    | (Return r, w') => (r, w')
    | (Throw msg, w') => (LinkFail msg, w')
    end.

End userEvents.

(** What [checkLogin] and [checkAdmin] throw at a socket that is not an
    admin's. *)
Definition refusal (socket : Socket) : string :=
  if no_userID socket then "You are not logged in."
  else "Permission denied. Admin access required.".

(** Sockets of the example users: bob as the viewer he is, and bob with
    the role [admin] still on his socket. *)
Definition bob_socket : Socket := mkSocket (Some 2) (Some "viewer").
Definition bob_stale_socket : Socket := mkSocket (Some 2) (Some "admin").

(** A user without a role, as a row that was written with [role] null. *)
Definition dave : User :=
  mkUser "dave" None true None (Some "oid-dave") (Some "dave@example.org")
         None None.

Definition dave_world : World :=
  {| users := {[ 1 := alice; 4 := dave ]};
     oidc_login_code := {[ "c-dave" := mkLoginCode 4 9000 false ]};
     settings := ∅;
     authSessions := ∅ |}.

(** A payload that enables SSO and sends the placeholder back as the
    secret, and one whose flag is the string [true]. *)
Definition placeholder_payload : OidcSettings :=
  mkOidcSettings (JBool true) (JStr "t1") (JStr "c1") (JStr SECRET_PLACEHOLDER)
                 (JArr []) (JStr "viewer") (JBool true).

Definition string_flag_payload : OidcSettings :=
  mkOidcSettings (JStr "true") (JStr "t1") (JStr "c1") (JStr "s1")
                 (JArr []) (JStr "viewer") (JBool true).

Definition example_generated : Generated :=
  mkGenerated "verifier-9" "state-9" "nonce-9".

Definition example_request : Request :=
  mkRequest (Some "https") "http" (Some "kuma.example.org")
            (Some "127.0.0.1:3001").

(** ** The callback, leg by leg *)

(** A body that answers, when it answers, with a redirect. *)
Definition redirects (m : M HttpResponse) : Prop :=
  forall w r w', m w = (Return r, w') -> exists target, r = Redirect target.

(** The callback of [q] finds the pending session of the state [st] and
    gets the claims for it: no error of the provider, a session that is not
    expired, SSO enabled, discovery and code exchange answered. *)
Definition gets_claims (idp : Provider) (env : Env) (q : Query) (st : string)
  (session : AuthSession) (claims : Claims) (w : World) : Prop :=
  opt_truthy (q_error q) = false /\
  q_state q = Some st /\ str_truthy st = true /\
  authSessions w !! st = Some session /\
  ~ (expiresAt session < now env)%Z /\
  enabled (read_settings w) = true /\
  discover idp (Router.issuerUrl_of (read_settings w)) = true /\
  exchange idp (Router.token_request (read_settings w) session q st)
    = Return claims.

(** The group check lets the claims through. *)
Definition group_allowed (claims : Claims) (w : World) : Prop :=
  Router.hasAllowedGroup (allowedGroups (read_settings w))
                         (default [] (claim_groups claims)) = Return true.

(** [userInfo.oid] and [userInfo.email] *)
Definition userInfo_oid (claims : Claims) : string :=
  opt_or (claim_oid claims) (claim_sub claims).
Definition userInfo_email (claims : Claims) : option string :=
  opt_or_opt (claim_preferred_username claims) (claim_email claims).

(** The row that the callback dispenses for a new user. *)
Definition new_user (settings : RouterSettings) (env : Env) (claims : Claims)
  (uname e : string) : User :=
  {| username := uname;
     password := None;
     active := true;
     role := Some (to_string (defaultRole settings));
     entra_oid := Some (userInfo_oid claims);
     email := Some e;
     display_name := claim_name claims;
     last_login := Some (later env) |}.

(** The login code that the callback issues for the user [i]. *)
Definition issued_code (env : Env) (i : Z) : LoginCode :=
  {| user_id := i; expires_at := later env + 5 * 60 * 1000; used := false |}.

(** A provider that answers every exchange with the same claims. *)
Definition idp_of (claims : Claims) : Provider :=
  {| discover := fun _ => true; exchange := fun _ => Return claims |}.

(** A provider whose token endpoint refuses every exchange. *)
Definition refusing_idp (msg : string) : Provider :=
  {| discover := fun _ => true; exchange := fun _ => Throw msg |}.

(** The callback from [// Find or create user] to the end of the [try]
    block, for the claims that passed the group check. *)
Definition resolve_user (settings : RouterSettings) (env : Env)
  (claims : Claims) : M HttpResponse :=
  found ← Router.findOne_by_entra_oid (userInfo_oid claims);
  resolved ←
    match found with
    | None =>
        if negb (autoCreateUsers settings)
        then mret None
        else
          match userInfo_email claims with
          | None => throw "Cannot read properties of undefined (reading 'split')"
          | Some e =>
              let base := hd EmptyString (split "@" e) in
              existingUser ← Router.findOne_by_username base;
              let uname :=
                match existingUser with
                | Some _ => base ++ "_" ++ randomBytes4 env
                | None => base
                end in
              i ← Router.insert_user (new_user settings env claims uname e);
              mret (Some i)
          end
    | Some (i, user) =>
        _ ← R.store_user i (touch (userInfo_email claims) (claim_name claims)
                                  (later env) user);
        mret (Some i)
    end;
  match resolved with
  | None => mret (Redirect (DashboardError MSG_NOT_PROVISIONED))
  | Some i =>
      _ ← R.insert_code (randomBytes32 env) (issued_code env i);
      mret (Redirect (DashboardCode (randomBytes32 env)))
  end.

(** The [catch] block of the callback. *)
Definition or_auth_failed (result : outcome HttpResponse * World)
  : HttpResponse * World :=
  match result with
  | (Return r, w') => (r, w')
  | (Throw _, w') => (Redirect (DashboardError MSG_AUTH_FAILED), w')
  end.

(** Some row, active or not, has the username [name]. *)
Definition username_taken (name : string) (w : World) : bool :=
  existsb (fun kv => String.eqb (username (snd kv)) name)
          (map_to_list (users w)).

(** A body that leaves the login codes alone, and one that leaves them
    alone unless it answers with a login code. *)
Definition keeps_codes {A} (m : M A) : Prop :=
  forall w, oidc_login_code (snd (m w)) = oidc_login_code w.

Definition keeps_codes_unless_issued (m : M HttpResponse) : Prop :=
  forall w,
    (exists c, fst (m w) = Return (Redirect (DashboardCode c))) \/
    oidc_login_code (snd (m w)) = oidc_login_code w.

(** Eve's claims once more, and a state in which carol, who was deleted,
    is expected back. *)
Definition carol_claims : Claims :=
  {| claim_oid := Some "oid-carol";
     claim_sub := "sub-carol";
     claim_preferred_username := Some "carol@example.org";
     claim_email := None;
     claim_name := Some "Carol";
     claim_groups := None |}.

Definition carol_world : World :=
  {| users := {[ 1 := alice; 2 := bob; 3 := carol ]};
     oidc_login_code := ∅;
     settings :=
       {[ "oidcEntraEnabled" := JBool true;
          "oidcEntraTenantId" := JStr "t1";
          "oidcEntraClientId" := JStr "c1";
          "oidcEntraClientSecret" := JStr "s1" ]};
     authSessions := {[ "s1" := pending_s1 ]} |}.

(** The same state with provisioning switched off. *)
Definition closed_world : World :=
  set_settings (insert "oidcEntraAutoCreateUsers" (JBool false)) open_world.

(** The session that belongs to an authorization URL issued at time [t]. *)
Definition session_of_url (url : AuthorizationUrl) (t : Z) : AuthSession :=
  {| codeVerifier := au_code_challenge_of url;
     nonce := au_nonce url;
     redirectUri := au_redirect_uri url;
     expiresAt := t + 10 * 60 * 1000 |}.

(** A body whose run does not depend on the session map and does not
    change it. *)
Definition ignores_sessions {A} (m : M A) : Prop :=
  forall f w, m (set_sessions f w) =
              (fst (m w), set_sessions f (snd (m w))).

(** ** The settings page, src/components/settings/OidcSettings.vue *)

(** Whether the character [c] occurs in [s]. *)
Fixpoint has_char (c : ascii) (s : string) : bool :=
  match s with
  | EmptyString => false
  | String c' rest => Ascii.eqb c' c || has_char c rest
  end.

Record Page : Type := mkPage {
  page_settings : OidcSettings;
  hasExistingSecret : bool;
  page_loaded : bool
}.

Module OidcSettingsPage.

(** [data()] *)
Definition data : Page :=
  {| page_settings :=
       mkOidcSettings (JBool false) (JStr EmptyString) (JStr EmptyString)
                      (JStr EmptyString) (JArr []) (JStr "viewer")
                      (JBool true);
     hasExistingSecret := false;
     page_loaded := false |}.

(** The getter of the computed [allowedGroupsText]. *)
Definition allowedGroupsText_get (page : Page) : jsval :=
  match oidcEntraAllowedGroups (page_settings page) with
  | JArr l => JStr (String.concat ", " l)
  | v => js_or v (JStr EmptyString)
  end.

(** [value.split(",").map(g => g.trim()).filter(g => g)] *)
Definition groups_of_text (value : string) : list string :=
  List.filter str_truthy (List.map trim (split "," value)).

Definition with_groups (groups : jsval) (s : OidcSettings) : OidcSettings :=
  mkOidcSettings (oidcEntraEnabled s) (oidcEntraTenantId s)
                 (oidcEntraClientId s) (oidcEntraClientSecret s) groups
                 (oidcEntraDefaultRole s) (oidcEntraAutoCreateUsers s).

Definition with_secret (secret : jsval) (s : OidcSettings) : OidcSettings :=
  mkOidcSettings (oidcEntraEnabled s) (oidcEntraTenantId s)
                 (oidcEntraClientId s) secret (oidcEntraAllowedGroups s)
                 (oidcEntraDefaultRole s) (oidcEntraAutoCreateUsers s).

(** The setter of the computed [allowedGroupsText]. *)
Definition allowedGroupsText_set (value : string) (page : Page) : Page :=
  mkPage (with_groups (JArr (groups_of_text value)) (page_settings page))
         (hasExistingSecret page) (page_loaded page).

(** The callback that [loadOidcSettings] passes to ["getOidcSettings"];
    the event answers with the settings or with a failure, which is
    toasted. *)
Definition loadOidcSettings (res : Response) (page : Page) : Page :=
  match res with
  | OkSettings s =>
      let existing :=
        bool_decide (oidcEntraClientSecret s = JStr SECRET_PLACEHOLDER) in
      {| page_settings :=
           if existing then with_secret (JStr EmptyString) s else s;
         hasExistingSecret := existing;
         page_loaded := true |}
  | _ => page
  end.

(** What [saveOidcSettings] emits with ["saveOidcSettings"]. *)
Definition saveOidcSettings (page : Page) : OidcSettings := page_settings page.

End OidcSettingsPage.


(** A group id as the text field can hold one between commas. *)
Definition clean_group (g : string) : Prop :=
  trim g = g /\ str_truthy g = true /\ has_char "," g = false.


(** A payload that sends the groups as one string and leaves the default
    role and the auto-create flag out. *)
Definition text_payload : OidcSettings :=
  mkOidcSettings (JBool true) (JStr "t1") (JStr "c1") (JStr "s1")
                 (JStr "G1, G2") JUndef JUndef.





(** * Properties *)

(** ** The permission table *)

Section PermissionProps.
Import Permissions.

Lemma check_perms_unknown (r permission : string) :
  r <> "admin" -> r <> "viewer" ->
  includes Object_prototype_keys r = false ->
  check_perms r permission = Return false.
Proof.
  intros Ha Hv Hp. unfold check_perms, PERMISSIONS_get, PERMISSIONS, own_property.
  destruct (String.eqb "admin" r) eqn:E1;
    [apply String.eqb_eq in E1; congruence|].
  destruct (String.eqb "viewer" r) eqn:E2;
    [apply String.eqb_eq in E2; congruence|].
  now rewrite Hp.
Qed.

Lemma check_perms_viewer (permission : string) :
  check_perms "viewer" permission = Return (includes viewer_permissions permission).
Proof. reflexivity. Qed.

Lemma opt_or_missing (o : option string) (d : string) :
  opt_truthy o = false -> opt_or o d = d.
Proof. destruct o as [s|]; simpl; [intros ->|]; reflexivity. Qed.

Lemma opt_or_present (r d : string) :
  r <> EmptyString -> opt_or (Some r) d = r.
Proof. destruct r; simpl; congruence. Qed.

End PermissionProps.

(** ** The last active admin *)

Section AdminProps.
Import oidcSocketHandler.

Lemma count_active_admins_pos (w : World) :
  (1 <= count_active_admins w)%nat <->
  exists k u, users w !! k = Some u /\ is_active_admin u = true.
Proof.
  unfold count_active_admins. split.
  - intros Hsize.
    assert (Hne : filter (fun kv : Z * User => is_active_admin (snd kv) = true)
                         (users w) <> ∅).
    { intros Hempty. rewrite Hempty, map_size_empty in Hsize. lia. }
    apply map_choose in Hne as (k & u & Hku).
    apply map_lookup_filter_Some in Hku as [Hk Hu]. eauto.
  - intros (k & u & Hk & Hu).
    assert (Hin : filter (fun kv : Z * User => is_active_admin (snd kv) = true)
                         (users w) !! k = Some u).
    { apply map_lookup_filter_Some. split; assumption. }
    destruct (size _) eqn:Hsz; [|lia].
    apply map_size_empty_iff in Hsz. rewrite Hsz, lookup_empty in Hin.
    discriminate.
Qed.

Lemma count_other_admins_zero (uid : Z) (w : World) :
  size (filter (fun kv : Z * User => is_active_admin (snd kv) = true
                                     /\ fst kv <> uid) (users w)) = 0%nat <->
  no_other_admin uid w.
Proof.
  rewrite map_size_empty_iff. unfold no_other_admin. split.
  - intros Hempty k u Hk Hu.
    destruct (decide (k = uid)) as [|Hne]; [assumption|].
    assert (Hin : filter (fun kv : Z * User => is_active_admin (snd kv) = true
                                     /\ fst kv <> uid) (users w) !! k = Some u).
    { apply map_lookup_filter_Some. auto. }
    rewrite Hempty, lookup_empty in Hin. discriminate.
  - intros Hno. apply map_empty_filter.
    intros k u Hk [Hu Hne]. simpl in *. apply Hne. eauto.
Qed.

Lemma count_other_admins_pos (uid : Z) (w : World) :
  size (filter (fun kv : Z * User => is_active_admin (snd kv) = true
                                     /\ fst kv <> uid) (users w)) <> 0%nat ->
  other_admin uid w.
Proof.
  intros Hsize. rewrite map_size_empty_iff in Hsize.
  apply map_choose in Hsize as (k & a & Hka).
  apply map_lookup_filter_Some in Hka as [Hk [Ha Hne]].
  exists k, a. auto.
Qed.

Lemma other_admin_not_last (uid : Z) (w : World) :
  other_admin uid w -> ~ no_other_admin uid w.
Proof. intros (k & a & Hne & Hk & Ha) Hno. apply Hne. eauto. Qed.

Lemma includes_roles (r : string) :
  includes ["admin"; "viewer"] r = true -> r = "admin" \/ r = "viewer".
Proof.
  unfold includes, existsb. intros H.
  destruct (String.eqb r "admin") eqn:E1; [apply String.eqb_eq in E1; auto|].
  destruct (String.eqb r "viewer") eqn:E2; [apply String.eqb_eq in E2; auto|].
  discriminate.
Qed.

Lemma findOne_active_user_Some (uid : Z) (w : World) (u : User) :
  R.findOne_active_user uid w = (Return (Some u), w) <->
  users w !! uid = Some u /\ active u = true.
Proof.
  unfold R.findOne_active_user. split.
  - intros H. destruct (users w !! uid) as [u'|]; [|discriminate].
    destruct (active u') eqn:Ha; [|discriminate]. now inversion H; subst.
  - intros [-> ->]. reflexivity.
Qed.

Lemma setUserRole_cases (socket : Socket) (data : RoleChange) (w : World) :
  (exists msg, setUserRole socket data w = (Fail msg, w)) \/
  (exists uid r u,
      userId data = Some uid /\ new_role data = Some r /\
      users w !! uid = Some u /\ active u = true /\
      (r = "admin" \/ (r = "viewer" /\ other_admin uid w)) /\
      setUserRole socket data w =
        (OkMsg "userRoleUpdated", set_users (insert uid (with_role r u)) w)).
Proof.
  remember (setUserRole socket data w) as res eqn:Hres.
  unfold setUserRole, try_catch, mbind, M_bind, call in Hres.
  destruct (checkLogin socket); [|eauto].
  destruct (Permissions.checkAdmin socket); [|eauto].
  destruct data as [[uid|] [r|]]; cbn [userId new_role] in *;
    unfold throw in Hres; eauto.
  unfold throw_if at 1 in Hres.
  destruct (falsy_id (Some uid) || negb (str_truthy r));
    unfold throw in Hres; [eauto|].
  cbn [mret M_ret] in Hres. unfold throw_if at 1 in Hres.
  destruct (includes ["admin"; "viewer"] r) eqn:Hrole;
    cbn [negb mret M_ret] in Hres; unfold throw in Hres; [|eauto].
  apply includes_roles in Hrole.
  unfold R.findOne_active_user, R.store_user, R.count_other_admins in Hres.
  destruct (String.eqb r "admin") eqn:Hadm; cbn [negb mret M_ret] in Hres.
  - apply String.eqb_eq in Hadm.
    destruct (users w !! uid) as [u|] eqn:Hu; [|eauto].
    destruct (active u) eqn:Hact; [|eauto].
    right. exists uid, r, u. auto 10.
  - apply String.eqb_neq in Hadm. destruct Hrole as [|Hv]; [congruence|].
    unfold throw_if in Hres.
    destruct (Nat.eqb _ 0) eqn:Hcount; unfold throw in Hres;
      cbn [mret M_ret] in Hres; [eauto|].
    apply Nat.eqb_neq, count_other_admins_pos in Hcount.
    destruct (users w !! uid) as [u|] eqn:Hu; [|eauto].
    destruct (active u) eqn:Hact; [|eauto].
    right. exists uid, r, u. auto 10.
Qed.

Lemma deleteUser_cases (socket : Socket) (userId : option Z) (w : World) :
  (exists msg, deleteUser socket userId w = (Fail msg, w)) \/
  (exists uid u,
      userId = Some uid /\
      users w !! uid = Some u /\ active u = true /\
      (role u = Some "admin" -> other_admin uid w) /\
      deleteUser socket userId w =
        (OkMsg "userDeleted",
         set_codes (filter (fun kv => user_id (snd kv) <> uid))
                   (set_users (insert uid (deactivate u)) w))).
Proof.
  remember (deleteUser socket userId w) as res eqn:Hres.
  unfold deleteUser, try_catch, mbind, M_bind, call in Hres.
  destruct (checkLogin socket); [|eauto].
  destruct (Permissions.checkAdmin socket); [|eauto].
  destruct userId as [uid|]; unfold throw in Hres; [|eauto].
  unfold throw_if at 1 in Hres.
  destruct (falsy_id (Some uid)); unfold throw in Hres; [eauto|].
  cbn [mret M_ret] in Hres. unfold throw_if at 1 in Hres.
  destruct (bool_decide (Some uid = userID socket));
    unfold throw in Hres; [eauto|].
  cbn [mret M_ret] in Hres.
  unfold R.findOne_active_user, R.store_user, R.count_other_admins,
    R.delete_codes_of in Hres.
  destruct (users w !! uid) as [u|] eqn:Hu; [|eauto].
  destruct (active u) eqn:Hact; [|eauto].
  destruct (bool_decide (role u = Some "admin")) eqn:Hadm;
    cbn [mret M_ret] in Hres.
  - unfold throw_if in Hres.
    destruct (Nat.eqb _ 0) eqn:Hcount; unfold throw in Hres;
      cbn [mret M_ret] in Hres; [eauto|].
    apply Nat.eqb_neq, count_other_admins_pos in Hcount.
    right. exists uid, u. auto 10.
  - apply bool_decide_eq_false in Hadm.
    right. exists uid, u. repeat split; auto. intros; contradiction.
Qed.

Lemma perform_failure (op : Op) (w : World) :
  is_ok (fst (perform op w)) = false -> snd (perform op w) = w.
Proof.
  destruct op as [socket data|socket userId]; cbn [perform].
  - destruct (setUserRole_cases socket data w)
      as [[msg ->]|(uid & r & u & _ & _ & _ & _ & _ & ->)];
      [reflexivity|discriminate].
  - destruct (deleteUser_cases socket userId w)
      as [[msg ->]|(uid & u & _ & _ & _ & _ & ->)];
      [reflexivity|discriminate].
Qed.

Lemma perform_keeps_admin (op : Op) (w : World) :
  has_admin w -> has_admin (snd (perform op w)).
Proof.
  intros (k0 & a0 & Hk0 & Ha0).
  destruct op as [socket data|socket userId]; cbn [perform].
  - destruct (setUserRole_cases socket data w)
      as [[msg ->]|(uid & r & u & _ & _ & Hu & Hact & Hrole & ->)];
      [exists k0, a0; auto|].
    destruct Hrole as [->|[_ (k & a & Hne & Hk & Ha)]].
    + exists uid, (with_role "admin" u). cbn. rewrite lookup_insert_eq.
      split; [reflexivity|]. unfold is_active_admin. cbn. now rewrite Hact.
    + exists k, a. cbn. rewrite lookup_insert_ne by auto. auto.
  - destruct (deleteUser_cases socket userId w)
      as [[msg ->]|(uid & u & _ & Hu & Hact & Hrole & ->)];
      [exists k0, a0; auto|].
    destruct (decide (role u = Some "admin")) as [Hadm|Hadm].
    + destruct (Hrole Hadm) as (k & a & Hne & Hk & Ha).
      exists k, a. cbn. rewrite lookup_insert_ne by auto. auto.
    + exists k0, a0. cbn. split; [|assumption].
      rewrite lookup_insert_ne; [assumption|].
      intros <-. rewrite Hk0 in Hu. inversion Hu; subst a0.
      unfold is_active_admin in Ha0. apply andb_true_iff in Ha0 as [Hr _].
      apply bool_decide_eq_true in Hr. contradiction.
Qed.

Lemma perform_all_keeps_admin (ops : list Op) (w : World) :
  has_admin w ->
  Forall (fun rw => has_admin (snd rw)) (perform_all ops w).
Proof.
  revert w. induction ops as [|op ops IH]; intros w Hw; cbn [perform_all].
  - constructor.
  - pose proof (perform_keeps_admin op w Hw) as Hw'.
    constructor; [assumption|]. apply IH. assumption.
Qed.

Lemma setUserRole_last_admin (socket : Socket) (data : RoleChange) (uid : Z)
  (w : World) :
  userId data = Some uid -> new_role data <> Some "admin" ->
  no_other_admin uid w ->
  exists msg, setUserRole socket data w = (Fail msg, w).
Proof.
  intros Hid Hrole Hlast.
  destruct (setUserRole_cases socket data w)
    as [|(uid' & r & u & Hid' & Hr & _ & _ & Hcase & _)]; [assumption|].
  rewrite Hid in Hid'. inversion Hid'; subst uid'.
  destruct Hcase as [->|[_ Hother]]; [congruence|].
  now apply other_admin_not_last in Hother.
Qed.

Lemma deleteUser_last_admin (socket : Socket) (uid : Z) (w : World) :
  last_admin uid w ->
  exists msg, deleteUser socket (Some uid) w = (Fail msg, w).
Proof.
  intros [(u & Hu & Hadm) Hlast].
  destruct (deleteUser_cases socket (Some uid) w)
    as [|(uid' & u' & Hid & Hu' & _ & Hcase & _)]; [assumption|].
  inversion Hid; subst uid'. rewrite Hu in Hu'. inversion Hu'; subst u'.
  unfold is_active_admin in Hadm. apply andb_true_iff in Hadm as [Hr _].
  apply bool_decide_eq_true in Hr.
  now apply Hcase, other_admin_not_last in Hr.
Qed.

Example example_ops_answers :
  map fst (perform_all example_ops example_world) =
  [ Fail "Cannot remove the last admin. At least one admin must remain.";
    OkMsg "userRoleUpdated";
    OkMsg "userRoleUpdated";
    Fail "Cannot delete the last admin. At least one admin must remain.";
    Fail "You cannot delete your own account" ].
Proof. vm_compute. reflexivity. Qed.

End AdminProps.

(** ** The exchange of a login code *)

Section LoginCodeProps.
Import oidcSocketHandler.

Variables (socket : Socket) (jwtSecret : string) (now : Z).

Ltac run_exchange :=
  unfold loginByOidcCode, loginByOidcCode_body, mbind, M_bind, mret, M_ret,
    R.findOne_unused_code, R.trash_code, R.store_code, R.findOne_active_user;
  cbn [negb].

Ltac red_m :=
  cbn [negb mark_used user_id expires_at used set_codes oidc_login_code users
       fst snd].

Lemma exchange_unknown (c : string) (w : World) :
  str_truthy c = true -> oidc_login_code w !! c = None ->
  loginByOidcCode socket jwtSecret now (JStr c) true w =
    (Some (Fail "Invalid or expired login code"), socket, w).
Proof. intros Hc Hnone. run_exchange. rewrite Hc. red_m. now rewrite Hnone. Qed.

Lemma exchange_used (c : string) (lc : LoginCode) (w : World) :
  str_truthy c = true -> oidc_login_code w !! c = Some lc -> used lc = true ->
  loginByOidcCode socket jwtSecret now (JStr c) true w =
    (Some (Fail "Invalid or expired login code"), socket, w).
Proof.
  intros Hc Hlc Hused. run_exchange. rewrite Hc. red_m.
  now rewrite Hlc, Hused.
Qed.

Lemma exchange_expired (c : string) (lc : LoginCode) (w : World) :
  str_truthy c = true -> oidc_login_code w !! c = Some lc -> used lc = false ->
  (expires_at lc < now)%Z ->
  loginByOidcCode socket jwtSecret now (JStr c) true w =
    (Some (Fail "Login code expired"), socket, set_codes (delete c) w).
Proof.
  intros Hc Hlc Hused Hexp. run_exchange. rewrite Hc. red_m. rewrite Hlc, Hused. red_m.
  apply Z.ltb_lt in Hexp. now rewrite Hexp.
Qed.

Lemma exchange_no_user (c : string) (lc : LoginCode) (w : World) :
  str_truthy c = true -> oidc_login_code w !! c = Some lc -> used lc = false ->
  ~ (expires_at lc < now)%Z ->
  R.findOne_active_user (user_id lc) w = (Return None, w) ->
  loginByOidcCode socket jwtSecret now (JStr c) true w =
    (Some (Fail "User not found or inactive"), socket,
     set_codes (insert c (mark_used lc)) w).
Proof.
  intros Hc Hlc Hused Hexp Huser. unfold R.findOne_active_user in Huser.
  run_exchange. rewrite Hc. red_m. rewrite Hlc, Hused. red_m.
  apply Z.ltb_nlt in Hexp. rewrite Hexp. red_m.
  destruct (users w !! user_id lc) as [u|]; [|reflexivity].
  destruct (active u); [discriminate|reflexivity].
Qed.

Lemma exchange_user (c : string) (lc : LoginCode) (u : User) (w : World) :
  str_truthy c = true -> oidc_login_code w !! c = Some lc -> used lc = false ->
  ~ (expires_at lc < now)%Z ->
  users w !! user_id lc = Some u -> active u = true ->
  loginByOidcCode socket jwtSecret now (JStr c) true w =
    (Some (OkLogin (createJWT (user_id lc) u jwtSecret) (role u)),
     mkSocket (Some (user_id lc)) (Some (opt_or (role u) "viewer")),
     set_codes (insert c (mark_used lc)) w).
Proof.
  intros Hc Hlc Hused Hexp Hu Hact.
  run_exchange. rewrite Hc. red_m. rewrite Hlc, Hused. red_m.
  apply Z.ltb_nlt in Hexp. rewrite Hexp. red_m. now rewrite Hu, Hact.
Qed.

(** Whatever is exchanged, a code that is marked used stays as it is. *)
Lemma exchange_keeps_used (c : string) (lc : LoginCode) (code : jsval)
  (callback : bool) (w : World) :
  oidc_login_code w !! c = Some lc -> used lc = true ->
  oidc_login_code (snd (loginByOidcCode socket jwtSecret now code callback w))
    !! c = Some lc.
Proof.
  intros Hlc Hused. run_exchange.
  destruct callback; [|assumption]. red_m.
  destruct code as [|b|c'|l]; try assumption.
  destruct (str_truthy c'); [|assumption]. red_m.
  destruct (decide (c' = c)) as [->|Hne].
  - now rewrite Hlc, Hused.
  - destruct (oidc_login_code w !! c') as [lc'|]; [|assumption].
    destruct (used lc'); [assumption|].
    destruct (expires_at lc' <? now)%Z; red_m.
    + now rewrite lookup_delete_ne.
    + destruct (users w !! user_id lc') as [u|];
        [destruct (active u)|]; red_m; now rewrite lookup_insert_ne.
Qed.

End LoginCodeProps.

Section ExchangeSequences.
Import oidcSocketHandler.

Lemma exchange_all_keeps_used (c : string) (lc : LoginCode)
  (xs : list Exchange) (w : World) :
  oidc_login_code w !! c = Some lc -> used lc = true ->
  oidc_login_code (exchange_all xs w) !! c = Some lc.
Proof.
  revert w. induction xs as [|x xs IH]; intros w Hlc Hused; [assumption|].
  cbn [exchange_all fold_left]. apply IH; [|assumption].
  now apply exchange_keeps_used.
Qed.

(** A handler that runs alone, await after await, is the handler. *)
Lemma run_alone_loginByOidcCode (socket : Socket) (jwtSecret : string)
  (now : Z) (code : jsval) (callback : bool) (w : World) :
  Interleaving.run_alone 4 jwtSecret now socket
    (Interleaving.Received code callback) w =
  match loginByOidcCode socket jwtSecret now code callback w with
  | (answer, socket', w') => (socket', Interleaving.Done answer, w')
  end.
Proof.
  unfold loginByOidcCode, loginByOidcCode_body, mbind, M_bind, mret, M_ret.
  cbn [Interleaving.run_alone Interleaving.step].
  destruct callback; [|reflexivity]. cbn [negb].
  destruct code as [|b|c|l]; try reflexivity.
  destruct (str_truthy c); [|reflexivity]. cbn [negb Interleaving.step].
  unfold R.findOne_unused_code.
  destruct (oidc_login_code w !! c) as [lc|]; [|reflexivity].
  destruct (used lc); [reflexivity|].
  destruct (expires_at lc <? now)%Z; [reflexivity|].
  cbn [Interleaving.step R.store_code mark_used user_id].
  unfold R.findOne_active_user. cbn [users set_codes].
  destruct (users w !! user_id lc) as [u|]; [|reflexivity].
  destruct (active u); reflexivity.
Qed.

Lemma resume_first (jwtSecret : string) (now : Z) (s : Socket)
  (t : Interleaving.Task) (rest : list (Socket * Interleaving.Task))
  (w : World) :
  Interleaving.resume jwtSecret now 0 ((s, t) :: rest, w) =
  match Interleaving.step jwtSecret now s t w with
  | (s', t', w') => ((s', t') :: rest, w')
  end.
Proof. reflexivity. Qed.

Lemma resume_second (jwtSecret : string) (now : Z) (c0 : Socket * Interleaving.Task)
  (s : Socket) (t : Interleaving.Task)
  (rest : list (Socket * Interleaving.Task)) (w : World) :
  Interleaving.resume jwtSecret now 1 (c0 :: (s, t) :: rest, w) =
  match Interleaving.step jwtSecret now s t w with
  | (s', t', w') => (c0 :: (s', t') :: rest, w')
  end.
Proof. reflexivity. Qed.

(** Two handlers of the same fresh code, resumed in turn: both succeed. *)
Lemma in_turn_both_succeed (jwtSecret : string) (now : Z) (c : string)
  (lc : LoginCode) (u : User) (s1 s2 : Socket) (w : World) :
  str_truthy c = true ->
  oidc_login_code w !! c = Some lc -> used lc = false ->
  ~ (expires_at lc < now)%Z ->
  users w !! user_id lc = Some u -> active u = true ->
  let bound := mkSocket (Some (user_id lc)) (Some (opt_or (role u) "viewer")) in
  let ok := Some (OkLogin (createJWT (user_id lc) u jwtSecret) (role u)) in
  Interleaving.run jwtSecret now in_turn
    ([ (s1, Interleaving.Received (JStr c) true);
       (s2, Interleaving.Received (JStr c) true) ], w) =
  ([ (bound, Interleaving.Done ok); (bound, Interleaving.Done ok) ],
   set_codes (insert c (mark_used lc)) w).
Proof.
  intros Hc Hlc Hused Hexp Hu Hact bound ok.
  apply Z.ltb_nlt in Hexp.
  unfold Interleaving.run, in_turn. cbn [fold_left].
  (* both handlers reach their first await *)
  rewrite resume_first. cbn [Interleaving.step negb]. rewrite Hc. cbn [negb].
  rewrite resume_second. cbn [Interleaving.step negb]. rewrite Hc. cbn [negb].
  (* both read the row, still unused *)
  rewrite resume_first. cbn [Interleaving.step R.findOne_unused_code].
  rewrite Hlc, Hused, Hexp.
  rewrite resume_second. cbn [Interleaving.step R.findOne_unused_code].
  rewrite Hlc, Hused, Hexp.
  (* both store the mark *)
  rewrite resume_first. cbn [Interleaving.step R.store_code].
  rewrite resume_second. cbn [Interleaving.step R.store_code].
  (* both find the user *)
  rewrite resume_first.
  cbn [Interleaving.step mark_used user_id R.findOne_active_user
       set_codes users].
  rewrite Hu, Hact.
  rewrite resume_second.
  cbn [Interleaving.step mark_used user_id R.findOne_active_user
       set_codes users].
  rewrite Hu, Hact.
  unfold set_codes. cbn [users oidc_login_code settings authSessions].
  now rewrite insert_insert_eq.
Qed.

End ExchangeSequences.

(** ** The OIDC settings *)

Section SettingsProps.
Import oidcSocketHandler.

Lemma checkAdmin_checkLogin (socket : Socket) :
  Permissions.checkAdmin socket = Return tt -> checkLogin socket = Return tt.
Proof.
  unfold Permissions.checkAdmin, checkLogin.
  destruct (no_userID socket); [discriminate|reflexivity].
Qed.

Lemma js_or_idem (v d : jsval) : js_or (js_or v d) d = js_or v d.
Proof.
  unfold js_or. destruct (truthy v) eqn:Hv; [now rewrite Hv|].
  now destruct (truthy d).
Qed.

Lemma router_getOidcSettings (w : World) :
  Router.getOidcSettings w =
    (Return {| enabled := is_true (stored w "oidcEntraEnabled");
               tenantId := stored w "oidcEntraTenantId";
               clientId := stored w "oidcEntraClientId";
               clientSecret := stored w "oidcEntraClientSecret";
               allowedGroups :=
                 js_or (stored w "oidcEntraAllowedGroups") (JArr []);
               defaultRole :=
                 js_or (stored w "oidcEntraDefaultRole") (JStr "viewer");
               autoCreateUsers :=
                 is_not_false (stored w "oidcEntraAutoCreateUsers") |}, w).
Proof. reflexivity. Qed.

Lemma socket_getOidcSettings (socket : Socket) (w : World) :
  Permissions.checkAdmin socket = Return tt ->
  getOidcSettings socket w =
    (OkSettings
       {| oidcEntraEnabled := JBool (is_true (stored w "oidcEntraEnabled"));
          oidcEntraTenantId :=
            js_or (stored w "oidcEntraTenantId") (JStr EmptyString);
          oidcEntraClientId :=
            js_or (stored w "oidcEntraClientId") (JStr EmptyString);
          oidcEntraClientSecret :=
            if truthy (stored w "oidcEntraClientSecret")
            then JStr SECRET_PLACEHOLDER else JStr EmptyString;
          oidcEntraAllowedGroups :=
            js_or (stored w "oidcEntraAllowedGroups") (JArr []);
          oidcEntraDefaultRole :=
            js_or (stored w "oidcEntraDefaultRole") (JStr "viewer");
          oidcEntraAutoCreateUsers :=
            JBool (is_not_false (stored w "oidcEntraAutoCreateUsers")) |}, w).
Proof.
  intros Hadmin. unfold getOidcSettings, try_catch, mbind, M_bind, call.
  now rewrite (checkAdmin_checkLogin _ Hadmin), Hadmin.
Qed.

Example parse_groups_example :
  parse_groups " G1, G2 ,,G3 " = ["G1"; "G2"; "G3"].
Proof. reflexivity. Qed.

Lemma saveOidcSettings_store_eq (data : OidcSettings) (w : World) :
  saveOidcSettings_store data w =
    (Return (OkMsg "oidcSettingsSaved"),
     set_settings (saved_settings data) w).
Proof.
  unfold saveOidcSettings_store, mbind, M_bind, Settings.set, saved_settings,
    set_settings.
  cbn [settings users oidc_login_code authSessions mret M_ret].
  destruct (new_secret (oidcEntraClientSecret data)); reflexivity.
Qed.

Lemma saveOidcSettings_cases (socket : Socket) (data : OidcSettings)
  (w : World) :
  (exists msg, saveOidcSettings socket data w = (Fail msg, w)) \/
  (Permissions.checkAdmin socket = Return tt /\
   saveOidcSettings socket data w =
     (OkMsg "oidcSettingsSaved", set_settings (saved_settings data) w)).
Proof.
  remember (saveOidcSettings socket data w) as res eqn:Hres.
  unfold saveOidcSettings, try_catch, mbind, M_bind, call in Hres.
  destruct (checkLogin socket); [|eauto].
  destruct (Permissions.checkAdmin socket) as [[]|]; [|eauto].
  unfold saveOidcSettings_validate, mbind, M_bind in Hres.
  destruct (truthy (oidcEntraEnabled data)).
  - unfold throw_if at 1 in Hres.
    destruct (negb (truthy (oidcEntraTenantId data))
              || negb (truthy (oidcEntraClientId data)));
      unfold throw in Hres; [eauto|].
    cbn [mret M_ret] in Hres. unfold Settings.get at 1 in Hres.
    unfold throw_if at 1 in Hres.
    destruct (negb (truthy (default JUndef (settings w !! "oidcEntraClientSecret")))
              && negb (truthy (oidcEntraClientSecret data)));
      unfold throw in Hres; [eauto|].
    cbn [mret M_ret] in Hres. rewrite saveOidcSettings_store_eq in Hres.
    right. split; [reflexivity|assumption].
  - cbn [mret M_ret] in Hres. rewrite saveOidcSettings_store_eq in Hres.
    right. split; [reflexivity|assumption].
Qed.

Ltac settings_lookup :=
  unfold stored, saved_settings, set_settings; cbn [settings];
  try destruct (new_secret _);
  repeat (rewrite lookup_insert_ne by discriminate);
  rewrite ?lookup_insert_eq; try reflexivity.

Lemma stored_after_save (data : OidcSettings) (w : World) :
  let w1 := set_settings (saved_settings data) w in
  stored w1 "oidcEntraEnabled" = JBool (is_true (oidcEntraEnabled data)) /\
  stored w1 "oidcEntraTenantId" =
    js_or (oidcEntraTenantId data) (JStr EmptyString) /\
  stored w1 "oidcEntraClientId" =
    js_or (oidcEntraClientId data) (JStr EmptyString) /\
  stored w1 "oidcEntraClientSecret" =
    (if new_secret (oidcEntraClientSecret data)
     then oidcEntraClientSecret data else stored w "oidcEntraClientSecret") /\
  stored w1 "oidcEntraAllowedGroups" =
    js_or (match oidcEntraAllowedGroups data with
           | JStr s => JArr (parse_groups s)
           | v => v
           end) (JArr []) /\
  stored w1 "oidcEntraDefaultRole" =
    js_or (oidcEntraDefaultRole data) (JStr "viewer") /\
  stored w1 "oidcEntraAutoCreateUsers" =
    JBool (is_not_false (oidcEntraAutoCreateUsers data)).
Proof. cbv zeta. repeat split; settings_lookup. Qed.

Lemma sentinel_is_no_new_secret : new_secret (JStr SECRET_PLACEHOLDER) = false.
Proof. reflexivity. Qed.

Lemma saved_secret_untouched (data : OidcSettings) (m : gmap string jsval) :
  new_secret (oidcEntraClientSecret data) = false ->
  saved_settings data m !! "oidcEntraClientSecret" =
    m !! "oidcEntraClientSecret".
Proof.
  intros Hnew. unfold saved_settings. rewrite Hnew.
  repeat (rewrite lookup_insert_ne by discriminate). reflexivity.
Qed.

Lemma js_or_empty_string (t : string) :
  js_or (JStr t) (JStr EmptyString) = JStr t.
Proof. now destruct t. Qed.

Lemma js_or_nonempty_string (r d : string) :
  r <> EmptyString -> js_or (JStr r) (JStr d) = JStr r.
Proof. destruct r; [congruence|reflexivity]. Qed.

Lemma is_true_iff (v : jsval) : is_true v = true <-> v = JBool true.
Proof.
  split; [|now intros ->].
  destruct v as [|[]| |]; try discriminate. reflexivity.
Qed.

Lemma stored_undefined (w : World) (key : string) :
  settings w !! key = None -> stored w key = JUndef.
Proof. unfold stored. now intros ->. Qed.

Lemma stored_true (w : World) (key : string) :
  stored w key = JBool true <-> settings w !! key = Some (JBool true).
Proof.
  unfold stored. destruct (settings w !! key) as [v|]; cbn; split;
    congruence.
Qed.

End SettingsProps.

(** ** The text of the allowed groups *)

Section TextOfGroups.
Import oidcSocketHandler.

Lemma split_head (sep : ascii) (s : string) :
  exists h t, split sep s = h :: t.
Proof.
  induction s as [|c rest (h & t & IH)]; cbn [split]; [eauto|].
  destruct (Ascii.eqb c sep); [eauto|]. rewrite IH. eauto.
Qed.

Lemma split_without_sep (sep : ascii) (g : string) :
  has_char sep g = false -> split sep g = [g].
Proof.
  induction g as [|c g IH]; cbn [split has_char]; [reflexivity|].
  intros [Hc Hg]%orb_false_iff. now rewrite Hc, (IH Hg).
Qed.

Lemma split_app (sep : ascii) (g rest : string) :
  has_char sep g = false ->
  split sep (g ++ String sep rest) = g :: split sep rest.
Proof.
  induction g as [|c g IH].
  - intros _. change (EmptyString ++ String sep rest) with (String sep rest).
    cbn [split]. now rewrite Ascii.eqb_refl.
  - intros [Hc Hg]%orb_false_iff.
    change (String c g ++ String sep rest)
      with (String c (g ++ String sep rest)).
    cbn [split]. now rewrite Hc, (IH Hg).
Qed.

Lemma split_pieces (sep : ascii) (s : string) :
  Forall (fun p => has_char sep p = false) (split sep s).
Proof.
  induction s as [|c rest IH]; cbn [split].
  - now constructor.
  - destruct (Ascii.eqb c sep) eqn:Hc; [now constructor|].
    destruct (split sep rest) as [|h t].
    + constructor; [|constructor]. cbn [has_char]. now rewrite Hc.
    + inversion IH as [|? ? Hh Ht]; subst.
      constructor; [|assumption]. cbn [has_char]. now rewrite Hc, Hh.
Qed.

Lemma trim_leading_space (c : ascii) (s : string) :
  is_space c = true -> trim (String c s) = trim s.
Proof. intros Hc. unfold trim. cbn [trim_start]. now rewrite Hc. Qed.

Lemma trim_start_shape (s : string) :
  trim_start s = EmptyString \/
  exists c r, trim_start s = String c r /\ is_space c = false.
Proof.
  induction s as [|c rest IH]; cbn [trim_start]; [now left|].
  destruct (is_space c) eqn:Hc; [assumption|]. right. eauto.
Qed.

Lemma trim_end_head (c : ascii) (r : string) :
  is_space c = false -> exists r', trim_end (String c r) = String c r'.
Proof.
  intros Hc. cbn [trim_end]. destruct (trim_end r); [rewrite Hc|]; eauto.
Qed.

Lemma trim_end_idem (s : string) : trim_end (trim_end s) = trim_end s.
Proof.
  induction s as [|c rest IH]; [reflexivity|]. cbn [trim_end].
  destruct (trim_end rest) as [|c' r'] eqn:Hrest.
  - destruct (is_space c) eqn:Hc; [reflexivity|].
    cbn [trim_end]. now rewrite Hc.
  - change (trim_end (String c (String c' r')))
      with (match trim_end (String c' r') with
            | EmptyString =>
                if is_space c then EmptyString else String c EmptyString
            | r => String c r
            end).
    now rewrite IH.
Qed.

Lemma trim_idem (s : string) : trim (trim s) = trim s.
Proof.
  unfold trim.
  destruct (trim_start_shape s) as [-> | (c & r & -> & Hc)]; [reflexivity|].
  destruct (trim_end_head c r Hc) as [r' Hr]. rewrite Hr at 1.
  cbn [trim_start]. rewrite Hc, <- Hr. apply trim_end_idem.
Qed.

Lemma has_char_trim_start (x : ascii) (s : string) :
  has_char x s = false -> has_char x (trim_start s) = false.
Proof.
  induction s as [|c rest IH]; cbn [trim_start]; [easy|].
  destruct (is_space c); [|easy].
  cbn [has_char]. intros [_ Hrest]%orb_false_iff. auto.
Qed.

Lemma has_char_trim_end (x : ascii) (s : string) :
  has_char x s = false -> has_char x (trim_end s) = false.
Proof.
  induction s as [|c rest IH]; [easy|]. cbn [trim_end has_char].
  intros [Hc Hrest]%orb_false_iff. specialize (IH Hrest).
  destruct (trim_end rest).
  - destruct (is_space c); [reflexivity|]. cbn [has_char]. now rewrite Hc.
  - cbn [has_char] in *. now rewrite Hc, IH.
Qed.

Lemma has_char_trim (x : ascii) (s : string) :
  has_char x s = false -> has_char x (trim s) = false.
Proof. intros H. now apply has_char_trim_end, has_char_trim_start. Qed.

Lemma trimmed_pieces_clean (l : list string) :
  Forall (fun p => has_char "," p = false) l ->
  Forall clean_group (List.filter str_truthy (List.map trim l)).
Proof.
  induction 1 as [|p l Hp _ IH]; cbn [List.map List.filter]; [constructor|].
  destruct (str_truthy (trim p)) eqn:Htruthy; [|assumption].
  constructor; [|assumption].
  split_and!; [apply trim_idem|assumption|now apply has_char_trim].
Qed.

Lemma parse_groups_clean (text : string) :
  Forall clean_group (parse_groups text).
Proof. apply trimmed_pieces_clean, split_pieces. Qed.

Lemma parse_groups_leading_space (rest : string) :
  parse_groups (String " " rest) = parse_groups rest.
Proof.
  unfold parse_groups. cbn [split].
  change (Ascii.eqb " " ",") with false. cbv iota.
  destruct (split_head "," rest) as (h & t & ->).
  cbn [List.map]. now rewrite (trim_leading_space " " h).
Qed.

Lemma parse_groups_joined (l : list string) :
  Forall clean_group l -> parse_groups (String.concat ", " l) = l.
Proof.
  induction 1 as [|g l (Htrim & Htruthy & Hcomma) Hl IH]; [reflexivity|].
  destruct l as [|g' l'].
  - cbn [String.concat]. unfold parse_groups.
    rewrite (split_without_sep _ _ Hcomma). cbn [List.map List.filter].
    now rewrite Htrim, Htruthy.
  - change (String.concat ", " (g :: g' :: l'))
      with (g ++ String "," (String " " (String.concat ", " (g' :: l')))).
    unfold parse_groups. rewrite (split_app _ _ _ Hcomma).
    cbn [List.map List.filter]. rewrite Htrim, Htruthy. f_equal.
    fold (parse_groups (String " " (String.concat ", " (g' :: l')))).
    now rewrite parse_groups_leading_space.
Qed.

Lemma parse_groups_joined_tight (l : list string) :
  Forall clean_group l -> parse_groups (String.concat "," l) = l.
Proof.
  induction 1 as [|g l (Htrim & Htruthy & Hcomma) Hl IH]; [reflexivity|].
  destruct l as [|g' l'].
  - cbn [String.concat]. unfold parse_groups.
    rewrite (split_without_sep _ _ Hcomma). cbn [List.map List.filter].
    now rewrite Htrim, Htruthy.
  - change (String.concat "," (g :: g' :: l'))
      with (g ++ String "," (String.concat "," (g' :: l'))).
    unfold parse_groups. rewrite (split_app _ _ _ Hcomma).
    cbn [List.map List.filter]. rewrite Htrim, Htruthy. f_equal.
    exact IH.
Qed.

End TextOfGroups.

(** ** The callback and the session map *)

Section CallbackProps.
Import Router.

Lemma keeps_sessions_ret {A} (a : A) : keeps_sessions (mret a).
Proof. intros w. reflexivity. Qed.

Lemma keeps_sessions_throw {A} (msg : string) : keeps_sessions (@throw A msg).
Proof. intros w. reflexivity. Qed.

Lemma keeps_sessions_call {A} (o : outcome A) : keeps_sessions (call o).
Proof. intros w. reflexivity. Qed.

Lemma keeps_sessions_bind {A B} (m : M A) (k : A -> M B) :
  keeps_sessions m -> (forall a, keeps_sessions (k a)) ->
  keeps_sessions (mbind k m).
Proof.
  intros Hm Hk w. unfold mbind, M_bind. specialize (Hm w).
  destruct (m w) as [[a|msg] w']; cbn [snd] in *; [|assumption].
  now rewrite Hk.
Qed.

Lemma keeps_sessions_get (key : string) : keeps_sessions (Settings.get key).
Proof. intros w. reflexivity. Qed.

Lemma keeps_sessions_getOidcSettings : keeps_sessions getOidcSettings.
Proof. intros w. reflexivity. Qed.

Lemma keeps_sessions_discover (idp : Provider) (url : string) :
  keeps_sessions (Issuer_discover idp url).
Proof. intros w. unfold Issuer_discover. now destruct (discover idp url). Qed.

Lemma keeps_sessions_findOne_by_entra_oid (oid : string) :
  keeps_sessions (findOne_by_entra_oid oid).
Proof. intros w. reflexivity. Qed.

Lemma keeps_sessions_findOne_by_username (name : string) :
  keeps_sessions (findOne_by_username name).
Proof. intros w. reflexivity. Qed.

Lemma keeps_sessions_insert_user (u : User) : keeps_sessions (insert_user u).
Proof.
  intros w. unfold insert_user. destruct (existsb _ _); [reflexivity|].
  now destruct (existsb _ _).
Qed.

Lemma keeps_sessions_store_user (i : Z) (u : User) :
  keeps_sessions (R.store_user i u).
Proof. intros w. reflexivity. Qed.

Lemma keeps_sessions_insert_code (c : string) (lc : LoginCode) :
  keeps_sessions (R.insert_code c lc).
Proof.
  intros w. unfold R.insert_code. now destruct (oidc_login_code w !! c).
Qed.

Ltac keeps_sessions_step :=
  first
    [ apply keeps_sessions_ret
    | apply keeps_sessions_throw
    | apply keeps_sessions_call
    | apply keeps_sessions_getOidcSettings
    | apply keeps_sessions_discover
    | apply keeps_sessions_findOne_by_entra_oid
    | apply keeps_sessions_findOne_by_username
    | apply keeps_sessions_insert_user
    | apply keeps_sessions_store_user
    | apply keeps_sessions_insert_code
    | apply keeps_sessions_bind; [|intros ?]
    | match goal with
      | |- keeps_sessions (if ?c then _ else _) => destruct c
      | |- keeps_sessions (match ?x with _ => _ end) => destruct x
      end ].

Lemma keeps_sessions_authenticate (idp : Provider) (env : Env) (q : Query)
  (st : string) (session : AuthSession) :
  keeps_sessions (callback_authenticate idp env q st session).
Proof. unfold callback_authenticate. repeat keeps_sessions_step. Qed.

Lemma keeps_sessions_with_session (idp : Provider) (env : Env) (q : Query)
  (st : string) (session : AuthSession) :
  keeps_sessions (callback_with_session idp env q st session).
Proof.
  unfold callback_with_session.
  destruct (expiresAt session <? now env)%Z;
    [apply keeps_sessions_ret|apply keeps_sessions_authenticate].
Qed.

Lemma getOidcSettings_read (w : World) :
  getOidcSettings w = (Return (read_settings w), w).
Proof. reflexivity. Qed.

Lemma callback_provider_error (idp : Provider) (env : Env) (q : Query)
  (err : string) (w : World) :
  q_error q = Some err -> str_truthy err = true ->
  callback idp env q w =
    (Redirect (DashboardError (opt_or (q_error_description q) err)), w).
Proof. intros He Ht. unfold callback, callback_body. now rewrite He, Ht. Qed.

Lemma callback_body_no_error (idp : Provider) (env : Env) (q : Query) :
  opt_truthy (q_error q) = false ->
  callback_body idp env q = callback_validate idp env q.
Proof.
  unfold callback_body, opt_truthy.
  destruct (q_error q) as [err|]; [intros ->|]; reflexivity.
Qed.

Lemma callback_validate_found (idp : Provider) (env : Env) (q : Query)
  (st : string) (session : AuthSession) (w : World) :
  q_state q = Some st -> str_truthy st = true ->
  authSessions w !! st = Some session ->
  callback_validate idp env q w =
    callback_with_session idp env q st session (set_sessions (delete st) w).
Proof.
  intros Hq Hst Hs.
  unfold callback_validate, mbind, M_bind, authSessions_has, authSessions_get,
    authSessions_delete.
  rewrite Hq, Hst. cbn [negb].
  rewrite bool_decide_eq_true_2 by (rewrite Hs; eauto).
  cbn [negb]. now rewrite Hs.
Qed.

Lemma callback_validate_missing (idp : Provider) (env : Env) (q : Query)
  (w : World) :
  (forall st, q_state q = Some st -> str_truthy st = true ->
              authSessions w !! st = None) ->
  callback_validate idp env q w =
    (Return (Redirect (DashboardError MSG_INVALID_SESSION)), w).
Proof.
  intros Hmissing.
  unfold callback_validate, mbind, M_bind, authSessions_has.
  destruct (q_state q) as [st|]; [|reflexivity].
  destruct (str_truthy st) eqn:Hst; [|reflexivity]. cbn [negb].
  rewrite bool_decide_eq_false_2; [reflexivity|].
  rewrite (Hmissing st eq_refl Hst). intros [x Hx]. discriminate.
Qed.

(** A callback takes at most the session of its own state out of the map
    and puts nothing in. *)
Lemma callback_sessions (idp : Provider) (env : Env) (q : Query) (w : World) :
  authSessions (snd (callback idp env q w)) = authSessions w \/
  exists st, q_state q = Some st /\
             authSessions (snd (callback idp env q w))
               = delete st (authSessions w).
Proof.
  unfold callback, callback_body.
  assert (Hvalidate :
    authSessions (snd (let (o, w') := callback_validate idp env q w in
                       match o with
                       | Return r => (r, w')
                       | Throw _ => (Redirect (DashboardError MSG_AUTH_FAILED), w')
                       end)) = authSessions w \/
    exists st, q_state q = Some st /\
      authSessions (snd (let (o, w') := callback_validate idp env q w in
                         match o with
                         | Return r => (r, w')
                         | Throw _ => (Redirect (DashboardError MSG_AUTH_FAILED), w')
                         end)) = delete st (authSessions w)).
  { destruct (q_state q) as [st|] eqn:Hq;
      [|left; rewrite callback_validate_missing; [reflexivity|congruence]].
    destruct (str_truthy st) eqn:Hst;
      [|left; rewrite callback_validate_missing; [reflexivity|congruence]].
    destruct (authSessions w !! st) as [session|] eqn:Hs;
      [|left; rewrite callback_validate_missing; [reflexivity|congruence]].
    right. exists st. split; [reflexivity|].
    rewrite (callback_validate_found idp env q st session w Hq Hst Hs).
    pose proof (keeps_sessions_with_session idp env q st session
                  (set_sessions (delete st) w)) as Hkeep.
    destruct (callback_with_session idp env q st session
                (set_sessions (delete st) w)) as [[r|msg] w'];
      cbn [snd] in *; exact Hkeep. }
  destruct (q_error q) as [err|]; [|exact Hvalidate].
  destruct (str_truthy err); [left; reflexivity|exact Hvalidate].
Qed.

Lemma after_event_keeps_absent (e : RouterEvent) (st : string) (w : World) :
  authSessions w !! st = None -> authSessions (after_event w e) !! st = None.
Proof.
  intros Habsent. destruct e as [idp env q|t]; cbn [after_event].
  - destruct (callback_sessions idp env q w) as [->|(st' & _ & ->)];
      [assumption|].
    destruct (decide (st' = st)) as [->|Hne];
      [apply lookup_delete_eq|now rewrite lookup_delete_ne].
  - unfold sweep. cbn [set_sessions authSessions].
    apply map_lookup_filter_None. now left.
Qed.

Lemma after_events_keeps_absent (es : list RouterEvent) (st : string)
  (w : World) :
  authSessions w !! st = None -> authSessions (after_events es w) !! st = None.
Proof.
  revert w. induction es as [|e es IH]; intros w Habsent; [assumption|].
  cbn [after_events fold_left]. apply IH.
  now apply after_event_keeps_absent.
Qed.

Lemma callback_unknown_state (idp : Provider) (env : Env) (q : Query)
  (st : string) (w : World) :
  opt_truthy (q_error q) = false -> q_state q = Some st ->
  authSessions w !! st = None ->
  callback idp env q w = (Redirect (DashboardError MSG_INVALID_SESSION), w).
Proof.
  intros He Hq Habsent. unfold callback.
  rewrite callback_body_no_error by assumption.
  rewrite callback_validate_missing; [reflexivity|].
  intros st' Hq' _. congruence.
Qed.

(** The login leg registers the drawn state for ten minutes. *)
Lemma login_registers (idp : Provider) (gen : Generated) (t : Z)
  (req : Request) (w : World) :
  enabled (read_settings w) = true ->
  truthy (tenantId (read_settings w)) = true ->
  truthy (clientId (read_settings w)) = true ->
  truthy (clientSecret (read_settings w)) = true ->
  discover idp (issuerUrl_of (read_settings w)) = true ->
  authSessions (snd (login idp gen t req w)) !! gen_state gen =
    Some {| codeVerifier := gen_codeVerifier gen;
            nonce := gen_nonce gen;
            redirectUri := getRedirectUri req;
            expiresAt := t + 10 * 60 * 1000 |}.
Proof.
  intros Hen Ht Hc Hs Hdisc. unfold login, mbind, M_bind.
  rewrite getOidcSettings_read, Hen, Ht, Hc, Hs. cbn [negb orb].
  unfold Issuer_discover. rewrite Hdisc.
  cbn [mret M_ret authSessions_set set_sessions authSessions snd].
  apply lookup_insert_eq.
Qed.

Lemma no_common_group (l groups : list string) :
  (forall g, In g l -> ~ In g groups) ->
  existsb (fun g => includes groups g) l = false.
Proof.
  intros Hdisjoint. apply not_true_is_false. intros Hex.
  apply existsb_exists in Hex as (g & Hg & Hin).
  unfold includes in Hin. apply existsb_exists in Hin as (g' & Hg' & Heq).
  apply String.eqb_eq in Heq. subst g'. exact (Hdisjoint g Hg Hg').
Qed.

Lemma authenticate_not_authorized (idp : Provider) (env : Env) (q : Query)
  (st : string) (session : AuthSession) (l : list string) (claims : Claims)
  (w : World) :
  enabled (read_settings w) = true ->
  discover idp (issuerUrl_of (read_settings w)) = true ->
  exchange idp (token_request (read_settings w) session q st) = Return claims ->
  allowedGroups (read_settings w) = JArr l -> l <> [] ->
  (forall g, In g l -> ~ In g (default [] (claim_groups claims))) ->
  callback_authenticate idp env q st session w =
    (Return (Redirect (DashboardError MSG_NOT_AUTHORIZED)), w).
Proof.
  intros Hen Hdisc Hex Hallowed Hne Hdisjoint.
  unfold callback_authenticate, mbind, M_bind.
  rewrite getOidcSettings_read, Hen. cbn [negb].
  unfold Issuer_discover. rewrite Hdisc. cbn [mret M_ret].
  unfold call. rewrite Hex, Hallowed. unfold hasAllowedGroup.
  destruct l as [|g l']; [congruence|].
  cbn [length Nat.ltb Nat.leb].
  now rewrite (no_common_group (g :: l') _ Hdisjoint).
Qed.

Lemma sweep_lookup (t : Z) (st : string) (session : AuthSession) (w : World) :
  authSessions w !! st = Some session ->
  authSessions (sweep t w) !! st =
    if (expiresAt session <? t)%Z then None else Some session.
Proof.
  intros Hs. unfold sweep. cbn [set_sessions authSessions].
  destruct (expiresAt session <? t)%Z eqn:Hlt.
  - apply Z.ltb_lt in Hlt. apply map_lookup_filter_None. right.
    intros x Hx. rewrite Hs in Hx. inversion Hx; subst x. cbn. tauto.
  - apply Z.ltb_nlt in Hlt. apply map_lookup_filter_Some. auto.
Qed.

(** Bob, who is provisioned, comes back from the provider: his row is
    updated in place and a login code is issued for him. *)
Example bob_logs_in :
  Router.callback example_idp at_1000 bob_returns sso_world =
    (Redirect (DashboardCode "f00d"),
     {| users :=
          {[ 1 := alice;
             2 := touch (Some "bob@example.org") (Some "Bob") 1200 bob ]};
        oidc_login_code := {[ "f00d" := mkLoginCode 2 301200 false ]};
        settings := settings sso_world;
        authSessions := ∅ |}).
Proof. vm_compute. reflexivity. Qed.

(** Eve, who is unknown, comes back while no group and no provisioning
    policy is configured: a viewer named after her mailbox is created. *)
Example eve_is_provisioned :
  let result := Router.callback example_idp at_1000 eve_returns open_world in
  fst result = Redirect (DashboardCode "f00d") /\
  users (snd result) !! 3 =
    Some (mkUser "eve" None true (Some "viewer") (Some "sub-eve")
                 (Some "eve@example.org") (Some "Eve") (Some 1200)) /\
  oidc_login_code (snd result) !! "f00d" = Some (mkLoginCode 3 301200 false).
Proof. vm_compute. repeat split. Qed.

End CallbackProps.

(** * The checked claims *)

(** ** C1: the last active admin *)

(** C1.  Starting from a state with at least one active admin, after each
    operation of any sequence of [setUserRole] and [deleteUser] calls (the
    successful ones and the refused ones) the number of active admins is at
    least one.  Every refused call leaves the whole state, the user table
    included, as it was; a [setUserRole] that takes the role [admin] from the
    last active admin and a [deleteUser] of the last active admin are
    refused with an error. *)
Theorem C1_last_admin_invariant (w : World) (ops : list Op) :
  (1 <= count_active_admins w)%nat ->
  Forall (fun rw => (1 <= count_active_admins (snd rw))%nat)
         (perform_all ops w) /\
  (forall op w1,
      is_ok (fst (perform op w1)) = false -> snd (perform op w1) = w1) /\
  (forall socket data uid w1,
      userId data = Some uid -> new_role data <> Some "admin" ->
      last_admin uid w1 ->
      exists msg, oidcSocketHandler.setUserRole socket data w1 = (Fail msg, w1)) /\
  (forall socket uid w1,
      last_admin uid w1 ->
      exists msg,
        oidcSocketHandler.deleteUser socket (Some uid) w1 = (Fail msg, w1)).
Proof.
  intros Hw. repeat split.
  - apply count_active_admins_pos, perform_all_keeps_admin with (ops := ops) in Hw.
    eapply Forall_impl; [exact Hw|].
    intros rw Hrw. now apply count_active_admins_pos.
  - apply perform_failure.
  - intros socket data uid w1 Hid Hrole [_ Hlast].
    now apply setUserRole_last_admin with (uid := uid).
  - intros socket uid w1. apply deleteUser_last_admin.
Qed.

Lemma C1_last_admin_invariant_witness :
  (1 <= count_active_admins example_world)%nat /\
  Forall (fun rw => (1 <= count_active_admins (snd rw))%nat)
         (perform_all example_ops example_world).
Proof.
  split.
  - vm_compute. lia.
  - apply (C1_last_admin_invariant example_world example_ops).
    vm_compute. lia.
Defined.

(** ** C3: unknown and missing roles *)

(** C3, as it holds.  [hasPermission] and [socketHasPermission] return
    false for every permission when there is no user (no [userID] on the
    socket) and when the role is a non-empty string other than [admin] and
    [viewer] (the names [PERMISSIONS] inherits from [Object.prototype]
    apart).  A role that is missing or empty is read as [viewer]: the answer
    is then whether the permission is one of the viewer's. *)
Theorem C3_unknown_role_no_permission (u : User) (socket : Socket)
  (r permission : string) :
  r <> EmptyString -> r <> "admin" -> r <> "viewer" ->
  includes Permissions.Object_prototype_keys r = false ->
  (role u = Some r ->
     Permissions.hasPermission (Some u) permission = Return false) /\
  (userRole socket = Some r ->
     Permissions.socketHasPermission socket permission = Return false) /\
  Permissions.hasPermission None permission = Return false /\
  (no_userID socket = true ->
     Permissions.socketHasPermission socket permission = Return false) /\
  (opt_truthy (role u) = false ->
     Permissions.hasPermission (Some u) permission =
       Return (includes Permissions.viewer_permissions permission)) /\
  (no_userID socket = false -> opt_truthy (userRole socket) = false ->
     Permissions.socketHasPermission socket permission =
       Return (includes Permissions.viewer_permissions permission)).
Proof.
  intros Hne Ha Hv Hp. repeat split.
  - intros Hr. unfold Permissions.hasPermission.
    rewrite Hr, opt_or_present by assumption.
    now apply check_perms_unknown.
  - intros Hr. unfold Permissions.socketHasPermission.
    destruct (no_userID socket); [reflexivity|].
    rewrite Hr, opt_or_present by assumption.
    now apply check_perms_unknown.
  - intros Hno. unfold Permissions.socketHasPermission. now rewrite Hno.
  - intros Hmiss. unfold Permissions.hasPermission.
    rewrite opt_or_missing by assumption. apply check_perms_viewer.
  - intros Hid Hmiss. unfold Permissions.socketHasPermission.
    rewrite Hid, opt_or_missing by assumption. apply check_perms_viewer.
Qed.

Lemma C3_unknown_role_no_permission_witness :
  Permissions.hasPermission (Some (with_role "editor" bob)) "monitor:read"
    = Return false /\
  Permissions.socketHasPermission (mkSocket (Some 2) (Some "editor"))
    "monitor:read" = Return false.
Proof.
  pose proof (C3_unknown_role_no_permission
                (with_role "editor" bob) (mkSocket (Some 2) (Some "editor"))
                "editor" "monitor:read") as H.
  destruct H as (H1 & H2 & _); [discriminate|discriminate|discriminate|reflexivity|].
  split; [apply H1|apply H2]; reflexivity.
Defined.

(** C3 as the specification has it fails: a user whose role is missing is
    granted the permissions of a viewer, here [monitor:read], by
    [hasPermission] and by [socketHasPermission]. *)
Lemma C3_missing_role_counterexample :
  let u := mkUser "dave" None true None None None None None in
  let socket := mkSocket (Some 4) None in
  role u = None /\ userRole socket = None /\
  Permissions.hasPermission (Some u) "monitor:read" = Return true /\
  Permissions.socketHasPermission socket "monitor:read" = Return true.
Proof. repeat split. Qed.

(** ** C4: the code is burnt before the user is looked up *)

(** C4.  When [loginByOidcCode] finds the code [c] unused and not expired,
    the row with [used = true] is stored by the time the owning user is
    looked up (the handler alone, three awaits on, waits for that lookup and
    the table holds the mark).  Whatever the lookup gives, [c] is marked used
    afterwards.  If the owner is missing or inactive the answer is the
    rejection "User not found or inactive", and after any further exchanges
    an exchange of [c] is still rejected. *)
Theorem C4_code_used_before_user_lookup (socket : Socket) (jwtSecret : string)
  (now : Z) (c : string) (lc : LoginCode) (w : World) :
  str_truthy c = true ->
  oidc_login_code w !! c = Some lc -> used lc = false ->
  ~ (expires_at lc < now)%Z ->
  let burnt := set_codes (insert c (mark_used lc)) w in
  Interleaving.run_alone 3 jwtSecret now socket
    (Interleaving.Received (JStr c) true) w =
    (socket, Interleaving.AwaitFindUser (user_id lc), burnt) /\
  snd (oidcSocketHandler.loginByOidcCode socket jwtSecret now (JStr c) true w)
    = burnt /\
  (R.findOne_active_user (user_id lc) w = (Return None, w) ->
   oidcSocketHandler.loginByOidcCode socket jwtSecret now (JStr c) true w =
     (Some (Fail "User not found or inactive"), socket, burnt) /\
   forall (xs : list Exchange) (socket' : Socket) (jwtSecret' : string)
          (now' : Z),
     let w' := exchange_all xs burnt in
     oidcSocketHandler.loginByOidcCode socket' jwtSecret' now' (JStr c) true w'
       = (Some (Fail "Invalid or expired login code"), socket', w')).
Proof.
  intros Hc Hlc Hused Hexp burnt. split; [|split].
  - cbn [Interleaving.run_alone Interleaving.step negb].
    rewrite Hc. cbn [negb Interleaving.step]. unfold R.findOne_unused_code.
    rewrite Hlc, Hused. apply Z.ltb_nlt in Hexp. now rewrite Hexp.
  - destruct (users w !! user_id lc) as [u|] eqn:Hu.
    + destruct (active u) eqn:Hact.
      * now rewrite (exchange_user socket jwtSecret now c lc u w).
      * rewrite (exchange_no_user socket jwtSecret now c lc w); auto.
        unfold R.findOne_active_user. now rewrite Hu, Hact.
    + rewrite (exchange_no_user socket jwtSecret now c lc w); auto.
      unfold R.findOne_active_user. now rewrite Hu.
  - intros Huser. split; [now apply exchange_no_user|].
    intros xs socket' jwtSecret' now' w'.
    apply exchange_used with (lc := mark_used lc); [assumption| |reflexivity].
    apply exchange_all_keeps_used; [|reflexivity].
    subst burnt. cbn [set_codes oidc_login_code]. apply lookup_insert_eq.
Qed.

Lemma C4_code_used_before_user_lookup_witness :
  oidcSocketHandler.loginByOidcCode anonymous "secret" 5000 (JStr "c-carol")
    true code_world =
    (Some (Fail "User not found or inactive"), anonymous,
     set_codes (insert "c-carol" (mark_used (mkLoginCode 3 9000 false)))
               code_world) /\
  oidcSocketHandler.loginByOidcCode anonymous "secret" 5001 (JStr "c-carol")
    true (set_codes (insert "c-carol" (mark_used (mkLoginCode 3 9000 false)))
                    code_world) =
    (Some (Fail "Invalid or expired login code"), anonymous,
     set_codes (insert "c-carol" (mark_used (mkLoginCode 3 9000 false)))
               code_world).
Proof.
  destruct (C4_code_used_before_user_lookup anonymous "secret" 5000 "c-carol"
              (mkLoginCode 3 9000 false) code_world) as (_ & _ & H).
  - reflexivity.
  - reflexivity.
  - reflexivity.
  - cbn. lia.
  - destruct H as [H1 H2]; [reflexivity|].
    split; [exact H1|]. exact (H2 [] anonymous "secret" 5001).
Defined.

(** ** C5: expired, used and unknown codes *)

(** C5, as it holds.  A code that is marked used and a code that was never
    issued get the same answer, [{ ok: false, msg: "Invalid or expired login
    code" }], and nothing changes.  A code that is unused and expired is
    refused as well, with the message "Login code expired", and its row is
    deleted; from then on it is answered like a code that was never
    issued. *)
Theorem C5_rejected_codes (socket : Socket) (jwtSecret : string) (now : Z)
  (c : string) (w : World) :
  str_truthy c = true ->
  let unknown := (Some (Fail "Invalid or expired login code"), socket, w) in
  (oidc_login_code w !! c = None ->
   oidcSocketHandler.loginByOidcCode socket jwtSecret now (JStr c) true w
     = unknown) /\
  (forall lc, oidc_login_code w !! c = Some lc -> used lc = true ->
   oidcSocketHandler.loginByOidcCode socket jwtSecret now (JStr c) true w
     = unknown) /\
  (forall lc, oidc_login_code w !! c = Some lc -> used lc = false ->
   (expires_at lc < now)%Z ->
   let w' := set_codes (delete c) w in
   oidcSocketHandler.loginByOidcCode socket jwtSecret now (JStr c) true w
     = (Some (Fail "Login code expired"), socket, w') /\
   forall socket' jwtSecret' now',
     oidcSocketHandler.loginByOidcCode socket' jwtSecret' now' (JStr c) true w'
       = (Some (Fail "Invalid or expired login code"), socket', w')).
Proof.
  intros Hc unknown. repeat split.
  - now apply exchange_unknown.
  - intros lc. now apply exchange_used.
  - now apply exchange_expired with (lc := lc).
  - intros socket' jwtSecret' now'. apply exchange_unknown; [assumption|].
    cbn [set_codes oidc_login_code]. apply lookup_delete_eq.
Qed.

Lemma C5_rejected_codes_witness :
  oidcSocketHandler.loginByOidcCode anonymous "secret" 5000 (JStr "c-used")
    true code_world =
  oidcSocketHandler.loginByOidcCode anonymous "secret" 5000 (JStr "c-never")
    true code_world.
Proof.
  destruct (C5_rejected_codes anonymous "secret" 5000 "c-used" code_world)
    as (_ & Hused & _); [reflexivity|].
  destruct (C5_rejected_codes anonymous "secret" 5000 "c-never" code_world)
    as (Hnever & _); [reflexivity|].
  rewrite (Hused (mkLoginCode 2 9000 true)) by reflexivity.
  rewrite Hnever by reflexivity. reflexivity.
Defined.

(** C5 as the specification has it fails: at time 5000 the expired code
    and the code that never existed are both refused, with different
    messages. *)
Lemma C5_expired_code_counterexample :
  oidc_login_code code_world !! "c-expired" = Some (mkLoginCode 2 1000 false) /\
  oidc_login_code code_world !! "c-never" = None /\
  fst (fst (oidcSocketHandler.loginByOidcCode anonymous "secret" 5000
              (JStr "c-expired") true code_world))
    = Some (Fail "Login code expired") /\
  fst (fst (oidcSocketHandler.loginByOidcCode anonymous "secret" 5000
              (JStr "c-never") true code_world))
    = Some (Fail "Invalid or expired login code") /\
  fst (fst (oidcSocketHandler.loginByOidcCode anonymous "secret" 5000
              (JStr "c-expired") true code_world)) <>
  fst (fst (oidcSocketHandler.loginByOidcCode anonymous "secret" 5000
              (JStr "c-never") true code_world)).
Proof. repeat split; try reflexivity. vm_compute. discriminate. Qed.

(** ** C6: the round trip of the OIDC settings *)

(** C6.  After a [saveOidcSettings] that succeeded, [getOidcSettings] of any
    admin session answers with the tenant id, client id, allowed groups,
    default role and auto-create flag that the save stored, and these are
    read off the payload: the tenant id and the client id as sent, or the
    empty string when they are missing; the allowed groups as the array that
    was sent, or, when they were sent as one string, as its pieces between
    the commas, trimmed and without the empty ones, or as the empty array
    when they are missing; the default role as sent, or ["viewer"]; the flag
    as sent, or true.  So a payload of the shape the settings page sends is
    read back field by field, and group ids that are sent as one string,
    joined with commas or with a comma and a space, are read back as the
    array of those ids.  In every state, a stored secret that is not empty
    is read as ["********"].  Saving the payload whose secret is
    ["********"] leaves the stored secret as it was. *)
Theorem C6_settings_round_trip (socket reader : Socket) (data : OidcSettings)
  (w w1 : World) (msg : string) :
  oidcSocketHandler.saveOidcSettings socket data w = (OkMsg msg, w1) ->
  Permissions.checkAdmin reader = Return tt ->
  exists view,
    oidcSocketHandler.getOidcSettings reader w1 = (OkSettings view, w1) /\
    (oidcEntraTenantId view = stored w1 "oidcEntraTenantId" /\
     oidcEntraClientId view = stored w1 "oidcEntraClientId" /\
     oidcEntraAllowedGroups view = stored w1 "oidcEntraAllowedGroups" /\
     oidcEntraDefaultRole view = stored w1 "oidcEntraDefaultRole" /\
     oidcEntraAutoCreateUsers view = stored w1 "oidcEntraAutoCreateUsers") /\
    (oidcEntraTenantId view
       = js_or (oidcEntraTenantId data) (JStr EmptyString) /\
     oidcEntraClientId view
       = js_or (oidcEntraClientId data) (JStr EmptyString) /\
     oidcEntraAllowedGroups view
       = match oidcEntraAllowedGroups data with
         | JStr s =>
             JArr (List.filter str_truthy (List.map trim (split "," s)))
         | v => js_or v (JArr [])
         end /\
     oidcEntraDefaultRole view
       = js_or (oidcEntraDefaultRole data) (JStr "viewer") /\
     oidcEntraAutoCreateUsers view
       = JBool (is_not_false (oidcEntraAutoCreateUsers data))) /\
    (page_payload data ->
     oidcEntraTenantId view = oidcEntraTenantId data /\
     oidcEntraClientId view = oidcEntraClientId data /\
     oidcEntraAllowedGroups view = oidcEntraAllowedGroups data /\
     oidcEntraDefaultRole view = oidcEntraDefaultRole data /\
     oidcEntraAutoCreateUsers view = oidcEntraAutoCreateUsers data) /\
    (forall l, Forall clean_group l ->
       oidcEntraAllowedGroups data = JStr (String.concat "," l) \/
       oidcEntraAllowedGroups data = JStr (String.concat ", " l) ->
       oidcEntraAllowedGroups view = JArr l) /\
    (forall w', truthy (stored w' "oidcEntraClientSecret") = true ->
     exists view',
       oidcSocketHandler.getOidcSettings reader w' = (OkSettings view', w') /\
       oidcEntraClientSecret view' = JStr SECRET_PLACEHOLDER) /\
    (oidcEntraClientSecret data = JStr SECRET_PLACEHOLDER ->
     settings w1 !! "oidcEntraClientSecret" =
       settings w !! "oidcEntraClientSecret").
Proof.
  intros Hsave Hreader.
  destruct (saveOidcSettings_cases socket data w) as [[m Hfail]|[_ Hok]];
    [rewrite Hfail in Hsave; discriminate|].
  rewrite Hok in Hsave. inversion Hsave; subst msg w1. clear Hsave Hok.
  destruct (stored_after_save data w) as (_ & Ht & Hc & _ & Hg & Hr & Ha).
  eexists. split; [apply socket_getOidcSettings; assumption|].
  cbn [oidcEntraTenantId oidcEntraClientId oidcEntraAllowedGroups
       oidcEntraDefaultRole oidcEntraAutoCreateUsers oidcEntraClientSecret].
  rewrite Ht, Hc, Hg, Hr, Ha, !js_or_idem.
  assert (Hbool : JBool (is_not_false (JBool (is_not_false
                    (oidcEntraAutoCreateUsers data)))) =
                  JBool (is_not_false (oidcEntraAutoCreateUsers data))).
  { now destruct (oidcEntraAutoCreateUsers data) as [|[]| |]. }
  rewrite Hbool.
  split; [repeat split|split; [|split; [|split; [|split]]]].
  - split_and!; try reflexivity.
    now destruct (oidcEntraAllowedGroups data).
  - intros (e & t & c & s0 & l & r & a & -> & Hne).
    cbn [oidcEntraTenantId oidcEntraClientId oidcEntraAllowedGroups
         oidcEntraDefaultRole oidcEntraAutoCreateUsers].
    rewrite !js_or_empty_string, js_or_nonempty_string by assumption.
    repeat split. now destruct a.
  - intros l Hclean [-> | ->].
    + now rewrite (parse_groups_joined_tight l Hclean).
    + now rewrite (parse_groups_joined l Hclean).
  - intros w' Hsecret. eexists.
    split; [apply socket_getOidcSettings; assumption|].
    cbn [oidcEntraClientSecret]. now rewrite Hsecret.
  - intros Hsentinel. cbn [set_settings settings].
    apply saved_secret_untouched. now rewrite Hsentinel.
Qed.

Lemma C6_settings_round_trip_witness :
  (exists view,
     oidcSocketHandler.getOidcSettings alice_socket
       (snd (oidcSocketHandler.saveOidcSettings alice_socket example_payload
               example_world))
     = (OkSettings view,
        snd (oidcSocketHandler.saveOidcSettings alice_socket example_payload
               example_world)) /\
     oidcEntraTenantId view = JStr "t1" /\
     oidcEntraAllowedGroups view = JArr ["G1"; "G2"] /\
     oidcEntraDefaultRole view = JStr "admin" /\
     oidcEntraAutoCreateUsers view = JBool false) /\
  (exists view,
     oidcSocketHandler.getOidcSettings alice_socket
       (snd (oidcSocketHandler.saveOidcSettings alice_socket text_payload
               example_world))
     = (OkSettings view,
        snd (oidcSocketHandler.saveOidcSettings alice_socket text_payload
               example_world)) /\
     oidcEntraTenantId view = JStr "t1" /\
     oidcEntraAllowedGroups view = JArr ["G1"; "G2"] /\
     oidcEntraDefaultRole view = JStr "viewer" /\
     oidcEntraAutoCreateUsers view = JBool true).
Proof.
  split.
  - destruct (C6_settings_round_trip alice_socket alice_socket example_payload
                example_world
                (snd (oidcSocketHandler.saveOidcSettings alice_socket
                        example_payload example_world))
                "oidcSettingsSaved")
      as (view & Hget & _ & _ & Hpage & _).
    + reflexivity.
    + reflexivity.
    + exists view. split; [exact Hget|].
      destruct Hpage as (Ht & _ & Hg & Hr & Ha).
      * exists true, "t1", "c1", "s1", ["G1"; "G2"], "admin", false.
        split; [reflexivity|discriminate].
      * repeat split; assumption.
  - destruct (C6_settings_round_trip alice_socket alice_socket text_payload
                example_world
                (snd (oidcSocketHandler.saveOidcSettings alice_socket
                        text_payload example_world))
                "oidcSettingsSaved")
      as (view & Hget & _ & (Ht & _ & _ & Hr & Ha) & _ & Hjoined & _).
    + reflexivity.
    + reflexivity.
    + exists view. split; [exact Hget|].
      split; [exact Ht|]. split; [|split; [exact Hr|exact Ha]].
      apply Hjoined; [|right; reflexivity].
      repeat constructor.
Defined.

(** ** C9: the defaults of settings that were never written *)

(** C9.  The router's [getOidcSettings] and the socket's
    ["getOidcSettings"] resolve the same values: [enabled] is true exactly
    when the stored value is the boolean [true]; when the key was never
    written, [allowedGroups] is the empty array, [defaultRole] is ["viewer"]
    and [autoCreateUsers] is true. *)
Theorem C9_unwritten_settings_defaults (socket : Socket) (w : World) :
  Permissions.checkAdmin socket = Return tt ->
  exists rs view,
    Router.getOidcSettings w = (Return rs, w) /\
    oidcSocketHandler.getOidcSettings socket w = (OkSettings view, w) /\
    (enabled rs = true <->
       settings w !! "oidcEntraEnabled" = Some (JBool true)) /\
    oidcEntraEnabled view = JBool (enabled rs) /\
    oidcEntraAllowedGroups view = allowedGroups rs /\
    oidcEntraDefaultRole view = defaultRole rs /\
    oidcEntraAutoCreateUsers view = JBool (autoCreateUsers rs) /\
    (settings w !! "oidcEntraEnabled" = None -> enabled rs = false) /\
    (settings w !! "oidcEntraAllowedGroups" = None ->
       allowedGroups rs = JArr []) /\
    (settings w !! "oidcEntraDefaultRole" = None ->
       defaultRole rs = JStr "viewer") /\
    (settings w !! "oidcEntraAutoCreateUsers" = None ->
       autoCreateUsers rs = true).
Proof.
  intros Hadmin. eexists _, _.
  split; [apply router_getOidcSettings|].
  split; [apply socket_getOidcSettings; assumption|].
  cbn [enabled allowedGroups defaultRole autoCreateUsers oidcEntraEnabled
       oidcEntraAllowedGroups oidcEntraDefaultRole oidcEntraAutoCreateUsers].
  repeat split; try reflexivity.
  - intros H. now apply stored_true, is_true_iff.
  - intros H. now apply is_true_iff, stored_true.
  - intros H. now rewrite (stored_undefined _ _ H).
  - intros H. now rewrite (stored_undefined _ _ H).
  - intros H. now rewrite (stored_undefined _ _ H).
  - intros H. now rewrite (stored_undefined _ _ H).
Qed.

Lemma C9_unwritten_settings_defaults_witness :
  exists rs view,
    Router.getOidcSettings example_world = (Return rs, example_world) /\
    oidcSocketHandler.getOidcSettings alice_socket example_world
      = (OkSettings view, example_world) /\
    enabled rs = false /\ allowedGroups rs = JArr [] /\
    defaultRole rs = JStr "viewer" /\ autoCreateUsers rs = true /\
    oidcEntraEnabled view = JBool false /\
    oidcEntraAllowedGroups view = JArr [] /\
    oidcEntraDefaultRole view = JStr "viewer" /\
    oidcEntraAutoCreateUsers view = JBool true.
Proof.
  destruct (C9_unwritten_settings_defaults alice_socket example_world)
    as (rs & view & Hr & Hv & _ & He & Hg & Hd & Ha & He0 & Hg0 & Hd0 & Ha0).
  - reflexivity.
  - exists rs, view.
    rewrite He, Hg, Hd, Ha, (He0 eq_refl), (Hg0 eq_refl), (Hd0 eq_refl),
      (Ha0 eq_refl).
    repeat split; assumption.
Defined.

(** ** C2: a state token is consumed once *)

(** C2, as it holds.  Let the state [st] be registered.  A callback that
    presents [st] together with an error of the provider answers with that
    error and leaves the session where it is.  A callback that presents [st]
    without such an error takes the stored session out of the map and
    goes on with it; after it, and after any further callbacks and sweeps,
    every callback that presents [st] without an error of the provider is
    refused as an invalid or expired authentication session. *)
Theorem C2_state_token_consumed_once (idp : Provider) (env : Env) (q : Query)
  (st : string) (session : AuthSession) (w : World) :
  authSessions w !! st = Some session -> str_truthy st = true ->
  q_state q = Some st ->
  (forall err, q_error q = Some err -> str_truthy err = true ->
     Router.callback idp env q w =
       (Redirect (DashboardError (opt_or (q_error_description q) err)), w)) /\
  (opt_truthy (q_error q) = false ->
     let w1 := snd (Router.callback idp env q w) in
     Router.callback_body idp env q w =
       Router.callback_with_session idp env q st session
         (set_sessions (delete st) w) /\
     authSessions w1 = delete st (authSessions w) /\
     forall (es : list RouterEvent) (idp' : Provider) (env' : Env)
            (q' : Query),
       let w2 := after_events es w1 in
       q_state q' = Some st -> opt_truthy (q_error q') = false ->
       Router.callback idp' env' q' w2 =
         (Redirect (DashboardError MSG_INVALID_SESSION), w2)).
Proof.
  intros Hs Hst Hq. split.
  - intros err. now apply callback_provider_error.
  - intros Hnoerr w1.
    assert (Hbody : Router.callback_body idp env q w =
                    Router.callback_with_session idp env q st session
                      (set_sessions (delete st) w)).
    { rewrite callback_body_no_error by assumption.
      now apply callback_validate_found. }
    assert (Hw1 : authSessions w1 = delete st (authSessions w)).
    { subst w1. unfold Router.callback. rewrite Hbody.
      pose proof (keeps_sessions_with_session idp env q st session
                    (set_sessions (delete st) w)) as Hkeep.
      destruct (Router.callback_with_session idp env q st session
                  (set_sessions (delete st) w)) as [[r|msg] w'];
        cbn [snd] in *; exact Hkeep. }
    repeat split; [exact Hbody|exact Hw1|].
    intros es idp' env' q' w2 Hq' Hnoerr'.
    apply callback_unknown_state with (st := st); [assumption..|].
    apply after_events_keeps_absent. rewrite Hw1. apply lookup_delete_eq.
Qed.

Lemma C2_state_token_consumed_once_witness :
  authSessions (snd (Router.callback example_idp at_1000 bob_returns sso_world))
    = delete "s1" (authSessions sso_world) /\
  Router.callback example_idp at_1000 bob_returns
    (snd (Router.callback example_idp at_1000 bob_returns sso_world))
  = (Redirect (DashboardError MSG_INVALID_SESSION),
     snd (Router.callback example_idp at_1000 bob_returns sso_world)).
Proof.
  destruct (C2_state_token_consumed_once example_idp at_1000 bob_returns "s1"
              pending_s1 sso_world) as [_ H].
  - reflexivity.
  - reflexivity.
  - reflexivity.
  - destruct H as (_ & Hw1 & Hlater); [reflexivity|].
    split; [exact Hw1|].
    apply (Hlater [] example_idp at_1000 bob_returns); reflexivity.
Defined.

(** C2 as the specification has it fails: the first callback that presents
    the registered state [s1] carries the provider's error [access_denied];
    it does not take the session out of the map, and the next callback that
    presents [s1] is not refused but is answered with a login code. *)
Lemma C2_provider_error_counterexample :
  authSessions sso_world !! "s1" = Some pending_s1 /\
  q_state consent_denied = Some "s1" /\
  Router.callback example_idp at_1000 consent_denied sso_world
    = (Redirect (DashboardError "access_denied"), sso_world) /\
  fst (Router.callback example_idp at_1000 bob_returns
         (snd (Router.callback example_idp at_1000 consent_denied sso_world)))
    = Redirect (DashboardCode "f00d").
Proof. vm_compute. repeat split. Qed.

(** ** C7: the denial by group *)

(** C7.  A callback that gets as far as the claims (no error of the provider,
    a registered state that is not expired, SSO enabled, discovery and code
    exchange answered) while the configured [allowedGroups] are a non-empty
    array that shares no element with the claimed groups ends in the redirect
    with the not-authorized message; its only effect is that the session is
    gone: no row of [user] or of [oidc_login_code] is written. *)
Theorem C7_group_denial_frame (idp : Provider) (env : Env) (q : Query)
  (st : string) (session : AuthSession) (l : list string) (claims : Claims)
  (w : World) :
  opt_truthy (q_error q) = false ->
  q_state q = Some st -> str_truthy st = true ->
  authSessions w !! st = Some session ->
  ~ (expiresAt session < now env)%Z ->
  enabled (read_settings w) = true ->
  discover idp (Router.issuerUrl_of (read_settings w)) = true ->
  exchange idp (Router.token_request (read_settings w) session q st)
    = Return claims ->
  allowedGroups (read_settings w) = JArr l -> l <> [] ->
  (forall g, In g l -> ~ In g (default [] (claim_groups claims))) ->
  Router.callback idp env q w =
    (Redirect (DashboardError MSG_NOT_AUTHORIZED), set_sessions (delete st) w)
  /\ users (snd (Router.callback idp env q w)) = users w
  /\ oidc_login_code (snd (Router.callback idp env q w)) = oidc_login_code w.
Proof.
  intros Hnoerr Hq Hst Hs Hexp Hen Hdisc Hex Hallowed Hne Hdisjoint.
  assert (Hcb : Router.callback idp env q w =
                (Redirect (DashboardError MSG_NOT_AUTHORIZED),
                 set_sessions (delete st) w)).
  { unfold Router.callback.
    rewrite callback_body_no_error by assumption.
    rewrite (callback_validate_found idp env q st session w Hq Hst Hs).
    unfold Router.callback_with_session.
    apply Z.ltb_nlt in Hexp. rewrite Hexp.
    now rewrite (authenticate_not_authorized idp env q st session l claims). }
  rewrite Hcb. repeat split.
Qed.

Lemma C7_group_denial_frame_witness :
  Router.callback example_idp at_1000 eve_returns sso_world =
    (Redirect (DashboardError MSG_NOT_AUTHORIZED),
     set_sessions (delete "s1") sso_world).
Proof.
  apply (C7_group_denial_frame example_idp at_1000 eve_returns "s1" pending_s1
           ["G1"] eve_claims sso_world); try reflexivity.
  - cbn. lia.
  - discriminate.
  - intros g [<-|[]] [Hin|[]]. discriminate.
Defined.

(** ** C8: expired sessions *)

(** C8, as it holds.  A callback that presents, without an error of the
    provider, a registered state whose session has [expiresAt] strictly
    before the current time is refused with "Authentication session
    expired", swept or not, and the session is gone.  At the instant
    [expiresAt] itself the session still passes the check and the callback
    goes on to authenticate.  The sweep uses the same comparison. *)
Theorem C8_expired_session_refused (idp : Provider) (env : Env) (q : Query)
  (st : string) (session : AuthSession) (w : World) :
  opt_truthy (q_error q) = false ->
  q_state q = Some st -> str_truthy st = true ->
  authSessions w !! st = Some session ->
  ((expiresAt session < now env)%Z ->
   Router.callback idp env q w =
     (Redirect (DashboardError MSG_SESSION_EXPIRED),
      set_sessions (delete st) w)) /\
  (expiresAt session = now env ->
   Router.callback_body idp env q w =
     Router.callback_authenticate idp env q st session
       (set_sessions (delete st) w)) /\
  (forall t, authSessions (Router.sweep t w) !! st =
             if (expiresAt session <? t)%Z then None else Some session).
Proof.
  intros Hnoerr Hq Hst Hs. repeat split.
  - intros Hexp. unfold Router.callback.
    rewrite callback_body_no_error by assumption.
    rewrite (callback_validate_found idp env q st session w Hq Hst Hs).
    unfold Router.callback_with_session.
    apply Z.ltb_lt in Hexp. now rewrite Hexp.
  - intros Hexp.
    rewrite callback_body_no_error by assumption.
    rewrite (callback_validate_found idp env q st session w Hq Hst Hs).
    unfold Router.callback_with_session.
    now rewrite Hexp, Z.ltb_irrefl.
  - intros t. now apply sweep_lookup.
Qed.

Lemma C8_expired_session_refused_witness :
  Router.callback example_idp after_expiry bob_returns sso_world =
    (Redirect (DashboardError MSG_SESSION_EXPIRED),
     set_sessions (delete "s1") sso_world).
Proof.
  destruct (C8_expired_session_refused example_idp after_expiry bob_returns
              "s1" pending_s1 sso_world) as [H _];
    [reflexivity|reflexivity|reflexivity|reflexivity|].
  apply H. cbn. lia.
Defined.

(** C8 as the specification has it fails at the boundary: at the time
    600000, which is the [expiresAt] of the pending session, the callback is
    not refused; bob is logged in and a login code is issued. *)
Lemma C8_at_expiry_counterexample :
  authSessions sso_world !! "s1" = Some pending_s1 /\
  (expiresAt pending_s1 <= now at_expiry)%Z /\
  fst (Router.callback example_idp at_expiry bob_returns sso_world)
    = Redirect (DashboardCode "f00d") /\
  oidc_login_code
    (snd (Router.callback example_idp at_expiry bob_returns sso_world))
    !! "f00d" = Some (mkLoginCode 2 (600200 + 5 * 60 * 1000) false).
Proof. vm_compute. repeat split; congruence. Qed.

(** ** C10: concurrent exchanges of one code *)

(** C10 fails for login codes.  Two connections emit ["loginByOidcCode"]
    with the same fresh code.  When the second handler runs only after the
    first has finished, one exchange succeeds and the other is refused.  When
    the event loop resumes them in turn, both have read the unused row before
    either has stored [used = true]: both exchanges succeed, both sockets are
    bound to the user and the code is marked used once. *)
Theorem C10_login_code_race :
  let seq := Interleaving.run "secret" 5000 one_by_one race_system in
  let par := Interleaving.run "secret" 5000 in_turn race_system in
  map Interleaving.succeeded (fst seq) = [true; false] /\
  map Interleaving.answer_of (fst par) =
    [ Some (OkLogin (createJWT 2 bob "secret") (Some "viewer"));
      Some (OkLogin (createJWT 2 bob "secret") (Some "viewer")) ] /\
  map fst (fst par) =
    [ mkSocket (Some 2) (Some "viewer"); mkSocket (Some 2) (Some "viewer") ] /\
  oidc_login_code (snd par) !! "c-fresh" = Some (mkLoginCode 2 9000 true).
Proof. vm_compute. repeat split. Qed.

(** * Further properties of the code *)

(** ** server/permissions.js *)

Section MorePermissionProps.
Import Permissions.

Lemma check_perms_true (r permission : string) :
  check_perms r permission = Return true ->
  r = "admin" \/ (r = "viewer" /\ includes viewer_permissions permission = true).
Proof.
  unfold check_perms, PERMISSIONS_get, PERMISSIONS, own_property.
  destruct (String.eqb "admin" r) eqn:E1;
    [apply String.eqb_eq in E1; auto|].
  destruct (String.eqb "viewer" r) eqn:E2.
  - apply String.eqb_eq in E2. subst r. intros H. right. split; [reflexivity|].
    cbn in H. now inversion H.
  - destruct (includes Object_prototype_keys r); discriminate.
Qed.

Lemma check_perms_admin (permission : string) :
  check_perms "admin" permission = Return true.
Proof. reflexivity. Qed.

Lemma opt_or_viewer_admin (o : option string) :
  opt_or o "viewer" = "admin" <-> o = Some "admin".
Proof.
  split; [|now intros ->].
  destruct o as [r|]; cbn; [|discriminate].
  destruct (str_truthy r); [congruence|discriminate].
Qed.

Lemma checkAdmin_Return (socket : Socket) :
  checkAdmin socket = Return tt <->
  no_userID socket = false /\ userRole socket = Some "admin".
Proof.
  unfold checkAdmin, socketIsAdmin. split.
  - destruct (no_userID socket); [discriminate|].
    destruct (bool_decide (userRole socket = Some "admin")) eqn:Hadm;
      [|discriminate].
    apply bool_decide_eq_true in Hadm. auto.
  - intros [-> ->]. reflexivity.
Qed.

Lemma checkPermission_Return (socket : Socket) (permission : string) :
  checkPermission socket permission = Return tt <->
  no_userID socket = false /\
  check_perms (opt_or (userRole socket) "viewer") permission = Return true.
Proof.
  unfold checkPermission, socketHasPermission.
  destruct (no_userID socket); [split; [discriminate|intros [? _]; discriminate]|].
  destruct (check_perms _ permission) as [[]|msg]; split;
    try discriminate; try (intros [_ ?]; discriminate); auto.
Qed.

Lemma viewer_permissions_listed :
  forallb (fun p => includes ALL_PERMISSIONS p && is_read p
                    && negb (String.eqb p "settings:read")
                    && negb (String.eqb p "user:read"))
          viewer_permissions = true.
Proof. vm_compute. reflexivity. Qed.

Lemma read_permissions_of_viewer :
  forallb (fun p => implb (is_read p && negb (String.eqb p "settings:read")
                           && negb (String.eqb p "user:read"))
                          (includes viewer_permissions p))
          ALL_PERMISSIONS = true.
Proof. vm_compute. reflexivity. Qed.

Lemma includes_In (l : list string) (x : string) :
  includes l x = true <-> In x l.
Proof.
  unfold includes. rewrite existsb_exists. split.
  - intros (y & Hy & Heq). apply String.eqb_eq in Heq. now subst y.
  - intros Hx. exists x. split; [assumption|apply String.eqb_refl].
Qed.

End MorePermissionProps.

(** The sockets that pass [checkAdmin] are those that pass
    [checkPermission] for every permission string, and those that pass it
    for any one permission a viewer does not hold. *)
Theorem checkAdmin_iff_checkPermission (socket : Socket) (permission : string) :
  includes Permissions.viewer_permissions permission = false ->
  (Permissions.checkAdmin socket = Return tt <->
   Permissions.checkPermission socket permission = Return tt) /\
  (Permissions.checkAdmin socket = Return tt <->
   forall p, Permissions.checkPermission socket p = Return tt).
Proof.
  intros Hnot.
  assert (Hto : Permissions.checkAdmin socket = Return tt ->
                forall p, Permissions.checkPermission socket p = Return tt).
  { intros [Hid Hrole]%checkAdmin_Return p.
    apply checkPermission_Return. split; [assumption|].
    rewrite Hrole. apply check_perms_admin. }
  assert (Hfrom : Permissions.checkPermission socket permission = Return tt ->
                  Permissions.checkAdmin socket = Return tt).
  { intros [Hid Hperm]%checkPermission_Return.
    apply checkAdmin_Return. split; [assumption|].
    apply check_perms_true in Hperm as [Hadm|[_ Hin]];
      [now apply opt_or_viewer_admin|congruence]. }
  split; split; auto.
Qed.

Lemma checkAdmin_iff_checkPermission_witness :
  Permissions.checkAdmin alice_socket = Return tt <->
  Permissions.checkPermission alice_socket "user:delete" = Return tt.
Proof.
  apply (checkAdmin_iff_checkPermission alice_socket "user:delete").
  reflexivity.
Defined.

(** A user whose role is [viewer], or is missing, holds a permission
    exactly when it is one of [ALL_PERMISSIONS], its action is [read] and it
    is neither [settings:read] nor [user:read]: a viewer writes and deletes
    nothing and reads neither the settings nor the users. *)
Theorem viewer_reads_only (u : User) (permission : string) :
  opt_or (role u) "viewer" = "viewer" ->
  (Permissions.hasPermission (Some u) permission = Return true <->
   In permission Permissions.ALL_PERMISSIONS /\
   is_read permission = true /\
   permission <> "settings:read" /\ permission <> "user:read").
Proof.
  intros Hrole. unfold Permissions.hasPermission. rewrite Hrole.
  rewrite check_perms_viewer. split.
  - intros H.
    assert (Hin : includes Permissions.viewer_permissions permission = true)
      by congruence.
    clear H. apply includes_In in Hin.
    pose proof viewer_permissions_listed as Hall.
    rewrite forallb_forall in Hall. specialize (Hall permission Hin).
    apply andb_true_iff in Hall as [Hall Hu].
    apply andb_true_iff in Hall as [Hall Hs].
    apply andb_true_iff in Hall as [Ha Hr].
    apply includes_In in Ha.
    apply negb_true_iff, String.eqb_neq in Hu, Hs. auto.
  - intros (Hin & Hread & Hs & Hu).
    pose proof read_permissions_of_viewer as Hall.
    rewrite forallb_forall in Hall. specialize (Hall permission Hin).
    apply String.eqb_neq in Hs, Hu. rewrite Hread, Hs, Hu in Hall.
    cbn [andb negb implb] in Hall. now rewrite Hall.
Qed.

Lemma viewer_reads_only_witness :
  Permissions.hasPermission (Some bob) "monitor:read" = Return true /\
  Permissions.hasPermission (Some bob) "monitor:write" <> Return true.
Proof.
  pose proof (viewer_reads_only bob "monitor:read" eq_refl) as [_ Hread].
  pose proof (viewer_reads_only bob "monitor:write" eq_refl) as [Hwrite _].
  split.
  - apply Hread. repeat split; [cbn; tauto|discriminate|discriminate].
  - intros H. apply Hwrite in H as (_ & Hr & _). discriminate.
Defined.

(** [getPermissionsForRole] of the role column of a user against
    [hasPermission] of that user.  When the column holds a role that is not
    empty, the two agree: a name that [PERMISSIONS] inherits from
    [Object.prototype] makes both throw the same error, and otherwise the
    list holds exactly the permissions of [ALL_PERMISSIONS] that
    [hasPermission] grants, which are none for a role that is unknown.  When
    the column is empty or missing, they disagree: the list is empty, while
    [hasPermission] grants the permissions of a viewer. *)
Theorem getPermissionsForRole_lists_granted (u : User) :
  (opt_truthy (role u) = true ->
   (forall msg permission,
      Permissions.getPermissionsForRole (role u) = Throw msg <->
      Permissions.hasPermission (Some u) permission = Throw msg) /\
   (forall l permission,
      Permissions.getPermissionsForRole (role u) = Return l ->
      In permission Permissions.ALL_PERMISSIONS ->
      (Permissions.hasPermission (Some u) permission = Return true <->
       In permission l))) /\
  (opt_truthy (role u) = false ->
   Permissions.getPermissionsForRole (role u) = Return [] /\
   forall permission,
     Permissions.hasPermission (Some u) permission =
       Return (includes Permissions.viewer_permissions permission)).
Proof.
  split.
  - intros Hrole. destruct (role u) as [r|] eqn:Hr; [|discriminate].
    cbn [opt_truthy] in Hrole.
    unfold Permissions.getPermissionsForRole, Permissions.hasPermission.
    rewrite Hr. change (default "undefined" (Some r)) with r.
    unfold opt_or. rewrite Hrole.
    unfold Permissions.check_perms, Permissions.PERMISSIONS_get,
      Permissions.PERMISSIONS, Permissions.own_property.
    destruct (String.eqb "admin" r).
    { change (includes ["*"] "*") with true. cbv iota. split.
      - intros msg permission. split; discriminate.
      - intros l permission Hl Hall. inversion Hl; subst l.
        split; [intros _; assumption|reflexivity]. }
    destruct (String.eqb "viewer" r).
    { replace (includes _ "*") with false by (vm_compute; reflexivity).
      split.
      - intros msg permission. split; discriminate.
      - intros l permission Hl Hall. inversion Hl; subst l.
        rewrite <- includes_In. split; congruence. }
    destruct (includes Permissions.Object_prototype_keys r).
    { split.
      - intros msg permission. split; congruence.
      - intros l permission Hl. discriminate. }
    split.
    + intros msg permission. split; discriminate.
    + intros l permission Hl Hall. inversion Hl; subst l.
      split; [discriminate|intros []].
  - intros Hrole. split.
    + destruct (role u) as [[|c r]|]; [reflexivity|discriminate|reflexivity].
    + intros permission. unfold Permissions.hasPermission.
      rewrite opt_or_missing by assumption. apply check_perms_viewer.
Qed.

Lemma getPermissionsForRole_lists_granted_witness :
  (Permissions.hasPermission (Some bob) "tag:read" = Return true <->
   In "tag:read" Permissions.viewer_permissions) /\
  Permissions.getPermissionsForRole (role dave) = Return [] /\
  Permissions.hasPermission (Some dave) "tag:read" = Return true.
Proof.
  split.
  - destruct (getPermissionsForRole_lists_granted bob) as [Hknown _].
    destruct (Hknown eq_refl) as [_ Hlist].
    apply (Hlist Permissions.viewer_permissions "tag:read");
      [reflexivity|cbn; tauto].
  - destruct (getPermissionsForRole_lists_granted dave) as [_ Hempty].
    destruct (Hempty eq_refl) as [Hlist Hgranted].
    split; [exact Hlist|apply Hgranted].
Defined.

(** ** The events of the socket handler *)

Section MoreSocketProps.
Import oidcSocketHandler userEvents.

Lemma not_admin_cases (socket : Socket) :
  Permissions.checkAdmin socket <> Return tt ->
  (checkLogin socket = Throw (refusal socket)) \/
  (checkLogin socket = Return tt /\
   Permissions.checkAdmin socket = Throw (refusal socket)).
Proof.
  unfold Permissions.checkAdmin, checkLogin, refusal.
  destruct (no_userID socket); [auto|].
  destruct (negb (Permissions.socketIsAdmin socket)); [auto|congruence].
Qed.

End MoreSocketProps.

Section HandlerRuns.
Import oidcSocketHandler userEvents.

Lemma deleteUser_self (socket : Socket) (uid : Z) (w : World) :
  userID socket = Some uid ->
  exists msg, deleteUser socket (Some uid) w = (Fail msg, w).
Proof.
  intros Hself. unfold deleteUser, try_catch, mbind, M_bind, call.
  destruct (checkLogin socket); [|eauto].
  destruct (Permissions.checkAdmin socket); [|eauto].
  unfold throw_if at 1. destruct (falsy_id (Some uid)); unfold throw; [eauto|].
  cbn [mret M_ret]. unfold throw_if at 1.
  rewrite bool_decide_eq_true_2 by congruence. unfold throw. eauto.
Qed.

Lemma setUserRole_to_admin (socket : Socket) (uid : Z) (u : User) (w : World) :
  Permissions.checkAdmin socket = Return tt -> uid <> 0 ->
  users w !! uid = Some u -> active u = true ->
  setUserRole socket (mkRoleChange (Some uid) (Some "admin")) w =
    (OkMsg "userRoleUpdated", set_users (insert uid (with_role "admin" u)) w).
Proof.
  intros Hadmin Hne Hu Hact.
  unfold setUserRole, try_catch, mbind, M_bind, call.
  rewrite (checkAdmin_checkLogin _ Hadmin), Hadmin.
  cbn [userId new_role falsy_id str_truthy negb orb].
  apply Z.eqb_neq in Hne. rewrite Hne.
  cbn [throw_if mret M_ret includes existsb String.eqb Ascii.eqb Bool.eqb
       orb negb andb].
  unfold R.findOne_active_user, R.store_user. now rewrite Hu, Hact.
Qed.

End HandlerRuns.

(** The events that are for admins only answer a socket that does not pass
    [checkAdmin] with [{ ok: false }], "You are not logged in." when it has
    no user and "Permission denied. Admin access required." otherwise, and
    change nothing. *)
Theorem admin_only_events_refuse (socket : Socket) (w : World) :
  Permissions.checkAdmin socket <> Return tt ->
  oidcSocketHandler.getOidcSettings socket w = (Fail (refusal socket), w) /\
  (forall data,
     oidcSocketHandler.saveOidcSettings socket data w
       = (Fail (refusal socket), w)) /\
  (forall data,
     oidcSocketHandler.setUserRole socket data w = (Fail (refusal socket), w)) /\
  (forall userId,
     oidcSocketHandler.deleteUser socket userId w = (Fail (refusal socket), w)) /\
  userEvents.getUsers socket w = (UsersFail (refusal socket), w).
Proof.
  intros Hnot.
  unfold oidcSocketHandler.getOidcSettings, oidcSocketHandler.saveOidcSettings,
    oidcSocketHandler.setUserRole, oidcSocketHandler.deleteUser,
    userEvents.getUsers, try_catch, mbind, M_bind, call.
  destruct (not_admin_cases socket Hnot) as [->|[-> ->]]; repeat split.
Qed.

Lemma admin_only_events_refuse_witness :
  oidcSocketHandler.setUserRole bob_socket
    (mkRoleChange (Some 2) (Some "admin")) example_world
  = (Fail "Permission denied. Admin access required.", example_world) /\
  userEvents.getUsers anonymous example_world
  = (UsersFail "You are not logged in.", example_world).
Proof.
  split.
  - apply (admin_only_events_refuse bob_socket example_world). discriminate.
  - apply (admin_only_events_refuse anonymous example_world). discriminate.
Defined.

(** A [setUserRole] that succeeds was given the id of an active user and
    one of the two roles; it writes that role into that user's row and
    changes nothing else: no other column of the row, no other row, no other
    table. *)
Theorem setUserRole_sets_one_role (socket : Socket) (data : RoleChange)
  (w w' : World) (r : Response) :
  oidcSocketHandler.setUserRole socket data w = (r, w') -> is_ok r = true ->
  exists uid new u,
    userId data = Some uid /\ new_role data = Some new /\
    (new = "admin" \/ new = "viewer") /\
    users w !! uid = Some u /\ active u = true /\
    users w' !! uid = Some (with_role new u) /\
    (forall k, k <> uid -> users w' !! k = users w !! k) /\
    oidc_login_code w' = oidc_login_code w /\
    settings w' = settings w /\ authSessions w' = authSessions w.
Proof.
  intros Hrun Hok.
  destruct (setUserRole_cases socket data w)
    as [[msg Hfail]|(uid & new & u & Hid & Hnew & Hu & Hact & Hrole & Hdone)].
  - rewrite Hfail in Hrun. inversion Hrun; subst r. discriminate.
  - rewrite Hdone in Hrun. inversion Hrun; subst r w'.
    exists uid, new, u. cbn [set_users users oidc_login_code settings authSessions].
    repeat split; try assumption.
    + destruct Hrole as [|[? _]]; auto.
    + apply lookup_insert_eq.
    + intros k Hk. now apply lookup_insert_ne.
Qed.

Lemma setUserRole_sets_one_role_witness :
  exists u,
    users example_world !! 2 = Some u /\
    users (snd (oidcSocketHandler.setUserRole alice_socket
                  (mkRoleChange (Some 2) (Some "admin")) example_world)) !! 2
      = Some (with_role "admin" u).
Proof.
  destruct (setUserRole_sets_one_role alice_socket
              (mkRoleChange (Some 2) (Some "admin")) example_world
              (snd (oidcSocketHandler.setUserRole alice_socket
                      (mkRoleChange (Some 2) (Some "admin")) example_world))
              (OkMsg "userRoleUpdated"))
    as (uid & new & u & Hid & Hnew & _ & Hu & _ & Hu' & _).
  - reflexivity.
  - reflexivity.
  - inversion Hid; subst uid. inversion Hnew; subst new.
    exists u. split; assumption.
Defined.

(** A [deleteUser] that succeeds was given the id of an active user.  It is
    a soft delete: the row stays, with [active] false and every other column
    as it was; no other row changes; the login codes of the deleted user are
    gone and the others stay; afterwards every code that belonged to the
    deleted user is answered "Invalid or expired login code". *)
Theorem deleteUser_soft_deletes_and_purges (socket : Socket)
  (userId : option Z) (w w' : World) (r : Response) :
  oidcSocketHandler.deleteUser socket userId w = (r, w') -> is_ok r = true ->
  exists uid u,
    userId = Some uid /\
    users w !! uid = Some u /\ active u = true /\
    users w' !! uid = Some (deactivate u) /\
    (forall k, k <> uid -> users w' !! k = users w !! k) /\
    (forall c lc, oidc_login_code w' !! c = Some lc <->
                  oidc_login_code w !! c = Some lc /\ user_id lc <> uid) /\
    settings w' = settings w /\ authSessions w' = authSessions w /\
    (forall c lc socket' jwtSecret now,
       oidc_login_code w !! c = Some lc -> user_id lc = uid ->
       str_truthy c = true ->
       oidcSocketHandler.loginByOidcCode socket' jwtSecret now (JStr c) true w'
         = (Some (Fail "Invalid or expired login code"), socket', w')).
Proof.
  intros Hrun Hok.
  destruct (deleteUser_cases socket userId w)
    as [[msg Hfail]|(uid & u & -> & Hu & Hact & _ & Hdone)].
  - rewrite Hfail in Hrun. inversion Hrun; subst r. discriminate.
  - rewrite Hdone in Hrun. inversion Hrun; subst r w'.
    assert (Hcodes : forall c lc,
      filter (fun kv : string * LoginCode => user_id (snd kv) <> uid)
             (oidc_login_code w) !! c = Some lc <->
      oidc_login_code w !! c = Some lc /\ user_id lc <> uid).
    { intros c lc. apply map_lookup_filter_Some. }
    exists uid, u. cbn [set_codes set_users users oidc_login_code settings
                        authSessions].
    split_and!; try assumption; try reflexivity.
    + apply lookup_insert_eq.
    + intros k Hk. now apply lookup_insert_ne.
    + intros c lc socket' jwtSecret now Hc Hlc Htruthy.
      apply exchange_unknown; [assumption|].
      cbn [set_codes set_users oidc_login_code].
      apply map_lookup_filter_None. right. intros lc' Hc'.
      rewrite Hc in Hc'. inversion Hc'; subst lc'. cbn. tauto.
Qed.

Lemma deleteUser_soft_deletes_and_purges_witness :
  exists u,
    users code_world !! 2 = Some u /\
    users (snd (oidcSocketHandler.deleteUser alice_socket (Some 2) code_world))
      !! 2 = Some (deactivate u) /\
    oidcSocketHandler.loginByOidcCode anonymous "secret" 5000 (JStr "c-fresh")
      true (snd (oidcSocketHandler.deleteUser alice_socket (Some 2) code_world))
    = (Some (Fail "Invalid or expired login code"), anonymous,
       snd (oidcSocketHandler.deleteUser alice_socket (Some 2) code_world)).
Proof.
  destruct (deleteUser_soft_deletes_and_purges alice_socket (Some 2) code_world
              (snd (oidcSocketHandler.deleteUser alice_socket (Some 2)
                      code_world))
              (OkMsg "userDeleted"))
    as (uid & u & Hid & Hu & _ & Hu' & _ & _ & _ & _ & Hcode).
  - reflexivity.
  - reflexivity.
  - inversion Hid; subst uid. exists u.
    split; [assumption|]. split; [assumption|].
    apply (Hcode "c-fresh" (mkLoginCode 2 9000 false)); reflexivity.
Defined.

Section ExchangeRuns.
Import oidcSocketHandler userEvents.

Lemma exchange_success_inv (socket : Socket) (jwtSecret : string) (now : Z)
  (code : jsval) (callback : bool) (w : World) (tok : Token)
  (r : option string) (socket' : Socket) (w' : World) :
  loginByOidcCode socket jwtSecret now code callback w
    = (Some (OkLogin tok r), socket', w') ->
  callback = true /\
  exists c lc u,
    code = JStr c /\ str_truthy c = true /\
    oidc_login_code w !! c = Some lc /\ used lc = false /\
    (now <= expires_at lc)%Z /\
    users w !! user_id lc = Some u /\ active u = true /\
    tok = createJWT (user_id lc) u jwtSecret /\ r = role u /\
    socket' = mkSocket (Some (user_id lc)) (Some (opt_or (role u) "viewer")) /\
    w' = set_codes (insert c (mark_used lc)) w.
Proof.
  unfold loginByOidcCode, loginByOidcCode_body, mbind, M_bind, mret, M_ret,
    R.findOne_unused_code, R.trash_code, R.store_code, R.findOne_active_user.
  destruct callback; cbn [negb]; [|discriminate].
  destruct code as [|b|c|l]; try discriminate.
  destruct (str_truthy c) eqn:Hc; cbn [negb]; [|discriminate].
  destruct (oidc_login_code w !! c) as [lc|] eqn:Hlc; [|discriminate].
  destruct (used lc) eqn:Hused; [discriminate|].
  destruct (expires_at lc <? now)%Z eqn:Hexp; [discriminate|].
  cbn [set_codes users mark_used user_id].
  destruct (users w !! user_id lc) as [u|] eqn:Hu; [|discriminate].
  destruct (active u) eqn:Hact; [|discriminate].
  intros H. inversion H; subst. apply Z.ltb_ge in Hexp.
  split; [reflexivity|]. exists c, lc, u. auto 12.
Qed.

Lemma exchange_frame (socket : Socket) (jwtSecret : string) (now : Z)
  (code : jsval) (callback : bool) (w : World) :
  let result := loginByOidcCode socket jwtSecret now code callback w in
  users (snd result) = users w /\
  settings (snd result) = settings w /\
  authSessions (snd result) = authSessions w /\
  (forall c, code <> JStr c ->
     oidc_login_code (snd result) !! c = oidc_login_code w !! c) /\
  (snd (fst result) = socket \/
   exists tok r, fst (fst result) = Some (OkLogin tok r)).
Proof.
  unfold loginByOidcCode, loginByOidcCode_body, mbind, M_bind, mret, M_ret,
    R.findOne_unused_code, R.trash_code, R.store_code, R.findOne_active_user.
  destruct callback; cbn [negb]; [|cbn; auto 6].
  destruct code as [|b|c|l]; try (cbn; auto 6).
  destruct (str_truthy c); cbn [negb]; [|cbn; auto 6].
  destruct (oidc_login_code w !! c) as [lc|]; [|cbn; auto 6].
  destruct (used lc); [cbn; auto 6|].
  destruct (expires_at lc <? now)%Z.
  - cbn. split_and!; auto.
    intros c' Hne. apply lookup_delete_ne. congruence.
  - cbn [set_codes users mark_used user_id].
    destruct (users w !! user_id lc) as [u|]; [destruct (active u)|];
      cbn; (split_and!; eauto;
            intros c' Hne; apply lookup_insert_ne; congruence).
Qed.

End ExchangeRuns.

(** Neither a change of role nor a deletion reaches the sockets that are
    open.  After an admin was made a viewer, the socket they logged in on
    still passes for an admin's and can give the role back; after a user was
    deleted, their socket still reads the OIDC settings, and only the event
    that looks the row up, ["linkEntraAccount"], answers "User not found". *)
Theorem open_socket_keeps_its_role (actor stale : Socket) (uid : Z)
  (w w1 : World) (m : string) :
  userID stale = Some uid -> userRole stale = Some "admin" -> uid <> 0 ->
  (oidcSocketHandler.setUserRole actor
     (mkRoleChange (Some uid) (Some "viewer")) w = (OkMsg m, w1) ->
   exists u,
     users w1 !! uid = Some (with_role "viewer" u) /\
     oidcSocketHandler.setUserRole stale
       (mkRoleChange (Some uid) (Some "admin")) w1
     = (OkMsg "userRoleUpdated",
        set_users (insert uid (with_role "admin" (with_role "viewer" u))) w1)) /\
  (oidcSocketHandler.deleteUser actor (Some uid) w = (OkMsg m, w1) ->
   (exists view,
      oidcSocketHandler.getOidcSettings stale w1 = (OkSettings view, w1)) /\
   userEvents.linkEntraAccount stale w1 = (LinkFail "User not found", w1)).
Proof.
  intros Hid Hrole Hne.
  assert (Hadmin : Permissions.checkAdmin stale = Return tt).
  { apply checkAdmin_Return. split; [|assumption].
    unfold no_userID. rewrite Hid. now apply Z.eqb_neq. }
  split.
  - intros Hrun.
    destruct (setUserRole_cases actor (mkRoleChange (Some uid) (Some "viewer")) w)
      as [[msg Hfail]|(uid' & new & u & Huid & Hnew & Hu & Hact & _ & Hdone)];
      [rewrite Hfail in Hrun; discriminate|].
    cbn in Huid, Hnew. inversion Huid; subst uid'. inversion Hnew; subst new.
    rewrite Hdone in Hrun. inversion Hrun; subst m w1.
    assert (Hu1 : users (set_users (insert uid (with_role "viewer" u)) w) !! uid
                  = Some (with_role "viewer" u)) by apply lookup_insert_eq.
    exists u. split; [exact Hu1|].
    now apply setUserRole_to_admin.
  - intros Hrun.
    destruct (deleteUser_cases actor (Some uid) w)
      as [[msg Hfail]|(uid' & u & Huid & Hu & Hact & _ & Hdone)];
      [rewrite Hfail in Hrun; discriminate|].
    inversion Huid; subst uid'.
    rewrite Hdone in Hrun. inversion Hrun; subst m w1.
    split; [eexists; now apply socket_getOidcSettings|].
    unfold userEvents.linkEntraAccount, mbind, M_bind, call.
    rewrite (checkAdmin_checkLogin _ Hadmin), Hid.
    unfold R.findOne_active_user. cbn [set_codes set_users users].
    now rewrite lookup_insert_eq.
Qed.

Lemma open_socket_keeps_its_role_witness :
  exists u,
    users (snd (oidcSocketHandler.setUserRole alice_socket
                  (mkRoleChange (Some 2) (Some "viewer"))
                  (set_users (insert 2 (with_role "admin" bob)) example_world)))
      !! 2 = Some (with_role "viewer" u) /\
    fst (oidcSocketHandler.setUserRole bob_stale_socket
           (mkRoleChange (Some 2) (Some "admin"))
           (snd (oidcSocketHandler.setUserRole alice_socket
                   (mkRoleChange (Some 2) (Some "viewer"))
                   (set_users (insert 2 (with_role "admin" bob)) example_world))))
      = OkMsg "userRoleUpdated".
Proof.
  destruct (open_socket_keeps_its_role alice_socket bob_stale_socket 2
              (set_users (insert 2 (with_role "admin" bob)) example_world)
              (snd (oidcSocketHandler.setUserRole alice_socket
                      (mkRoleChange (Some 2) (Some "viewer"))
                      (set_users (insert 2 (with_role "admin" bob))
                                 example_world)))
              "userRoleUpdated") as [Hdemoted _].
  - reflexivity.
  - reflexivity.
  - discriminate.
  - destruct Hdemoted as (u & Hu & Hback); [reflexivity|].
    exists u. split; [exact Hu|]. now rewrite Hback.
Defined.

(** ["loginByOidcCode"] answers [{ ok: true, token, role }] exactly when it
    has a callback and the code is a non-empty string, names a row that is
    unused and whose [expires_at] is not before the current time, and the
    owner of the row is active; the token is the owner's, the role in the
    answer is the owner's [role] column, the socket is bound to the owner
    with the role [viewer] if that column is empty, and the row is marked
    used. *)
Theorem loginByOidcCode_succeeds_iff (socket : Socket) (jwtSecret : string)
  (now : Z) (code : jsval) (callback : bool) (w : World) (tok : Token)
  (r : option string) (socket' : Socket) (w' : World) :
  oidcSocketHandler.loginByOidcCode socket jwtSecret now code callback w
    = (Some (OkLogin tok r), socket', w') <->
  callback = true /\
  exists c lc u,
    code = JStr c /\ str_truthy c = true /\
    oidc_login_code w !! c = Some lc /\ used lc = false /\
    (now <= expires_at lc)%Z /\
    users w !! user_id lc = Some u /\ active u = true /\
    tok = createJWT (user_id lc) u jwtSecret /\ r = role u /\
    socket' = mkSocket (Some (user_id lc)) (Some (opt_or (role u) "viewer")) /\
    w' = set_codes (insert c (mark_used lc)) w.
Proof.
  split; [apply exchange_success_inv|].
  intros (-> & c & lc & u & -> & Hc & Hlc & Hused & Hexp & Hu & Hact
          & -> & -> & -> & ->).
  apply exchange_user; try assumption. lia.
Qed.

(** ["loginByOidcCode"] writes nothing but the row of the code it is given:
    the users, the settings, the pending sessions and every other login code
    stay as they are; and it leaves the socket as it is unless it answers
    with a token. *)
Theorem loginByOidcCode_touches_one_row (socket : Socket) (jwtSecret : string)
  (now : Z) (code : jsval) (callback : bool) (w : World) :
  let result :=
    oidcSocketHandler.loginByOidcCode socket jwtSecret now code callback w in
  users (snd result) = users w /\
  settings (snd result) = settings w /\
  authSessions (snd result) = authSessions w /\
  (forall c, code <> JStr c ->
     oidc_login_code (snd result) !! c = oidc_login_code w !! c) /\
  (snd (fst result) = socket \/
   exists tok r, fst (fst result) = Some (OkLogin tok r)).
Proof. apply exchange_frame. Qed.

(** A login code is exchanged at most once: after an exchange that answered
    with a token, and after any further exchanges, every exchange of the
    same code is answered "Invalid or expired login code". *)
Theorem loginByOidcCode_at_most_once (socket : Socket) (jwtSecret : string)
  (now : Z) (c : string) (w : World) (tok : Token) (r : option string)
  (socket' : Socket) (w' : World) :
  oidcSocketHandler.loginByOidcCode socket jwtSecret now (JStr c) true w
    = (Some (OkLogin tok r), socket', w') ->
  forall (xs : list Exchange) (socket2 : Socket) (jwtSecret2 : string)
         (now2 : Z),
    let w2 := exchange_all xs w' in
    oidcSocketHandler.loginByOidcCode socket2 jwtSecret2 now2 (JStr c) true w2
      = (Some (Fail "Invalid or expired login code"), socket2, w2).
Proof.
  intros Hrun xs socket2 jwtSecret2 now2 w2.
  apply exchange_success_inv in Hrun
    as (_ & c0 & lc & u & Hc0 & Hc & Hlc & _ & _ & _ & _ & _ & _ & _ & ->).
  inversion Hc0; subst c0.
  apply exchange_used with (lc := mark_used lc); [assumption| |reflexivity].
  apply exchange_all_keeps_used; [|reflexivity].
  cbn [set_codes oidc_login_code]. apply lookup_insert_eq.
Qed.

Lemma loginByOidcCode_at_most_once_witness :
  let w' := snd (oidcSocketHandler.loginByOidcCode anonymous "secret" 5000
                   (JStr "c-fresh") true code_world) in
  oidcSocketHandler.loginByOidcCode anonymous "secret" 5001 (JStr "c-fresh")
    true w'
  = (Some (Fail "Invalid or expired login code"), anonymous, w').
Proof.
  intros w'.
  apply (loginByOidcCode_at_most_once anonymous "secret" 5000 "c-fresh"
           code_world (createJWT 2 bob "secret") (Some "viewer")
           (mkSocket (Some 2) (Some "viewer")) w' eq_refl [] anonymous
           "secret" 5001).
Defined.

(** ["getUsers"] answers no socket with the list of the users.  A socket
    that is not an admin's is refused; for an admin the query is sent through
    [R.findAll], which puts the condition [1=1] before a clause that is a
    condition itself, so that the database rejects the statement and the
    answer is [{ ok: false }] with the driver's message.  Nothing changes. *)
Theorem getUsers_never_lists (socket : Socket) (w : World) :
  (exists msg, userEvents.getUsers socket w = (UsersFail msg, w)) /\
  (Permissions.checkAdmin socket = Return tt ->
   exists msg, userEvents.findAll_active_users w = (Throw msg, w) /\
               userEvents.getUsers socket w = (UsersFail msg, w)) /\
  (Permissions.checkAdmin socket <> Return tt ->
   userEvents.getUsers socket w = (UsersFail (refusal socket), w)).
Proof.
  unfold userEvents.getUsers, mbind, M_bind, call. split_and!.
  - destruct (checkLogin socket); [|eauto].
    destruct (Permissions.checkAdmin socket); eauto.
  - intros Hadmin. rewrite (checkAdmin_checkLogin _ Hadmin), Hadmin. eauto.
  - intros Hnot.
    destruct (not_admin_cases socket Hnot) as [->|[-> ->]]; reflexivity.
Qed.

Lemma getUsers_never_lists_witness :
  exists msg,
    userEvents.getUsers alice_socket example_world
      = (UsersFail msg, example_world).
Proof.
  destruct (getUsers_never_lists alice_socket example_world)
    as (_ & Hadmin & _).
  destruct (Hadmin eq_refl) as (msg & _ & Hrun). exists msg. exact Hrun.
Defined.

(** A user whose [role] column is empty is a viewer wherever the role is
    checked: [hasPermission] gives them the permissions of a viewer, and
    ["loginByOidcCode"] answers with the empty role and binds their socket
    as a viewer's, which holds the permissions of a viewer and which
    [checkAdmin] refuses. *)
Theorem empty_role_is_a_viewer (k : Z) (u : User) (w : World) :
  users w !! k = Some u -> active u = true -> opt_truthy (role u) = false ->
  (forall permission,
     Permissions.hasPermission (Some u) permission =
       Return (includes Permissions.viewer_permissions permission)) /\
  (forall anyone jwtSecret now c lc,
     str_truthy c = true -> oidc_login_code w !! c = Some lc ->
     used lc = false -> (now <= expires_at lc)%Z -> user_id lc = k ->
     exists tok socket' w',
       oidcSocketHandler.loginByOidcCode anyone jwtSecret now (JStr c) true w
         = (Some (OkLogin tok (role u)), socket', w') /\
       userID socket' = Some k /\ userRole socket' = Some "viewer" /\
       (k <> 0 ->
        forall permission,
          Permissions.socketHasPermission socket' permission =
            Return (includes Permissions.viewer_permissions permission)) /\
       Permissions.checkAdmin socket' <> Return tt).
Proof.
  intros Hk Hact Hrole. split.
  - intros permission. unfold Permissions.hasPermission.
    rewrite opt_or_missing by assumption. apply check_perms_viewer.
  - intros anyone jwtSecret now c lc Hc Hlc Hused Hexp <-.
    eexists _, _, _. split_and!.
    + rewrite (exchange_user anyone jwtSecret now c lc u w) by (auto; lia).
      now rewrite (opt_or_missing _ _ Hrole).
    + reflexivity.
    + reflexivity.
    + intros Hne permission. unfold Permissions.socketHasPermission, no_userID.
      cbn [userID userRole]. apply Z.eqb_neq in Hne. rewrite Hne.
      apply check_perms_viewer.
    + unfold Permissions.checkAdmin, Permissions.socketIsAdmin.
      destruct (no_userID _); [discriminate|]. cbn. discriminate.
Qed.

Lemma empty_role_is_a_viewer_witness :
  Permissions.hasPermission (Some dave) "user:write" = Return false /\
  snd (fst (oidcSocketHandler.loginByOidcCode anonymous "secret" 5000
              (JStr "c-dave") true dave_world))
    = mkSocket (Some 4) (Some "viewer").
Proof.
  destruct (empty_role_is_a_viewer 4 dave dave_world) as (Hperm & Hlogin).
  - reflexivity.
  - reflexivity.
  - reflexivity.
  - split; [apply Hperm|].
    destruct (Hlogin anonymous "secret" 5000 "c-dave" (mkLoginCode 4 9000 false))
      as (tok & socket' & w' & Hrun & Hid & Hrole & _);
      [reflexivity|reflexivity|reflexivity|cbn; lia|reflexivity|].
    rewrite Hrun. cbn [fst snd]. destruct socket'. cbn in Hid, Hrole.
    now subst.
Defined.

(** ["saveOidcSettings"] accepts a payload exactly when the socket is an
    admin's and, if the payload's [enabled] flag is truthy, the tenant id
    and the client id are not empty and a secret is stored already or comes
    with the payload.  A payload that is refused changes nothing. *)
Theorem saveOidcSettings_accepts_iff (socket : Socket) (data : OidcSettings)
  (w : World) :
  (is_ok (fst (oidcSocketHandler.saveOidcSettings socket data w)) = true <->
   Permissions.checkAdmin socket = Return tt /\
   (truthy (oidcEntraEnabled data) = true ->
    truthy (oidcEntraTenantId data) = true /\
    truthy (oidcEntraClientId data) = true /\
    (truthy (stored w "oidcEntraClientSecret") = true \/
     truthy (oidcEntraClientSecret data) = true))) /\
  (is_ok (fst (oidcSocketHandler.saveOidcSettings socket data w)) = false ->
   snd (oidcSocketHandler.saveOidcSettings socket data w) = w).
Proof.
  split.
  - unfold oidcSocketHandler.saveOidcSettings, try_catch, mbind, M_bind, call,
      oidcSocketHandler.saveOidcSettings_validate, mbind, M_bind, stored.
    destruct (checkLogin socket) as [[]|msg] eqn:Hlogin.
    2:{ split; [discriminate|]. intros [Hadmin _].
        rewrite (checkAdmin_checkLogin _ Hadmin) in Hlogin. discriminate. }
    destruct (Permissions.checkAdmin socket) as [[]|msg];
      [|split; [discriminate|intros [? _]; discriminate]].
    destruct (truthy (oidcEntraEnabled data)).
    + unfold throw_if at 1.
      destruct (truthy (oidcEntraTenantId data));
        [|cbn; split; [discriminate|intros [_ H]; destruct (H eq_refl);
                                     discriminate]].
      destruct (truthy (oidcEntraClientId data));
        [|cbn; split; [discriminate|intros [_ H];
                       destruct (H eq_refl) as (_ & ? & _); discriminate]].
      cbn [negb orb mret M_ret]. unfold Settings.get at 1. unfold throw_if at 1.
      destruct (truthy (default JUndef (settings w !! "oidcEntraClientSecret")));
        cbn [negb andb mret M_ret].
      * rewrite saveOidcSettings_store_eq. cbn. split; auto 6.
      * destruct (truthy (oidcEntraClientSecret data)); cbn [negb].
        -- cbn [mret M_ret]. rewrite saveOidcSettings_store_eq. cbn.
           split; auto 6.
        -- cbn. split; [discriminate|].
           intros [_ H]. destruct (H eq_refl) as (_ & _ & [?|?]); discriminate.
    + cbn [mret M_ret]. rewrite saveOidcSettings_store_eq. cbn.
      split; [|reflexivity]. intros _. split; [reflexivity|discriminate].
  - destruct (saveOidcSettings_cases socket data w) as [[msg ->]|[_ ->]];
      [reflexivity|discriminate].
Qed.

(** ** The router *)

Section MoreRouterProps.
Import Router.

Lemma redirects_ret (target : Target) : redirects (mret (Redirect target)).
Proof. intros w r w' H. inversion H. eauto. Qed.

Lemma redirects_throw (msg : string) : redirects (throw msg).
Proof. intros w r w' H. discriminate. Qed.

Lemma redirects_bind {A} (m : M A) (k : A -> M HttpResponse) :
  (forall a, redirects (k a)) -> redirects (mbind k m).
Proof.
  intros Hk w r w'. unfold mbind, M_bind.
  destruct (m w) as [[a|msg] w1]; [apply Hk|discriminate].
Qed.

Ltac redirects_step :=
  first
    [ apply redirects_ret
    | apply redirects_throw
    | apply redirects_bind; intros ?
    | match goal with
      | |- redirects (if ?c then _ else _) => destruct c
      | |- redirects (match ?x with _ => _ end) => destruct x
      end ].

Lemma redirects_authenticate (idp : Provider) (env : Env) (q : Query)
  (st : string) (session : AuthSession) :
  redirects (callback_authenticate idp env q st session).
Proof. unfold callback_authenticate. repeat redirects_step. Qed.

Lemma redirects_callback_body (idp : Provider) (env : Env) (q : Query) :
  redirects (callback_body idp env q).
Proof.
  unfold callback_body, callback_validate, callback_with_session.
  repeat first [apply redirects_authenticate | redirects_step].
Qed.

Lemma callback_reaches_authenticate (idp : Provider) (env : Env) (q : Query)
  (st : string) (session : AuthSession) (w : World) :
  opt_truthy (q_error q) = false ->
  q_state q = Some st -> str_truthy st = true ->
  authSessions w !! st = Some session ->
  ~ (expiresAt session < now env)%Z ->
  callback_body idp env q w =
    callback_authenticate idp env q st session (set_sessions (delete st) w).
Proof.
  intros Hnoerr Hq Hst Hs Hexp.
  rewrite callback_body_no_error by assumption.
  rewrite (callback_validate_found idp env q st session w Hq Hst Hs).
  unfold callback_with_session. apply Z.ltb_nlt in Hexp. now rewrite Hexp.
Qed.

End MoreRouterProps.

(** The callback always answers with a redirect: it never sends JSON and
    no exception leaves it. *)
Theorem callback_always_redirects (idp : Provider) (env : Env) (q : Query)
  (w : World) :
  exists target, fst (Router.callback idp env q w) = Redirect target.
Proof.
  unfold Router.callback.
  pose proof (redirects_callback_body idp env q w) as Hredirects.
  destruct (Router.callback_body idp env q w) as [[r|msg] w'].
  - destruct (Hredirects r w' eq_refl) as [target ->]. eauto.
  - eauto.
Qed.

(** Once the callback has taken the session out of the map, a failure
    before the claims changes nothing else and tells the browser nothing of
    its cause: SSO switched off in the meantime is answered "Entra ID SSO is
    not enabled"; a failed discovery and a code exchange that the provider
    refuses, whatever its message, are answered "Authentication failed.
    Please try again.". *)
Theorem callback_failure_before_claims (idp : Provider) (env : Env)
  (q : Query) (st : string) (session : AuthSession) (w : World) :
  opt_truthy (q_error q) = false ->
  q_state q = Some st -> str_truthy st = true ->
  authSessions w !! st = Some session ->
  ~ (expiresAt session < now env)%Z ->
  let consumed := set_sessions (delete st) w in
  (enabled (read_settings w) = false ->
   Router.callback idp env q w
     = (Redirect (DashboardError MSG_NOT_ENABLED), consumed)) /\
  (enabled (read_settings w) = true ->
   discover idp (Router.issuerUrl_of (read_settings w)) = false ->
   Router.callback idp env q w
     = (Redirect (DashboardError MSG_AUTH_FAILED), consumed)) /\
  (enabled (read_settings w) = true ->
   discover idp (Router.issuerUrl_of (read_settings w)) = true ->
   forall msg,
     exchange idp (Router.token_request (read_settings w) session q st)
       = Throw msg ->
     Router.callback idp env q w
       = (Redirect (DashboardError MSG_AUTH_FAILED), consumed)).
Proof.
  intros Hnoerr Hq Hst Hs Hexp consumed.
  unfold Router.callback.
  rewrite (callback_reaches_authenticate idp env q st session w)
    by assumption.
  unfold Router.callback_authenticate, mbind, M_bind.
  rewrite getOidcSettings_read.
  change (read_settings (set_sessions (delete st) w)) with (read_settings w).
  split_and!.
  - intros ->. reflexivity.
  - intros -> Hdisc. cbn [negb]. unfold Router.Issuer_discover.
    now rewrite Hdisc.
  - intros -> Hdisc msg Hex. cbn [negb]. unfold Router.Issuer_discover.
    rewrite Hdisc. cbn [mret M_ret]. unfold call. now rewrite Hex.
Qed.

Lemma callback_failure_before_claims_witness :
  Router.callback (refusing_idp "AADSTS70008: the code has expired") at_1000
    bob_returns sso_world
  = (Redirect (DashboardError MSG_AUTH_FAILED),
     set_sessions (delete "s1") sso_world).
Proof.
  destruct (callback_failure_before_claims
              (refusing_idp "AADSTS70008: the code has expired") at_1000
              bob_returns "s1" pending_s1 sso_world) as (_ & _ & H);
    [reflexivity|reflexivity|reflexivity|reflexivity|cbn; lia|].
  apply (H eq_refl eq_refl "AADSTS70008: the code has expired"). reflexivity.
Defined.

Section UserResolution.
Import Router.

Lemma callback_after_claims (idp : Provider) (env : Env) (q : Query)
  (st : string) (session : AuthSession) (claims : Claims) (w : World) :
  gets_claims idp env q st session claims w -> group_allowed claims w ->
  callback idp env q w =
    or_auth_failed (resolve_user (read_settings w) env claims
                      (set_sessions (delete st) w)).
Proof.
  intros (Hnoerr & Hq & Hst & Hs & Hexp & Hen & Hdisc & Hex) Hallowed.
  unfold callback.
  rewrite (callback_reaches_authenticate idp env q st session w)
    by assumption.
  unfold callback_authenticate, mbind at 1, M_bind at 1.
  rewrite getOidcSettings_read.
  change (read_settings (set_sessions (delete st) w)) with (read_settings w).
  rewrite Hen. cbn [negb]. unfold mbind at 1, M_bind at 1, Issuer_discover.
  rewrite Hdisc. cbn [mret M_ret]. unfold mbind at 1, M_bind at 1, call at 1.
  rewrite Hex. unfold mbind at 1, M_bind at 1, call at 1.
  unfold group_allowed in Hallowed. rewrite Hallowed. cbn [negb].
  reflexivity.
Qed.

Lemma filter_head_None {A} (P : A -> bool) (l : list A) :
  head (List.filter P l) = None <-> forall x, In x l -> P x = false.
Proof.
  rewrite head_None. split.
  - intros Hnil x Hx. destruct (P x) eqn:HP; [|reflexivity].
    assert (In x (List.filter P l)) as Hin by (apply filter_In; auto).
    rewrite Hnil in Hin. destruct Hin.
  - intros Hall. destruct (List.filter P l) as [|x l'] eqn:Hf; [reflexivity|].
    assert (In x (List.filter P l)) as Hin by (rewrite Hf; now left).
    apply filter_In in Hin as [Hx HP]. rewrite (Hall x Hx) in HP. discriminate.
Qed.

Lemma filter_head_Some {A} (P : A -> bool) (l : list A) (x : A) :
  head (List.filter P l) = Some x -> In x l /\ P x = true.
Proof.
  intros Hhead. apply head_Some in Hhead as [l' Hf].
  apply filter_In. rewrite Hf. now left.
Qed.


Lemma In_map_to_list (m : gmap Z User) (k : Z) (u : User) :
  In (k, u) (map_to_list m) <-> m !! k = Some u.
Proof. rewrite <- list_elem_of_In. apply elem_of_map_to_list. Qed.

Lemma findOne_by_entra_oid_None (oid : string) (w : World) :
  (forall k u, users w !! k = Some u -> active u = true ->
               entra_oid u <> Some oid) ->
  findOne_by_entra_oid oid w = (Return None, w).
Proof.
  intros Hnone. unfold findOne_by_entra_oid. do 2 f_equal.
  apply filter_head_None. intros [k u] Hin%In_map_to_list. cbn [snd].
  destruct (active u) eqn:Hact; [|apply andb_false_r].
  rewrite bool_decide_eq_false_2; [reflexivity|]. eauto.
Qed.

Lemma findOne_by_entra_oid_Some (oid : string) (w : World) (k : Z) (u : User) :
  fst (findOne_by_entra_oid oid w) = Return (Some (k, u)) ->
  users w !! k = Some u /\ entra_oid u = Some oid /\ active u = true.
Proof.
  unfold findOne_by_entra_oid. cbn [fst]. intros H.
  assert (Hhead : head (List.filter
                          (fun kv : Z * User =>
                             bool_decide (entra_oid (snd kv) = Some oid)
                             && active (snd kv))
                          (map_to_list (users w))) = Some (k, u))
    by congruence.
  apply filter_head_Some in Hhead as [Hin HP]. cbn [snd] in HP.
  apply andb_true_iff in HP as [Hoid Hact].
  apply bool_decide_eq_true in Hoid. apply In_map_to_list in Hin. auto.
Qed.


Lemma findOne_by_username_taken (name : string) (w : World) :
  findOne_by_username name w =
    (Return (head (List.filter
                     (fun kv => String.eqb (username (snd kv)) name)
                     (map_to_list (users w)))), w) /\
  (is_Some (head (List.filter
                    (fun kv : Z * User => String.eqb (username (snd kv)) name)
                    (map_to_list (users w))))
   <-> username_taken name w = true).
Proof.
  split; [reflexivity|]. unfold username_taken. rewrite existsb_exists.
  split.
  - intros [x Hx]. apply filter_head_Some in Hx. eauto.
  - intros (x & Hin & HP).
    destruct (head _) as [y|] eqn:Hhead; [eauto|].
    rewrite filter_head_None in Hhead. rewrite (Hhead x Hin) in HP.
    discriminate.
Qed.



End UserResolution.

Section ResolutionRuns.
Import Router.



Lemma insert_user_taken (u u' : User) (k : Z) (w : World) :
  users w !! k = Some u' -> entra_oid u' = entra_oid u ->
  is_Some (entra_oid u) ->
  insert_user u w = (Throw "UNIQUE constraint failed: user.entra_oid", w).
Proof.
  intros Hk Heq Hsome. unfold insert_user.
  replace (existsb _ _) with true; [reflexivity|].
  symmetry. apply existsb_exists. exists (k, u'). split.
  - now apply In_map_to_list.
  - cbn [snd]. now rewrite !bool_decide_eq_true_2.
Qed.


End ResolutionRuns.

(** A callback that brings the claims of an external id that no active user
    has, while [autoCreateUsers] is false, is answered "Your account has not
    been provisioned."; besides the session that is gone, nothing changes:
    no user is created and no login code is issued. *)
Theorem callback_unknown_user_not_provisioned (idp : Provider) (env : Env)
  (q : Query) (st : string) (session : AuthSession) (claims : Claims)
  (w : World) :
  gets_claims idp env q st session claims w -> group_allowed claims w ->
  autoCreateUsers (read_settings w) = false ->
  (forall k u, users w !! k = Some u -> active u = true ->
               entra_oid u <> Some (userInfo_oid claims)) ->
  Router.callback idp env q w =
    (Redirect (DashboardError MSG_NOT_PROVISIONED), set_sessions (delete st) w).
Proof.
  intros Hclaims Hallowed Hauto Hnone.
  rewrite (callback_after_claims idp env q st session claims w)
    by assumption.
  unfold resolve_user, mbind, M_bind.
  rewrite findOne_by_entra_oid_None by exact Hnone.
  now rewrite Hauto.
Qed.

Lemma callback_unknown_user_not_provisioned_witness :
  Router.callback example_idp at_1000 eve_returns closed_world =
    (Redirect (DashboardError MSG_NOT_PROVISIONED),
     set_sessions (delete "s1") closed_world).
Proof.
  apply (callback_unknown_user_not_provisioned example_idp at_1000 eve_returns
           "s1" pending_s1 eve_claims closed_world).
  - repeat split. cbn. lia.
  - reflexivity.
  - reflexivity.
  - intros k u Hk _.
    assert (Hcases : u = alice \/ u = bob).
    { change (users closed_world) with
        (<[1 := alice]> (<[2 := bob]> (∅ : gmap Z User))) in Hk.
      destruct (decide (k = 1)) as [->|H1];
        [rewrite lookup_insert_eq in Hk; left; congruence|].
      rewrite lookup_insert_ne in Hk by auto.
      destruct (decide (k = 2)) as [->|H2];
        [rewrite lookup_insert_eq in Hk; right; congruence|].
      rewrite lookup_insert_ne, lookup_empty in Hk by auto. discriminate. }
    destruct Hcases as [->| ->]; discriminate.
Defined.





(** A user that was deleted does not come back through SSO.  When the only
    rows with the claimed external id are inactive, the callback issues no
    login code and writes no row: it answers "Your account has not been
    provisioned." when [autoCreateUsers] is off and "Authentication failed.
    Please try again." when it is on, because the new row would repeat the
    [entra_oid] of the deleted one, which is unique. *)
Theorem callback_deleted_user_stays_out (idp : Provider) (env : Env)
  (q : Query) (st : string) (session : AuthSession) (claims : Claims)
  (k : Z) (u : User) (w : World) :
  gets_claims idp env q st session claims w -> group_allowed claims w ->
  users w !! k = Some u -> entra_oid u = Some (userInfo_oid claims) ->
  (forall k' u', users w !! k' = Some u' -> active u' = true ->
                 entra_oid u' <> Some (userInfo_oid claims)) ->
  Router.callback idp env q w =
    (Redirect (DashboardError
                 (if autoCreateUsers (read_settings w)
                  then MSG_AUTH_FAILED else MSG_NOT_PROVISIONED)),
     set_sessions (delete st) w).
Proof.
  intros Hclaims Hallowed Hk Hoid Hnone.
  rewrite (callback_after_claims idp env q st session claims w)
    by assumption.
  unfold resolve_user, mbind, M_bind.
  rewrite findOne_by_entra_oid_None by exact Hnone.
  destruct (autoCreateUsers (read_settings w)); cbn [negb]; [|reflexivity].
  destruct (userInfo_email claims) as [e|]; [|reflexivity].
  destruct (findOne_by_username_taken (hd EmptyString (split "@" e))
              (set_sessions (delete st) w)) as [-> _].
  rewrite (insert_user_taken _ u k); [reflexivity|exact Hk|exact Hoid|].
  cbn. eauto.
Qed.

Lemma callback_deleted_user_stays_out_witness :
  Router.callback (idp_of carol_claims) at_1000
    (mkQuery (Some "code-carol") (Some "s1") None None) carol_world
  = (Redirect (DashboardError MSG_AUTH_FAILED),
     set_sessions (delete "s1") carol_world).
Proof.
  apply (callback_deleted_user_stays_out (idp_of carol_claims) at_1000
           (mkQuery (Some "code-carol") (Some "s1") None None) "s1" pending_s1
           carol_claims 3 carol carol_world).
  - repeat split. cbn. lia.
  - reflexivity.
  - reflexivity.
  - reflexivity.
  - intros k' u' Hk' Hact.
    change (users carol_world) with
      (<[1 := alice]> (<[2 := bob]> (<[3 := carol]> (∅ : gmap Z User))))
      in Hk'.
    destruct (decide (k' = 1)) as [->|H1].
    { rewrite lookup_insert_eq in Hk'. inversion Hk'; subst u'. discriminate. }
    rewrite lookup_insert_ne in Hk' by auto.
    destruct (decide (k' = 2)) as [->|H2].
    { rewrite lookup_insert_eq in Hk'. inversion Hk'; subst u'. discriminate. }
    rewrite lookup_insert_ne in Hk' by auto.
    destruct (decide (k' = 3)) as [->|H3].
    { rewrite lookup_insert_eq in Hk'. inversion Hk'; subst u'. discriminate. }
    rewrite lookup_insert_ne, lookup_empty in Hk' by auto. discriminate.
Defined.

Section CodesOfTheCallback.
Import Router.

Lemma keeps_codes_ret {A} (a : A) : keeps_codes (mret a).
Proof. intros w. reflexivity. Qed.

Lemma keeps_codes_throw {A} (msg : string) : keeps_codes (@throw A msg).
Proof. intros w. reflexivity. Qed.

Lemma keeps_codes_call {A} (o : outcome A) : keeps_codes (call o).
Proof. intros w. reflexivity. Qed.

Lemma keeps_codes_bind {A B} (m : M A) (k : A -> M B) :
  keeps_codes m -> (forall a, keeps_codes (k a)) -> keeps_codes (mbind k m).
Proof.
  intros Hm Hk w. unfold mbind, M_bind. specialize (Hm w).
  destruct (m w) as [[a|msg] w']; cbn [snd] in *; [|assumption].
  now rewrite Hk.
Qed.

Lemma keeps_codes_insert_user (u : User) : keeps_codes (insert_user u).
Proof.
  intros w. unfold insert_user. destruct (existsb _ _); [reflexivity|].
  now destruct (existsb _ _).
Qed.

Lemma keeps_codes_discover (idp : Provider) (url : string) :
  keeps_codes (Issuer_discover idp url).
Proof. intros w. unfold Issuer_discover. now destruct (discover idp url). Qed.

Lemma unless_issued_ret (r : HttpResponse) :
  keeps_codes_unless_issued (mret r).
Proof. intros w. now right. Qed.

Lemma unless_issued_throw (msg : string) :
  keeps_codes_unless_issued (throw msg).
Proof. intros w. now right. Qed.

Lemma unless_issued_bind {A} (m : M A) (k : A -> M HttpResponse) :
  keeps_codes m -> (forall a, keeps_codes_unless_issued (k a)) ->
  keeps_codes_unless_issued (mbind k m).
Proof.
  intros Hm Hk w. unfold mbind, M_bind. specialize (Hm w).
  destruct (m w) as [[a|msg] w']; cbn [snd] in *; [|now right].
  destruct (Hk a w') as [Hcode|Hsame]; [now left|right; congruence].
Qed.

Lemma unless_issued_insert_code (c : string) (lc : LoginCode) :
  keeps_codes_unless_issued
    (_ ← R.insert_code c lc; mret (Redirect (DashboardCode c))).
Proof.
  intros w. unfold mbind, M_bind, R.insert_code.
  destruct (oidc_login_code w !! c); [now right|left; eauto].
Qed.

Ltac keeps_codes_step :=
  first
    [ apply unless_issued_insert_code
    | apply unless_issued_ret
    | apply unless_issued_throw
    | apply keeps_codes_ret
    | apply keeps_codes_throw
    | apply keeps_codes_call
    | apply keeps_codes_insert_user
    | apply keeps_codes_discover
    | apply unless_issued_bind; [|intros ?]
    | apply keeps_codes_bind; [|intros ?]
    | match goal with
      | |- keeps_codes_unless_issued (if ?c then _ else _) => destruct c
      | |- keeps_codes_unless_issued (match ?x with _ => _ end) => destruct x
      | |- keeps_codes (if ?c then _ else _) => destruct c
      | |- keeps_codes (match ?x with _ => _ end) => destruct x
      | |- keeps_codes _ => intros ?; reflexivity
      end ].

Lemma unless_issued_callback_body (idp : Provider) (env : Env) (q : Query) :
  keeps_codes_unless_issued (callback_body idp env q).
Proof.
  unfold callback_body, callback_validate, callback_with_session,
    callback_authenticate.
  repeat keeps_codes_step.
Qed.

End CodesOfTheCallback.

(** The callback writes to the table of login codes only when it hands a
    login code to the browser: whenever its answer is anything else, the
    table is as it was. *)
Theorem callback_issues_code_or_keeps_codes (idp : Provider) (env : Env)
  (q : Query) (w : World) :
  (exists c, fst (Router.callback idp env q w) = Redirect (DashboardCode c)) \/
  oidc_login_code (snd (Router.callback idp env q w)) = oidc_login_code w.
Proof.
  unfold Router.callback.
  destruct (unless_issued_callback_body idp env q w) as [[c Hc]|Hsame].
  - left. exists c.
    destruct (Router.callback_body idp env q w) as [[r|msg] w'];
      cbn [fst] in *; congruence.
  - right.
    destruct (Router.callback_body idp env q w) as [[r|msg] w'];
      cbn [snd] in *; assumption.
Qed.

Section CodeOfTheCallback.
Import Router.

Lemma resolve_user_code_inv (settings : RouterSettings) (env : Env)
  (claims : Claims) (w w' : World) (c : string) :
  resolve_user settings env claims w
    = (Return (Redirect (DashboardCode c)), w') ->
  c = randomBytes32 env /\
  exists i u,
    users w' !! i = Some u /\ active u = true /\
    entra_oid u = Some (userInfo_oid claims) /\
    oidc_login_code w' !! c = Some (issued_code env i).
Proof.
  unfold resolve_user, mbind, M_bind.
  destruct (findOne_by_entra_oid (userInfo_oid claims) w)
    as [[[[i u]|]|msg] w1] eqn:Hfind.
  - assert (Hw1 : w1 = w) by (unfold findOne_by_entra_oid in Hfind; congruence).
    subst w1.
    assert (Hfound : fst (findOne_by_entra_oid (userInfo_oid claims) w)
                     = Return (Some (i, u))) by now rewrite Hfind.
    apply findOne_by_entra_oid_Some in Hfound as (Hi & Hoid & Hact).
    unfold R.store_user, R.insert_code. cbn [mret M_ret set_users oidc_login_code].
    destruct (oidc_login_code w !! randomBytes32 env); [discriminate|].
    intros H. inversion H; subst c w'. split; [reflexivity|].
    exists i, (touch (userInfo_email claims) (claim_name claims) (later env) u).
    cbn [set_codes set_users users oidc_login_code touch active entra_oid].
    rewrite !lookup_insert_eq. auto.
  - assert (Hw1 : w1 = w) by (unfold findOne_by_entra_oid in Hfind; congruence).
    subst w1.
    destruct (autoCreateUsers settings); cbn [negb]; [|discriminate].
    destruct (userInfo_email claims) as [e|]; [|discriminate].
    unfold findOne_by_username at 1.
    set (uname := match head _ with Some _ => _ | None => _ end).
    unfold insert_user. destruct (existsb _ _); [discriminate|].
    destruct (existsb _ _); [discriminate|].
    unfold R.insert_code. cbn [mret M_ret set_users oidc_login_code].
    destruct (oidc_login_code w !! randomBytes32 env); [discriminate|].
    intros H. inversion H; subst c w'. split; [reflexivity|].
    exists (next_id (users w)), (new_user settings env claims uname e).
    cbn [set_codes set_users users oidc_login_code new_user active entra_oid].
    rewrite !lookup_insert_eq. auto.
  - discriminate.
Qed.

Lemma callback_code_inv (idp : Provider) (env : Env) (q : Query)
  (w w' : World) (c : string) :
  callback idp env q w = (Redirect (DashboardCode c), w') ->
  exists st session claims,
    gets_claims idp env q st session claims w /\ group_allowed claims w.
Proof.
  intros Hrun.
  destruct (opt_truthy (q_error q)) eqn:Hnoerr.
  { unfold opt_truthy in Hnoerr.
    destruct (q_error q) as [err|] eqn:Herr; [|discriminate].
    rewrite (callback_provider_error idp env q err w Herr Hnoerr) in Hrun.
    discriminate. }
  destruct (q_state q) as [st|] eqn:Hq.
  2:{ unfold callback in Hrun.
      rewrite callback_body_no_error, callback_validate_missing in Hrun
        by (assumption || congruence).
      discriminate. }
  destruct (authSessions w !! st) as [session|] eqn:Hs.
  2:{ rewrite (callback_unknown_state idp env q st w) in Hrun
        by assumption. discriminate. }
  destruct (str_truthy st) eqn:Hst.
  2:{ unfold callback in Hrun.
      rewrite callback_body_no_error, callback_validate_missing in Hrun;
        [discriminate| |assumption].
      intros st' Hq' Hst'. congruence. }
  destruct (expiresAt session <? now env)%Z eqn:Hexp.
  { unfold callback in Hrun.
    rewrite callback_body_no_error in Hrun by assumption.
    rewrite (callback_validate_found idp env q st session w Hq Hst Hs) in Hrun.
    unfold callback_with_session in Hrun. rewrite Hexp in Hrun. discriminate. }
  apply Z.ltb_nlt in Hexp.
  unfold callback in Hrun.
  rewrite (callback_reaches_authenticate idp env q st session w) in Hrun
    by assumption.
  unfold callback_authenticate, mbind at 1, M_bind at 1 in Hrun.
  rewrite getOidcSettings_read in Hrun.
  change (read_settings (set_sessions (delete st) w))
    with (read_settings w) in Hrun.
  destruct (enabled (read_settings w)) eqn:Hen; cbn [negb] in Hrun;
    [|discriminate].
  unfold mbind at 1, M_bind at 1, Issuer_discover in Hrun.
  destruct (discover idp (issuerUrl_of (read_settings w))) eqn:Hdisc;
    [|discriminate].
  cbn [mret M_ret] in Hrun. unfold mbind at 1, M_bind at 1, call at 1 in Hrun.
  destruct (exchange idp (token_request (read_settings w) session q st))
    as [claims|msg] eqn:Hex; [|discriminate].
  unfold mbind at 1, M_bind at 1, call at 1 in Hrun.
  destruct (hasAllowedGroup (allowedGroups (read_settings w))
              (default [] (claim_groups claims))) as [[]|msg] eqn:Hallowed;
    cbn [negb] in Hrun; try discriminate.
  exists st, session, claims. unfold gets_claims, group_allowed. auto 12.
Qed.

End CodeOfTheCallback.

(** The login code that the callback hands to the browser logs in the user
    that the provider named.  When the callback answers with the code [c],
    the provider has answered the exchange of this callback's code, for the
    session of its state, with claims; some active user holds the external
    id of those claims, their [oid] or else their [sub], and [c] is stored
    for that user, unused; until five minutes after the callback read the
    clock, ["loginByOidcCode"] with [c] answers with that user's token and
    role and binds the socket to them. *)
Theorem callback_code_logs_the_user_in (idp : Provider) (env : Env)
  (q : Query) (w w' : World) (c : string) :
  Router.callback idp env q w = (Redirect (DashboardCode c), w') ->
  str_truthy c = true ->
  exists st session claims i u,
    gets_claims idp env q st session claims w /\
    users w' !! i = Some u /\ active u = true /\
    entra_oid u = Some (userInfo_oid claims) /\
    oidc_login_code w' !! c
      = Some (mkLoginCode i (later env + 5 * 60 * 1000) false) /\
    forall socket jwtSecret now,
      (now <= later env + 5 * 60 * 1000)%Z ->
      oidcSocketHandler.loginByOidcCode socket jwtSecret now (JStr c) true w'
      = (Some (OkLogin (createJWT i u jwtSecret) (role u)),
         mkSocket (Some i) (Some (opt_or (role u) "viewer")),
         set_codes (insert c (mkLoginCode i (later env + 5 * 60 * 1000) true))
                   w').
Proof.
  intros Hrun Hc.
  destruct (callback_code_inv idp env q w w' c Hrun)
    as (st & session & claims & Hclaims & Hallowed).
  rewrite (callback_after_claims idp env q st session claims w) in Hrun
    by assumption.
  unfold or_auth_failed in Hrun.
  destruct (resolve_user (read_settings w) env claims
              (set_sessions (delete st) w)) as [[r|msg] w1] eqn:Hresolve;
    [|discriminate].
  inversion Hrun; subst r w1.
  apply resolve_user_code_inv in Hresolve
    as (_ & i & u & Hi & Hact & Hoid & Hcode).
  exists st, session, claims, i, u. split_and!; try assumption.
  intros socket jwtSecret now Hnow.
  apply (exchange_user socket jwtSecret now c (issued_code env i) u w');
    try assumption; try reflexivity.
  cbn [issued_code expires_at]. lia.
Qed.

Lemma callback_code_logs_the_user_in_witness :
  let w' := snd (Router.callback example_idp at_1000 bob_returns sso_world) in
  fst (fst (oidcSocketHandler.loginByOidcCode anonymous "secret" 2000
              (JStr "f00d") true w'))
  = Some (OkLogin (createJWT 2 (touch (Some "bob@example.org") (Some "Bob")
                                      1200 bob) "secret")
                  (Some "viewer")).
Proof.
  intros w'.
  destruct (callback_code_logs_the_user_in example_idp at_1000 bob_returns
              sso_world w' "f00d")
    as (st & session & claims & i & u & _ & Hi & _ & _ & Hcode & Hlogin).
  - reflexivity.
  - reflexivity.
  - assert (Hi2 : i = 2).
    { assert (H : oidc_login_code w' !! "f00d"
                  = Some (mkLoginCode 2 301200 false)) by reflexivity.
      rewrite Hcode in H. now inversion H. }
    subst i.
    assert (Hu : u = touch (Some "bob@example.org") (Some "Bob") 1200 bob).
    { assert (H : users w' !! 2
                  = Some (touch (Some "bob@example.org") (Some "Bob") 1200 bob))
        by reflexivity.
      rewrite Hi in H. now inversion H. }
    subst u.
    rewrite (Hlogin anonymous "secret" 2000); [reflexivity|cbn; lia].
Defined.

Section LoginLeg.
Import Router.

Lemma login_cases (idp : Provider) (gen : Generated) (t : Z) (req : Request)
  (w : World) :
  (exists status msg, login idp gen t req w = (JsonError status msg, w)) \/
  (exists msg, login idp gen t req w = (Redirect (DashboardError msg), w)) \/
  (exists url,
     login idp gen t req w =
       (Redirect (ToProvider url),
        set_sessions (insert (au_state url) (session_of_url url t)) w) /\
     au_state url = gen_state gen /\ au_nonce url = gen_nonce gen /\
     au_code_challenge_of url = gen_codeVerifier gen /\
     au_redirect_uri url = getRedirectUri req /\
     au_issuerUrl url = issuerUrl_of (read_settings w) /\
     au_client_id url = clientId (read_settings w) /\
     enabled (read_settings w) = true).
Proof.
  unfold login, mbind, M_bind. rewrite getOidcSettings_read.
  destruct (enabled (read_settings w)) eqn:Hen; cbn [negb]; [|left; eauto].
  destruct (negb (truthy (tenantId (read_settings w)))
            || negb (truthy (clientId (read_settings w)))
            || negb (truthy (clientSecret (read_settings w))));
    [left; eauto|].
  unfold Issuer_discover.
  destruct (discover idp (issuerUrl_of (read_settings w)));
    [|right; left; eauto].
  right. right.
  exists {| au_issuerUrl := issuerUrl_of (read_settings w);
            au_client_id := clientId (read_settings w);
            au_redirect_uri := getRedirectUri req;
            au_scope := "openid profile email";
            au_state := gen_state gen;
            au_nonce := gen_nonce gen;
            au_code_challenge_of := gen_codeVerifier gen;
            au_code_challenge_method := "S256";
            au_response_mode := "query" |}.
  split_and!; reflexivity.
Qed.

End LoginLeg.

(** The login leg changes the state only when it redirects to the
    provider, and then only by the one pending session it registers; the
    session and the authorization URL agree on the state, the nonce, the
    verifier behind the challenge and the redirect URI, and the session
    expires ten minutes after the clock was read. *)
Theorem login_registers_what_it_sends (idp : Provider) (gen : Generated)
  (t : Z) (req : Request) (w : World) :
  let result := Router.login idp gen t req w in
  match fst result with
  | Redirect (ToProvider url) =>
      snd result
        = set_sessions (insert (au_state url) (session_of_url url t)) w /\
      au_redirect_uri url = Router.getRedirectUri req /\
      au_state url = gen_state gen
  | _ => snd result = w
  end.
Proof.
  cbv zeta.
  destruct (login_cases idp gen t req w)
    as [(status & msg & ->)|[(msg & ->)|(url & -> & Hst & _ & _ & Huri & _)]];
    cbn [fst snd]; auto.
Qed.

(** The callback that follows a login gets the session of that login: for
    the state of the authorization URL it goes on to exchange the code with
    the redirect URI, the verifier and the nonce of the login, provided the
    clock at the callback is not past the ten minutes; past them it answers
    "Authentication session expired".  Either way the session map is
    afterwards what it was before the login, without that state. *)
Theorem login_then_callback (idp idp' : Provider) (gen : Generated) (t : Z)
  (req : Request) (w w1 : World) (url : AuthorizationUrl) (env : Env)
  (q : Query) :
  Router.login idp gen t req w = (Redirect (ToProvider url), w1) ->
  q_state q = Some (au_state url) -> str_truthy (au_state url) = true ->
  opt_truthy (q_error q) = false ->
  let st := au_state url in
  let consumed := set_sessions (delete st) w in
  ((now env <= t + 10 * 60 * 1000)%Z ->
   Router.callback_body idp' env q w1 =
     Router.callback_authenticate idp' env q st (session_of_url url t)
       consumed /\
   Router.token_request (read_settings consumed) (session_of_url url t) q st
     = {| tr_issuerUrl := Router.issuerUrl_of (read_settings w);
          tr_client_id := clientId (read_settings w);
          tr_client_secret := clientSecret (read_settings w);
          tr_redirect_uri := Router.getRedirectUri req;
          tr_code := q_code q;
          tr_state := gen_state gen;
          tr_code_verifier := gen_codeVerifier gen;
          tr_nonce := gen_nonce gen |}) /\
  ((t + 10 * 60 * 1000 < now env)%Z ->
   Router.callback idp' env q w1
     = (Redirect (DashboardError MSG_SESSION_EXPIRED), consumed)) /\
  authSessions (snd (Router.callback idp' env q w1))
    = delete st (authSessions w).
Proof.
  intros Hlogin Hq Hst Hnoerr. cbv zeta.
  destruct (login_cases idp gen t req w)
    as [(status & msg & Hl)|[(msg & Hl)|(url' & Hl & Hs & Hn & Hv & Hu & _)]];
    try (rewrite Hl in Hlogin; discriminate).
  rewrite Hl in Hlogin. inversion Hlogin; subst url' w1. clear Hlogin.
  set (st := au_state url) in *.
  set (consumed := set_sessions (delete st) w).
  assert (Hfound : authSessions
                     (set_sessions (insert st (session_of_url url t)) w) !! st
                   = Some (session_of_url url t)) by apply lookup_insert_eq.
  assert (Hconsumed :
            set_sessions (delete st)
              (set_sessions (insert st (session_of_url url t)) w) = consumed).
  { subst consumed. unfold set_sessions.
    cbn [users oidc_login_code settings authSessions].
    now rewrite delete_insert_eq. }
  split_and!.
  - intros Hnow. split.
    + rewrite (callback_reaches_authenticate idp' env q st
                 (session_of_url url t) _ Hnoerr Hq Hst Hfound).
      * now rewrite Hconsumed.
      * cbn [session_of_url expiresAt]. lia.
    + unfold Router.token_request. cbn [session_of_url redirectUri
        codeVerifier nonce]. subst st. now rewrite Hs, Hn, Hv, Hu.
  - intros Hlate. unfold Router.callback.
    rewrite callback_body_no_error by assumption.
    rewrite (callback_validate_found idp' env q st (session_of_url url t)
               _ Hq Hst Hfound).
    unfold Router.callback_with_session. cbn [session_of_url expiresAt].
    apply Z.ltb_lt in Hlate. now rewrite Hlate, Hconsumed.
  - unfold Router.callback.
    rewrite callback_body_no_error by assumption.
    rewrite (callback_validate_found idp' env q st (session_of_url url t)
               _ Hq Hst Hfound).
    rewrite Hconsumed.
    pose proof (keeps_sessions_with_session idp' env q st
                  (session_of_url url t) consumed) as Hkeep.
    destruct (Router.callback_with_session idp' env q st
                (session_of_url url t) consumed) as [[r|msg] w'];
      cbn [snd] in *; exact Hkeep.
Qed.

Lemma login_then_callback_witness :
  let w1 := snd (Router.login example_idp example_generated 1000
                   example_request open_world) in
  Router.callback example_idp (mkEnv 700000 700100 "a1b2c3d4" "f00d")
    (mkQuery (Some "code-bob") (Some "state-9") None None) w1
  = (Redirect (DashboardError MSG_SESSION_EXPIRED),
     set_sessions (delete "state-9") open_world).
Proof.
  intros w1.
  destruct (login_then_callback example_idp example_idp example_generated 1000
              example_request open_world w1
              {| au_issuerUrl := "https://login.microsoftonline.com/t1/v2.0";
                 au_client_id := JStr "c1";
                 au_redirect_uri :=
                   "https://kuma.example.org/auth/oidc/entra/callback";
                 au_scope := "openid profile email";
                 au_state := "state-9";
                 au_nonce := "nonce-9";
                 au_code_challenge_of := "verifier-9";
                 au_code_challenge_method := "S256";
                 au_response_mode := "query" |}
              (mkEnv 700000 700100 "a1b2c3d4" "f00d")
              (mkQuery (Some "code-bob") (Some "state-9") None None))
    as (_ & Hlate & _);
    [reflexivity|reflexivity|reflexivity|reflexivity|].
  apply Hlate. cbn. lia.
Defined.

Section SweepRuns.
Import Router.

Lemma ignores_sessions_ret {A} (a : A) : ignores_sessions (mret a).
Proof. intros f w. reflexivity. Qed.

Lemma ignores_sessions_throw {A} (msg : string) :
  ignores_sessions (@throw A msg).
Proof. intros f w. reflexivity. Qed.

Lemma ignores_sessions_call {A} (o : outcome A) : ignores_sessions (call o).
Proof. intros f w. reflexivity. Qed.

Lemma ignores_sessions_bind {A B} (m : M A) (k : A -> M B) :
  ignores_sessions m -> (forall a, ignores_sessions (k a)) ->
  ignores_sessions (mbind k m).
Proof.
  intros Hm Hk f w. unfold mbind, M_bind. rewrite (Hm f w).
  destruct (m w) as [[a|msg] w']; cbn [fst snd]; [apply Hk|reflexivity].
Qed.

Lemma ignores_sessions_discover (idp : Provider) (url : string) :
  ignores_sessions (Issuer_discover idp url).
Proof.
  intros f w. unfold Issuer_discover. now destruct (discover idp url).
Qed.

Lemma ignores_sessions_insert_user (u : User) :
  ignores_sessions (insert_user u).
Proof.
  intros f w. unfold insert_user. cbn [set_sessions users].
  destruct (existsb _ _); [reflexivity|].
  now destruct (existsb _ _).
Qed.

Lemma ignores_sessions_insert_code (c : string) (lc : LoginCode) :
  ignores_sessions (R.insert_code c lc).
Proof.
  intros f w. unfold R.insert_code. cbn [set_sessions oidc_login_code].
  now destruct (oidc_login_code w !! c).
Qed.

Ltac ignores_sessions_step :=
  first
    [ apply ignores_sessions_ret
    | apply ignores_sessions_throw
    | apply ignores_sessions_call
    | apply ignores_sessions_discover
    | apply ignores_sessions_insert_user
    | apply ignores_sessions_insert_code
    | apply ignores_sessions_bind; [|intros ?]
    | match goal with
      | |- ignores_sessions (if ?c then _ else _) => destruct c
      | |- ignores_sessions (match ?x with _ => _ end) => destruct x
      | |- ignores_sessions _ => intros ? ?; reflexivity
      end ].

Lemma ignores_sessions_with_session (idp : Provider) (env : Env) (q : Query)
  (st : string) (session : AuthSession) :
  ignores_sessions (callback_with_session idp env q st session).
Proof.
  unfold callback_with_session, callback_authenticate.
  repeat ignores_sessions_step.
Qed.

Lemma sweep_absent (t : Z) (st : string) (w : World) :
  authSessions w !! st = None -> authSessions (sweep t w) !! st = None.
Proof.
  intros Habsent. unfold sweep. cbn [set_sessions authSessions].
  apply map_lookup_filter_None. now left.
Qed.

Lemma sweep_consumed (t : Z) (st : string) (w : World) :
  set_sessions (delete st) (sweep t w) = sweep t (set_sessions (delete st) w).
Proof.
  unfold sweep, set_sessions. cbn [users oidc_login_code settings authSessions].
  now rewrite map_filter_delete.
Qed.

End SweepRuns.

(** Sweeping twice is sweeping once at the later time; in particular the
    sweep is idempotent, and it touches nothing but the session map. *)
Theorem sweep_twice (t t' : Z) (w : World) :
  Router.sweep t (Router.sweep t' w) = Router.sweep (Z.max t t') w /\
  users (Router.sweep t w) = users w /\
  oidc_login_code (Router.sweep t w) = oidc_login_code w /\
  settings (Router.sweep t w) = settings w.
Proof.
  split; [|repeat split].
  unfold Router.sweep, set_sessions.
  cbn [users oidc_login_code settings authSessions]. f_equal.
  rewrite map_filter_filter. apply map_filter_ext.
  intros st session _. cbn [snd]. lia.
Qed.

(** The sweep is seen by a callback only through the words of the refusal.
    A callback whose session the sweep leaves in the map (and a callback
    that has no session) gets the same answer after the sweep as before it,
    and the states after differ by the sweep only.  A callback whose session
    is expired is refused either way: "Authentication session expired" when
    the sweep has not run, "Invalid or expired authentication session"
    when it has. *)
Theorem sweep_is_seen_only_in_the_message (idp : Provider) (env : Env)
  (q : Query) (t : Z) (w : World) :
  ((forall st session, q_state q = Some st ->
      authSessions w !! st = Some session -> ~ (expiresAt session < t)%Z) ->
   Router.callback idp env q (Router.sweep t w) =
     (fst (Router.callback idp env q w),
      Router.sweep t (snd (Router.callback idp env q w)))) /\
  (forall st session,
     opt_truthy (q_error q) = false -> q_state q = Some st ->
     str_truthy st = true -> authSessions w !! st = Some session ->
     (expiresAt session < t)%Z -> (t <= now env)%Z ->
     Router.callback idp env q w =
       (Redirect (DashboardError MSG_SESSION_EXPIRED),
        set_sessions (delete st) w) /\
     Router.callback idp env q (Router.sweep t w) =
       (Redirect (DashboardError MSG_INVALID_SESSION), Router.sweep t w)).
Proof.
  split.
  - intros Hsurvives.
    destruct (opt_truthy (q_error q)) eqn:Hnoerr.
    { unfold opt_truthy in Hnoerr.
      destruct (q_error q) as [err|] eqn:Herr; [|discriminate].
      now rewrite !(callback_provider_error idp env q err _ Herr Hnoerr). }
    unfold Router.callback. rewrite callback_body_no_error by assumption.
    destruct (q_state q) as [st|] eqn:Hq;
      [|rewrite !callback_validate_missing by congruence; reflexivity].
    destruct (str_truthy st) eqn:Hst.
    2:{ rewrite !callback_validate_missing; [reflexivity|..];
          intros st' Hq' Hst'; congruence. }
    destruct (authSessions w !! st) as [session|] eqn:Hs.
    2:{ rewrite !callback_validate_missing; [reflexivity|..];
          intros st' Hq' _; replace st' with st by congruence;
          first [assumption|now apply sweep_absent]. }
    assert (Hkept : authSessions (Router.sweep t w) !! st = Some session).
    { rewrite (sweep_lookup t st session w Hs).
      specialize (Hsurvives st session eq_refl Hs).
      apply Z.ltb_nlt in Hsurvives. now rewrite Hsurvives. }
    rewrite (callback_validate_found idp env q st session _ Hq Hst Hkept).
    rewrite (callback_validate_found idp env q st session _ Hq Hst Hs).
    rewrite sweep_consumed. unfold Router.sweep at 1.
    rewrite ignores_sessions_with_session.
    destruct (Router.callback_with_session idp env q st session
                (set_sessions (delete st) w)) as [[r|msg] w'];
      reflexivity.
  - intros st session Hnoerr Hq Hst Hs Hexpired Hnow. split.
    + unfold Router.callback. rewrite callback_body_no_error by assumption.
      rewrite (callback_validate_found idp env q st session _ Hq Hst Hs).
      unfold Router.callback_with_session.
      assert (Hlt : (expiresAt session <? now env)%Z = true)
        by (apply Z.ltb_lt; lia).
      now rewrite Hlt.
    + apply callback_unknown_state with (st := st); try assumption.
      rewrite (sweep_lookup t st session w Hs).
      apply Z.ltb_lt in Hexpired. now rewrite Hexpired.
Qed.

Lemma sweep_is_seen_only_in_the_message_witness :
  Router.callback example_idp after_expiry bob_returns
    (Router.sweep 600001 sso_world)
  = (Redirect (DashboardError MSG_INVALID_SESSION),
     Router.sweep 600001 sso_world).
Proof.
  destruct (sweep_is_seen_only_in_the_message example_idp after_expiry
              bob_returns 600001 sso_world) as [_ Hexpired].
  apply (Hexpired "s1" pending_s1); try reflexivity; cbn; lia.
Defined.

Section SettingsRuns.
Import oidcSocketHandler.

Lemma saveOidcSettings_accepted (socket : Socket) (data : OidcSettings)
  (w : World) :
  Permissions.checkAdmin socket = Return tt ->
  (truthy (oidcEntraEnabled data) = true ->
   truthy (oidcEntraTenantId data) = true /\
   truthy (oidcEntraClientId data) = true /\
   (truthy (stored w "oidcEntraClientSecret") = true \/
    truthy (oidcEntraClientSecret data) = true)) ->
  saveOidcSettings socket data w =
    (OkMsg "oidcSettingsSaved", set_settings (saved_settings data) w).
Proof.
  intros Hadmin Hvalid.
  unfold saveOidcSettings, try_catch, mbind, M_bind, call,
    saveOidcSettings_validate, mbind, M_bind.
  rewrite (checkAdmin_checkLogin _ Hadmin), Hadmin.
  destruct (truthy (oidcEntraEnabled data)).
  - destruct (Hvalid eq_refl) as (-> & -> & Hsecret).
    cbn [negb orb throw_if mret M_ret]. unfold Settings.get at 1.
    fold (stored w "oidcEntraClientSecret").
    replace (negb (truthy (stored w "oidcEntraClientSecret"))
             && negb (truthy (oidcEntraClientSecret data))) with false
      by (destruct Hsecret as [-> | ->]; cbn; now rewrite ?andb_false_r).
    cbn [throw_if mret M_ret]. now rewrite saveOidcSettings_store_eq.
  - cbn [mret M_ret]. now rewrite saveOidcSettings_store_eq.
Qed.

Lemma read_settings_after_save (data : OidcSettings) (w : World) :
  let w1 := set_settings (saved_settings data) w in
  enabled (read_settings w1) = is_true (oidcEntraEnabled data) /\
  tenantId (read_settings w1)
    = js_or (oidcEntraTenantId data) (JStr EmptyString) /\
  clientId (read_settings w1)
    = js_or (oidcEntraClientId data) (JStr EmptyString) /\
  clientSecret (read_settings w1)
    = (if new_secret (oidcEntraClientSecret data)
       then oidcEntraClientSecret data else stored w "oidcEntraClientSecret").
Proof.
  cbv zeta. unfold read_settings. cbn [enabled tenantId clientId clientSecret].
  destruct (stored_after_save data w) as (-> & -> & -> & -> & _).
  destruct (oidcEntraEnabled data) as [|[]| |]; repeat split.
Qed.

End SettingsRuns.

(** Sending the placeholder back as the secret can switch SSO on without
    a secret.  When no secret is stored and the payload enables SSO with a
    tenant id, a client id and ["********"] as the secret, the save is
    accepted, no secret is stored, the config leg reports SSO as enabled and
    the login leg answers 500, "Entra ID SSO is not properly configured". *)
Theorem placeholder_enables_sso_without_secret (socket : Socket)
  (data : OidcSettings) (w : World) :
  Permissions.checkAdmin socket = Return tt ->
  oidcEntraEnabled data = JBool true ->
  truthy (oidcEntraTenantId data) = true ->
  truthy (oidcEntraClientId data) = true ->
  oidcEntraClientSecret data = JStr SECRET_PLACEHOLDER ->
  truthy (stored w "oidcEntraClientSecret") = false ->
  let w1 := set_settings (saved_settings data) w in
  oidcSocketHandler.saveOidcSettings socket data w
    = (OkMsg "oidcSettingsSaved", w1) /\
  stored w1 "oidcEntraClientSecret" = stored w "oidcEntraClientSecret" /\
  Router.config w1 = (JsonEnabled true, w1) /\
  forall idp gen t req,
    Router.login idp gen t req w1
      = (JsonError 500 "Entra ID SSO is not properly configured", w1).
Proof.
  intros Hadmin Hen Ht Hc Hsecret Hnone w1.
  destruct (read_settings_after_save data w) as (He & Htenant & Hclient & Hs).
  fold w1 in He, Htenant, Hclient, Hs.
  rewrite Hsecret in Hs. cbn [oidcSocketHandler.new_secret] in Hs.
  rewrite sentinel_is_no_new_secret in Hs.
  split_and!.
  - apply saveOidcSettings_accepted; [assumption|].
    intros _. rewrite Ht, Hc, Hsecret. auto.
  - exact Hs.
  - unfold Router.config, Settings.get. fold (stored w1 "oidcEntraEnabled").
    change (is_true (stored w1 "oidcEntraEnabled"))
      with (enabled (read_settings w1)).
    rewrite He, Hen. reflexivity.
  - intros idp gen t req. unfold Router.login, mbind, M_bind.
    rewrite getOidcSettings_read, He, Hen, Hs, Hnone. cbn [is_true negb].
    now rewrite orb_true_r.
Qed.

Lemma placeholder_enables_sso_without_secret_witness :
  fst (oidcSocketHandler.saveOidcSettings alice_socket placeholder_payload
         example_world) = OkMsg "oidcSettingsSaved" /\
  Router.login example_idp example_generated 1000 example_request
    (set_settings (saved_settings placeholder_payload) example_world)
  = (JsonError 500 "Entra ID SSO is not properly configured",
     set_settings (saved_settings placeholder_payload) example_world).
Proof.
  destruct (placeholder_enables_sso_without_secret alice_socket
              placeholder_payload example_world)
    as (Hsave & _ & _ & Hlogin);
    [reflexivity|reflexivity|reflexivity|reflexivity|reflexivity|reflexivity|].
  split; [now rewrite Hsave|apply Hlogin].
Defined.

(** The stored [enabled] flag is true only for the boolean [true].  After
    a save that was accepted, the config leg reports exactly whether the
    payload's flag was the boolean [true]; a flag such as the string
    ["true"] is checked like an enabling one and yet leaves SSO switched
    off, the login leg answering 400, "Entra ID SSO is not enabled". *)
Theorem saved_flag_is_enabled_only_if_boolean (socket : Socket)
  (data : OidcSettings) (w w1 : World) (m : string) :
  oidcSocketHandler.saveOidcSettings socket data w = (OkMsg m, w1) ->
  Router.config w1 = (JsonEnabled (is_true (oidcEntraEnabled data)), w1) /\
  (is_true (oidcEntraEnabled data) = false ->
   forall idp gen t req,
     Router.login idp gen t req w1
       = (JsonError 400 "Entra ID SSO is not enabled", w1)).
Proof.
  intros Hsave.
  destruct (saveOidcSettings_cases socket data w) as [[msg Hfail]|[_ Hok]];
    [rewrite Hfail in Hsave; discriminate|].
  rewrite Hok in Hsave. inversion Hsave; subst m w1. clear Hsave Hok.
  destruct (read_settings_after_save data w) as (He & _).
  split.
  - unfold Router.config, Settings.get.
    change (is_true (default JUndef
                       (settings (set_settings (saved_settings data) w)
                          !! "oidcEntraEnabled")))
      with (enabled (read_settings (set_settings (saved_settings data) w))).
    now rewrite He.
  - intros Hoff idp gen t req. unfold Router.login, mbind, M_bind.
    now rewrite getOidcSettings_read, He, Hoff.
Qed.

Lemma saved_flag_is_enabled_only_if_boolean_witness :
  Router.config (snd (oidcSocketHandler.saveOidcSettings alice_socket
                        string_flag_payload example_world))
  = (JsonEnabled false,
     snd (oidcSocketHandler.saveOidcSettings alice_socket string_flag_payload
            example_world)).
Proof.
  apply (saved_flag_is_enabled_only_if_boolean alice_socket string_flag_payload
           example_world _ "oidcSettingsSaved").
  reflexivity.
Defined.

(** ** The text field of the allowed groups *)

(** Whatever the administrator types
    into the field of the allowed groups, the field then shows the groups
    joined with a comma and a space; typing what it shows changes nothing,
    and the server parses that text, sent as a string, to the same groups. *)
Theorem allowedGroupsText_round_trip (text : string) (page : Page) :
  let page1 := OidcSettingsPage.allowedGroupsText_set text page in
  exists shown,
    OidcSettingsPage.allowedGroupsText_get page1 = JStr shown /\
    OidcSettingsPage.allowedGroupsText_set shown page1 = page1 /\
    oidcSocketHandler.parse_groups shown
      = OidcSettingsPage.groups_of_text text.
Proof.
  cbv zeta.
  exists (String.concat ", " (OidcSettingsPage.groups_of_text text)).
  pose proof (parse_groups_joined _ (parse_groups_clean text)) as Hjoin.
  change oidcSocketHandler.parse_groups
    with OidcSettingsPage.groups_of_text in Hjoin.
  split_and!.
  - reflexivity.
  - unfold OidcSettingsPage.allowedGroupsText_set.
    cbn [page_settings hasExistingSecret page_loaded
         OidcSettingsPage.with_groups oidcEntraEnabled oidcEntraTenantId
         oidcEntraClientId oidcEntraClientSecret oidcEntraDefaultRole
         oidcEntraAutoCreateUsers].
    now rewrite Hjoin.
  - exact Hjoin.
Qed.

(** ** Loading the page and saving it again *)

Section PageRuns.
Import oidcSocketHandler.

Lemma saved_settings_id (data : OidcSettings) (m : gmap string jsval) :
  m !! "oidcEntraEnabled" = Some (JBool (is_true (oidcEntraEnabled data))) ->
  m !! "oidcEntraTenantId"
    = Some (js_or (oidcEntraTenantId data) (JStr EmptyString)) ->
  m !! "oidcEntraClientId"
    = Some (js_or (oidcEntraClientId data) (JStr EmptyString)) ->
  new_secret (oidcEntraClientSecret data) = false ->
  m !! "oidcEntraAllowedGroups"
    = Some (js_or (match oidcEntraAllowedGroups data with
                   | JStr s => JArr (parse_groups s)
                   | v => v
                   end) (JArr [])) ->
  m !! "oidcEntraDefaultRole"
    = Some (js_or (oidcEntraDefaultRole data) (JStr "viewer")) ->
  m !! "oidcEntraAutoCreateUsers"
    = Some (JBool (is_not_false (oidcEntraAutoCreateUsers data))) ->
  saved_settings data m = m.
Proof.
  intros H1 H2 H3 Hnew H5 H6 H7. unfold saved_settings. rewrite Hnew.
  rewrite (insert_id m _ _ H1), (insert_id m _ _ H2), (insert_id m _ _ H3),
    (insert_id m _ _ H5), (insert_id m _ _ H6).
  exact (insert_id m _ _ H7).
Qed.

Lemma lookup_after_save (data : OidcSettings) (m : gmap string jsval) :
  let m1 := saved_settings data m in
  m1 !! "oidcEntraEnabled" = Some (JBool (is_true (oidcEntraEnabled data))) /\
  m1 !! "oidcEntraTenantId"
    = Some (js_or (oidcEntraTenantId data) (JStr EmptyString)) /\
  m1 !! "oidcEntraClientId"
    = Some (js_or (oidcEntraClientId data) (JStr EmptyString)) /\
  m1 !! "oidcEntraAllowedGroups"
    = Some (js_or (match oidcEntraAllowedGroups data with
                   | JStr s => JArr (parse_groups s)
                   | v => v
                   end) (JArr [])) /\
  m1 !! "oidcEntraDefaultRole"
    = Some (js_or (oidcEntraDefaultRole data) (JStr "viewer")) /\
  m1 !! "oidcEntraAutoCreateUsers"
    = Some (JBool (is_not_false (oidcEntraAutoCreateUsers data))).
Proof.
  cbv zeta. unfold saved_settings.
  destruct (new_secret _);
    split_and!; repeat (rewrite lookup_insert_ne by discriminate);
    apply lookup_insert_eq.
Qed.

Lemma loaded_secret_is_empty (s : OidcSettings) (stored_secret : jsval) :
  oidcEntraClientSecret s
    = (if truthy stored_secret then JStr SECRET_PLACEHOLDER
       else JStr EmptyString) ->
  oidcEntraClientSecret
    (page_settings (OidcSettingsPage.loadOidcSettings (OkSettings s)
                      OidcSettingsPage.data)) = JStr EmptyString.
Proof.
  intros Hs. unfold OidcSettingsPage.loadOidcSettings. cbn [page_settings].
  destruct (truthy stored_secret); rewrite Hs.
  - rewrite bool_decide_eq_true_2 by reflexivity. reflexivity.
  - rewrite bool_decide_eq_false_2 by discriminate. exact Hs.
Qed.

Lemma loaded_other_fields (s : OidcSettings) :
  let p := page_settings (OidcSettingsPage.loadOidcSettings (OkSettings s)
                            OidcSettingsPage.data) in
  oidcEntraEnabled p = oidcEntraEnabled s /\
  oidcEntraTenantId p = oidcEntraTenantId s /\
  oidcEntraClientId p = oidcEntraClientId s /\
  oidcEntraAllowedGroups p = oidcEntraAllowedGroups s /\
  oidcEntraDefaultRole p = oidcEntraDefaultRole s /\
  oidcEntraAutoCreateUsers p = oidcEntraAutoCreateUsers s.
Proof.
  cbv zeta. unfold OidcSettingsPage.loadOidcSettings. cbn [page_settings].
  destruct (bool_decide _); split_and!; reflexivity.
Qed.

End PageRuns.

(** Once the settings have been
    saved through the handler, an administrator who opens the page and saves
    it without an edit changes nothing in the state, whether the save is
    accepted or refused: the page sends back what the handler normalised,
    and an empty secret, which the handler does not store. *)
Theorem reload_then_save_changes_nothing
  (socket0 socket : Socket) (data0 : OidcSettings) (msg : string)
  (w0 w : World) :
  oidcSocketHandler.saveOidcSettings socket0 data0 w0 = (OkMsg msg, w) ->
  let page :=
    OidcSettingsPage.loadOidcSettings
      (fst (oidcSocketHandler.getOidcSettings socket w))
      OidcSettingsPage.data in
  snd (oidcSocketHandler.saveOidcSettings socket
         (OidcSettingsPage.saveOidcSettings page) w) = w.
Proof.
  intros Hsaved page.
  destruct (saveOidcSettings_cases socket
              (OidcSettingsPage.saveOidcSettings page) w)
    as [[m ->] | [Hadmin ->]]; [reflexivity|].
  cbn [snd].
  destruct (saveOidcSettings_cases socket0 data0 w0)
    as [[m Hfail] | [_ Hok]]; [congruence|].
  assert (w = set_settings (saved_settings data0) w0) as Hw by congruence.
  subst page. rewrite (socket_getOidcSettings _ _ Hadmin). cbn [fst].
  unfold OidcSettingsPage.saveOidcSettings.
  match goal with
  | |- context [OidcSettingsPage.loadOidcSettings (OkSettings ?s) _] =>
      pose proof (loaded_secret_is_empty s
                    (stored w "oidcEntraClientSecret") eq_refl) as Hsecret;
      destruct (loaded_other_fields s) as (He & Ht & Hc & Hg & Hr & Ha);
      cbn [oidcEntraEnabled oidcEntraTenantId oidcEntraClientId
           oidcEntraAllowedGroups oidcEntraDefaultRole
           oidcEntraAutoCreateUsers] in He, Ht, Hc, Hg, Hr, Ha;
      set (p := page_settings
                  (OidcSettingsPage.loadOidcSettings (OkSettings s) _)) in *
  end.
  destruct (stored_after_save data0 w0) as (Se & St & Sc & _ & Sg & Sr & Sa).
  cbv zeta in Se, St, Sc, Sg, Sr, Sa. rewrite <- Hw in Se, St, Sc, Sg, Sr, Sa.
  rewrite Se in He. rewrite St in Ht. rewrite Sc in Hc. rewrite Sg in Hg.
  rewrite Sr in Hr. rewrite Sa in Ha.
  destruct (lookup_after_save data0 (settings w0))
    as (Le & Lt & Lc & Lg & Lr & La).
  cbv zeta in Le, Lt, Lc, Lg, Lr, La.
  assert (settings w = saved_settings data0 (settings w0)) as Hsettings
    by (now rewrite Hw).
  rewrite <- Hsettings in Le, Lt, Lc, Lg, Lr, La.
  assert (saved_settings p (settings w) = settings w) as Hid.
  { apply saved_settings_id.
    - rewrite He, Le. now destruct (oidcEntraEnabled data0) as [|[]| |].
    - now rewrite Ht, !js_or_idem.
    - now rewrite Hc, !js_or_idem.
    - now rewrite Hsecret.
    - rewrite Hg, Lg.
      now destruct (oidcEntraAllowedGroups data0) as [|[]| |].
    - now rewrite Hr, !js_or_idem.
    - rewrite Ha, La. now destruct (oidcEntraAutoCreateUsers data0) as [|[]| |].
  }
  unfold set_settings. rewrite Hid. now destruct w.
Qed.

Lemma reload_then_save_changes_nothing_witness :
  snd (oidcSocketHandler.saveOidcSettings alice_socket
         (OidcSettingsPage.saveOidcSettings
            (OidcSettingsPage.loadOidcSettings
               (fst (oidcSocketHandler.getOidcSettings alice_socket
                       (set_settings (saved_settings example_payload)
                          example_world)))
               OidcSettingsPage.data))
         (set_settings (saved_settings example_payload) example_world))
  = set_settings (saved_settings example_payload) example_world.
Proof.
  apply (reload_then_save_changes_nothing alice_socket alice_socket
           example_payload "oidcSettingsSaved" example_world).
  apply saveOidcSettings_accepted; [reflexivity|].
  intros _. split_and!; [reflexivity|reflexivity|].
  right. reflexivity.
Defined.

(** ["getOidcSettings"], ["getUsers"] and
    ["linkEntraAccount"] leave the state as it was, for every socket and
    whatever they answer. *)
Theorem read_events_change_nothing (socket : Socket) (w : World) :
  snd (oidcSocketHandler.getOidcSettings socket w) = w /\
  snd (userEvents.getUsers socket w) = w /\
  snd (userEvents.linkEntraAccount socket w) = w.
Proof.
  split_and!.
  - unfold oidcSocketHandler.getOidcSettings, try_catch, mbind, M_bind, call.
    destruct (checkLogin socket); [|reflexivity].
    destruct (Permissions.checkAdmin socket); reflexivity.
  - unfold userEvents.getUsers, mbind, M_bind, call.
    destruct (checkLogin socket); [|reflexivity].
    destruct (Permissions.checkAdmin socket); reflexivity.
  - unfold userEvents.linkEntraAccount, mbind, M_bind, call.
    destruct (checkLogin socket); [|reflexivity].
    destruct (userID socket) as [uid|]; [|reflexivity].
    unfold R.findOne_active_user.
    destruct (users w !! uid) as [u|]; [|reflexivity].
    destruct (active u); reflexivity.
Qed.
